(** * SWARM-SIGNAL-OS: the hub of [main.py]

    A shallow embedding of the FastAPI hub: the three module-level
    containers ([publish_clients], [dashboard_clients], [junctions]), the
    [broadcast] helper, the two WebSocket handlers and the override route.

    Conventions of the embedding.
    - A JSON text frame is represented by the value it denotes: what
      [json.dumps v] puts on the wire is [v] itself, and what a producer
      sends is either malformed or the value [json.loads] returns.
    - [send_text] is one action on the wire, and [accept] succeeds.
    - [broadcast] is suspended once per client, in [await
      client.send_text(message)], and other tasks run there: what they do
      to [dashboard_clients] meanwhile is an argument of [broadcast].  The
      handlers and the route are modelled for the case in which the
      registry is left alone while their [broadcast] waits ([broadcast []]);
      [publish_turn_among] is the producer turn without that proviso.
    - Python exceptions are values of [exn]; a computation returns the
      memory it leaves behind together with either an exception or a
      result, so that writes made before a raise stay visible. *)

From Stdlib Require Import ZArith Ascii String List SpecFloat.
From stdpp Require Import base gmap sets list strings pretty.

Local Open Scope string_scope.
Local Open Scope list_scope.
Local Open Scope Z_scope.

(** ** JSON values, as [json.loads] builds them *)

#[local] Unset Elimination Schemes.
Inductive json : Type :=
| JNull
| JBool (b : bool)
| JInt (n : Z)
| JFloat (x : spec_float)
| JStr (s : string)
| JList (l : list json)
| JDict (d : list (string * json)).
#[local] Set Elimination Schemes.

(** A Python [dict] with string keys: insertion-ordered association list. *)
Abbreviation obj := (list (string * json)).

(** ** Insertion-ordered dictionaries *)

Module Dict.
Section Ops.
Context {K V : Type} `{EqDecision K}.

(** [d.get(k)] *)
Fixpoint get (k : K) (d : list (K * V)) : option V :=
  match d with
  | [] => None
  | (k', v) :: rest => if decide (k = k') then Some v else get k rest
  end.

(** [k in d] *)
Definition mem (k : K) (d : list (K * V)) : bool :=
  match get k d with Some _ => true | None => false end.

(** [d[k] = v]: an existing key keeps its position, a new one goes last. *)
Fixpoint set (k : K) (v : V) (d : list (K * V)) : list (K * V) :=
  match d with
  | [] => [(k, v)]
  | (k', v') :: rest =>
      if decide (k = k') then (k', v) :: rest else (k', v') :: set k v rest
  end.

(** [list(d.keys())] and [list(d.values())] *)
Definition keys (d : list (K * V)) : list K := map fst d.
Definition values (d : list (K * V)) : list V := map snd d.
End Ops.
End Dict.

(** ** Exceptions *)

Inductive exn : Type :=
| KeyError | TypeError | ValueError | AttributeError | OverflowError
| JSONDecodeError | RuntimeError | WebSocketDisconnect.

#[global] Instance exn_eq_dec : EqDecision exn.
Proof. solve_decision. Defined.

(** ** Keys of [junctions]

    [junctions[jid] = msg] hashes whatever [msg["junction_id"]] is.  Python
    identifies numeric keys by value ([True == 1 == 1.0]), keeps strings and
    [None] apart from numbers, and refuses lists and dicts. *)

Inductive pykey : Type :=
| KNone
| KNum (n : Z)                               (* int, bool, integral float *)
| KFrac (neg : bool) (m : positive) (e : Z)  (* other finite float: m odd, e < 0 *)
| KInf (neg : bool)
| KNaN                                       (* the decoder's single NaN object *)
| KStr (s : string).

#[global] Instance pykey_eq_dec : EqDecision pykey.
Proof. solve_decision. Defined.

Definition signed (neg : bool) (n : Z) : Z := if neg then - n else n.

(** Drop the trailing zero bits of a mantissa. *)
Fixpoint strip (m : positive) (e : Z) : positive * Z :=
  match m with
  | xO p => strip p (e + 1)
  | _ => (m, e)
  end.

Definition float_key (x : spec_float) : pykey :=
  match x with
  | S754_zero _ => KNum 0
  | S754_infinity s => KInf s
  | S754_nan => KNaN
  | S754_finite s m e =>
      let '(m', e') := strip m e in
      if 0 <=? e' then KNum (signed s (Z.shiftl (Z.pos m') e')) else KFrac s m' e'
  end.

(** [hash(v)] followed by key comparison; [inl TypeError] is "unhashable". *)
Definition key_of (v : json) : exn + pykey :=
  match v with
  | JNull => inr KNone
  | JBool b => inr (KNum (if b then 1 else 0))
  | JInt n => inr (KNum n)
  | JFloat x => inr (float_key x)
  | JStr s => inr (KStr s)
  | JList _ | JDict _ => inl TypeError
  end.

(** ** The hub's memory and its environment *)

(** A [WebSocket] object, by identity. *)
Abbreviation ws := positive.

(** One call of [client.send_text(message)] and how it ended. *)
Record send : Type := Send { to : ws; body : json; delivered : bool }.

(** [datetime.datetime.now(datetime.timezone.utc)] *)
Record datetime : Type := DateTime {
  year : nat; month : nat; day : nat;
  hour : nat; minute : nat; second : nat; microsecond : nat
}.

Record Hub : Type := mkHub {
  publish_clients : gset ws;
  dashboard_clients : gset ws;
  junctions : list (pykey * obj);
  (* environment *)
  broken : gmap ws exn;     (* transports on which [send_text] raises, and what *)
  wire : list send;         (* every [send_text] call so far, oldest first *)
  clock : nat -> datetime;  (* successive readings of the system clock *)
  ticks : nat               (* readings taken so far *)
}.

Definition with_publish (f : gset ws -> gset ws) (h : Hub) : Hub :=
  mkHub (f (publish_clients h)) (dashboard_clients h) (junctions h)
        (broken h) (wire h) (clock h) (ticks h).
Definition with_dashboard (f : gset ws -> gset ws) (h : Hub) : Hub :=
  mkHub (publish_clients h) (f (dashboard_clients h)) (junctions h)
        (broken h) (wire h) (clock h) (ticks h).
Definition with_junctions (f : list (pykey * obj) -> list (pykey * obj)) (h : Hub) : Hub :=
  mkHub (publish_clients h) (dashboard_clients h) (f (junctions h))
        (broken h) (wire h) (clock h) (ticks h).
Definition with_wire (f : list send -> list send) (h : Hub) : Hub :=
  mkHub (publish_clients h) (dashboard_clients h) (junctions h)
        (broken h) (f (wire h)) (clock h) (ticks h).
Definition with_ticks (f : nat -> nat) (h : Hub) : Hub :=
  mkHub (publish_clients h) (dashboard_clients h) (junctions h)
        (broken h) (wire h) (clock h) (f (ticks h)).

(** ** Computations: state plus exceptions *)

Definition M (A : Type) : Type := Hub -> Hub * (exn + A).

Definition ret {A} (a : A) : M A := fun h => (h, inr a).
Definition raise {A} (e : exn) : M A := fun h => (h, inl e).
Definition bind {A B} (m : M A) (k : A -> M B) : M B :=
  fun h => match m h with
           | (h', inr a) => k a h'
           | (h', inl e) => (h', inl e)
           end.
(** [try: m  except Exception: ...] as a value. *)
Definition try {A} (m : M A) : M (exn + A) :=
  fun h => let '(h', r) := m h in (h', inr r).
Definition gets {A} (f : Hub -> A) : M A := fun h => (h, inr (f h)).
Definition modify (f : Hub -> Hub) : M unit := fun h => (f h, inr tt).
Definition lift {A} (r : exn + A) : M A := fun h => (h, r).

Notation "'let!' x ':=' m 'in' k" := (bind m (fun x => k))
  (at level 10, x name, m at level 100, k at level 200).
Notation "'do!' m 'in' k" := (bind m (fun _ => k))
  (at level 10, m at level 100, k at level 200).

(** [s.remove(x)]: [KeyError] when [x] is not a member. *)
Definition set_remove (x : ws) (s : gset ws) : exn + gset ws :=
  if decide (x ∈ s) then inr (s ∖ {[x]}) else inl KeyError.

Definition remove_dashboard (client : ws) : M unit :=
  let! s := gets dashboard_clients in
  let! s' := lift (set_remove client s) in
  modify (with_dashboard (fun _ => s')).

Definition remove_publish (client : ws) : M unit :=
  let! s := gets publish_clients in
  let! s' := lift (set_remove client s) in
  modify (with_publish (fun _ => s')).

(** [await client.send_text(message)] *)
Definition send_text (client : ws) (message : json) : M unit :=
  fun h => match broken h !! client with
           | Some e => (with_wire (fun w => w ++ [Send client message false]) h, inl e)
           | None => (with_wire (fun w => w ++ [Send client message true]) h, inr tt)
           end.

(** ** [broadcast]

    [for client in dashboard_clients] walks the live set, and its body
    waits in [await client.send_text(message)]; between two steps of the
    set's iterator other tasks run and may change the set. *)

(** What another task does to [dashboard_clients]. *)
Inductive change : Type :=
| Joins (c : ws)     (* [dashboard_clients.add(ws)]: a dashboard handler starts *)
| Leaves (c : ws).   (* [dashboard_clients.remove(ws)]: a handler ends, or
                        another [broadcast] removes a dead client *)

(** One wait of the sweep: the changes made meanwhile, in order, and, for
    the case that they touched the set, the clients its iterator goes on to
    yield.  That sequence is decided by the layout of the set's hash table,
    which the model does not have: it is an input. *)
Record pause : Type := Pause { changes : list change; resumed : list ws }.

(** Adding a member and removing a non-member (which raises in the task
    that tries) leave the set untouched. *)
Definition touch (st : gset ws * bool) (ch : change) : gset ws * bool :=
  match ch with
  | Joins c => if decide (c ∈ st.1) then st else (st.1 ∪ {[c]}, true)
  | Leaves c => if decide (c ∈ st.1) then (st.1 ∖ {[c]}, true) else st
  end.

(** The other tasks' run during one wait; the result tells whether the
    set was touched. *)
Definition meanwhile (p : pause) : M bool :=
  fun h =>
    let st := fold_left touch (changes p) (dashboard_clients h, false) in
    (with_dashboard (fun _ => st.1) h, inr st.2).

(** Each step of a set's iterator first compares the set's size with the
    size it had when the loop began:
    [RuntimeError: Set changed size during iteration]. *)
Definition unchanged_size (used : nat) : M unit :=
  let! s := gets dashboard_clients in
  if decide (size s = used) then ret tt else raise RuntimeError.

(** [except Exception: dead_clients.append(client)] *)
Definition collect (dead_clients : list ws) (client : ws) (r : exn + unit) : list ws :=
  match r with
  | inr _ => dead_clients
  | inl _ => dead_clients ++ [client]
  end.

(** The delivery sweep, [for client in dashboard_clients: try ... except],
    once the other tasks do nothing more: [pending] is what the iterator
    has still to yield, [used] the size it recorded. *)
Fixpoint sweep_alone (message : json) (used : nat) (pending dead_clients : list ws)
  : M (list ws) :=
  do! unchanged_size used in
  match pending with
  | [] => ret dead_clients
  | client :: rest =>
      let! r := try (send_text client message) in
      sweep_alone message used rest (collect dead_clients client r)
  end.

(** The sweep among other tasks: [others] says what happens during its
    first wait, its second, and so on; nothing happens after the last. *)
Fixpoint sweep (others : list pause) (message : json) (used : nat)
    (pending dead_clients : list ws) : M (list ws) :=
  match others with
  | [] => sweep_alone message used pending dead_clients
  | p :: later =>
      do! unchanged_size used in
      match pending with
      | [] => ret dead_clients
      | client :: rest =>
          let! r := try (send_text client message) in
          let! touched := meanwhile p in
          sweep later message used (if touched then resumed p else rest)
            (collect dead_clients client r)
      end
  end.

(** [for client in dead_clients: dashboard_clients.remove(client)]; there
    is no wait in this loop. *)
Fixpoint reap (dead_clients : list ws) : M unit :=
  match dead_clients with
  | [] => ret tt
  | client :: rest => do! remove_dashboard client in reap rest
  end.

Definition broadcast (others : list pause) (message : json) : M unit :=
  let! clients := gets (fun h => elements (dashboard_clients h)) in
  let! dead_clients := sweep others message (length clients) clients [] in
  reap dead_clients.

(** ** Built-ins the handlers call *)

(** [int(s)] on a [str] is Python's own parser (whitespace, sign,
    underscores, any Unicode decimal digit); it is left open, [None]
    standing for [ValueError]. *)
Class Builtins : Type := { int_of_str : string -> option Z }.

(** [int(x)] on a float truncates towards zero. *)
Definition float_trunc (x : spec_float) : exn + Z :=
  match x with
  | S754_zero _ => inr 0
  | S754_infinity _ => inl OverflowError
  | S754_nan => inl ValueError
  | S754_finite s m e => inr (signed s (Z.shiftl (Z.pos m) e))
  end.

Definition py_int `{Builtins} (v : json) : exn + Z :=
  match v with
  | JNull => inl TypeError
  | JBool b => inr (if b then 1 else 0)
  | JInt n => inr n
  | JFloat x => float_trunc x
  | JStr s => match int_of_str s with Some n => inr n | None => inl ValueError end
  | JList _ | JDict _ => inl TypeError
  end.

(** [d[k]] on a dict *)
Definition subscript {K V} `{EqDecision K} (d : list (K * V)) (k : K) : exn + V :=
  match Dict.get k d with
  | Some v => inr v
  | None => inl KeyError
  end.

(** [v == s] for a string literal [s] *)
Definition eq_str (v : json) (s : string) : bool :=
  match v with
  | JStr s' => bool_decide (s' = s)
  | _ => false
  end.

(** [datetime.isoformat()] of an aware UTC reading:
    [YYYY-MM-DDTHH:MM:SS[.ffffff]+00:00]. *)
Fixpoint zeros (n : nat) : string :=
  match n with
  | O => ""
  | S n' => "0" +:+ zeros n'
  end.

Definition pad (width n : nat) : string :=
  let digits := pretty n in
  zeros (width - String.length digits)%nat +:+ digits.

Definition local_part (t : datetime) : string :=
  pad 4 (year t) +:+ "-" +:+ pad 2 (month t) +:+ "-" +:+ pad 2 (day t) +:+ "T" +:+
  pad 2 (hour t) +:+ ":" +:+ pad 2 (minute t) +:+ ":" +:+ pad 2 (second t) +:+
  (if Nat.eqb (microsecond t) 0 then "" else "." +:+ pad 6 (microsecond t)).

Definition isoformat (t : datetime) : string := local_part t +:+ "+00:00".

(** [datetime.datetime.now(datetime.timezone.utc).isoformat()] *)
Definition now_iso : M string :=
  fun h => (with_ticks S h, inr (isoformat (clock h (ticks h)))).

(** A text frame: what [json.loads] makes of it. *)
Inductive text : Type := Malformed | Encodes (v : json).

Definition loads (data : text) : exn + json :=
  match data with
  | Malformed => inl JSONDecodeError
  | Encodes v => inr v
  end.

(** The outcome of [await ws.receive_text()]: a frame, or the exception
    raised ([WebSocketDisconnect] when the peer went away). *)
Abbreviation received := (exn + text)%type.

(** [try: body  except WebSocketDisconnect: cleanup]; the result tells
    whether control is still inside the [try] block. *)
Definition until_disconnect (cleanup : M unit) (body : M unit) : M bool :=
  let! r := try body in
  match r with
  | inr _ => ret true
  | inl WebSocketDisconnect => do! cleanup in ret false
  | inl e => raise e
  end.

(** A handler's [while True] loop over the frames that arrive: [true] when
    it is left waiting in [receive_text], [false] when it has returned. *)
Fixpoint serve (turn : received -> M bool) (inbox : list received) : M bool :=
  match inbox with
  | [] => ret true
  | r :: rest =>
      let! again := turn r in
      if again then serve turn rest else ret false
  end.

(** ** [ws_publish] *)

(** The body of the loop once [receive_text] has returned [data];
    [others] is what the other tasks do while [broadcast] waits. *)
Definition on_publish (others : list pause) (data : text) : M unit :=
  let! msg := lift (loads data) in
  match msg with
  | JDict d =>
      if eq_str (default JNull (Dict.get "type" d)) "junction_update" then
        let! v := lift (subscript d "junction_id") in
        let! jid := lift (key_of v) in
        do! modify (with_junctions (Dict.set jid d)) in
        broadcast others msg
      else ret tt
  | _ => raise AttributeError        (* [msg.get] on a non-dict *)
  end.

(** One turn of the loop under the handler's [except WebSocketDisconnect]. *)
Definition publish_turn_among (others : list pause) (ws : ws) (r : received) : M bool :=
  until_disconnect (remove_publish ws)
    (let! data := lift r in on_publish others data).

(** The turn when the registry is left alone while it broadcasts. *)
Definition publish_turn (ws : ws) (r : received) : M bool :=
  publish_turn_among [] ws r.

(** [await ws.accept(); publish_clients.add(ws)] *)
Definition publish_open (ws : ws) : M bool :=
  do! modify (with_publish (fun s => s ∪ {[ws]})) in ret true.

Definition ws_publish (ws : ws) (inbox : list received) : M bool :=
  let! again := publish_open ws in
  if again then serve (publish_turn ws) inbox else ret false.

(** ** [ws_dashboard] *)

Definition snapshot_of (h : Hub) : json :=
  JDict [("type", JStr "snapshot");
         ("junctions", JList (map JDict (Dict.values (junctions h))))].

(** [accept], [add], then the snapshot, under the handler's [except]. *)
Definition dashboard_open (ws : ws) : M bool :=
  do! modify (with_dashboard (fun s => s ∪ {[ws]})) in
  until_disconnect (remove_dashboard ws)
    (let! snapshot := gets snapshot_of in send_text ws snapshot).

(** [await ws.receive_text()] with the result thrown away. *)
Definition dashboard_turn (ws : ws) (r : received) : M bool :=
  until_disconnect (remove_dashboard ws)
    (let! _ := lift r in ret tt).

Definition ws_dashboard (ws : ws) (inbox : list received) : M bool :=
  let! again := dashboard_open ws in
  if again then serve (dashboard_turn ws) inbox else ret false.

(** ** [override_junction] *)

(** [junctions[jid][field] = v] *)
Definition set_field (jid : pykey) (field : string) (v : json) : M unit :=
  let! table := gets junctions in
  let! record := lift (subscript table jid) in
  modify (with_junctions (Dict.set jid (Dict.set field v record))).

Definition override_event (jid : string) (payload : obj) (ts : string) : obj :=
  [("type", JStr "override"); ("junction_id", JStr jid);
   ("payload", JDict payload); ("ts", JStr ts)].

Definition override_junction `{Builtins} (jid : string) (payload : obj) : M obj :=
  let lane := default JNull (Dict.get "lane" payload) in
  let! duration := lift (py_int (default (JInt 20) (Dict.get "duration" payload))) in
  let operator := default (JStr "manual") (Dict.get "operator" payload) in
  let reason := default (JStr "Manual override") (Dict.get "reason" payload) in
  let! table := gets junctions in
  do! (if Dict.mem (KStr jid) table then ret tt
       else modify (with_junctions (Dict.set (KStr jid) [("junction_id", JStr jid)]))) in
  do! set_field (KStr jid) "current_green" lane in
  do! set_field (KStr jid) "phase_remaining" (JInt duration) in
  let! time := now_iso in
  do! set_field (KStr jid) "override"
        (JDict [("operator", operator); ("reason", reason); ("time", JStr time)]) in
  let! ts := now_iso in
  let event := override_event jid payload ts in
  do! broadcast [] (JDict event) in
  let! table := gets junctions in
  let! applied_state := lift (subscript table (KStr jid)) in
  ret [("status", JStr "ok"); ("event", JDict event);
       ("applied_state", JDict applied_state)].

(** ** The running hub

    Connections come and go while overrides are posted.  A handler that is
    waiting in [receive_text] is a task; an event lets one handler run up to
    its next wait (or to its end), exactly as the definitions above say. *)

Inductive role : Type := Producer | Dashboard.

Record System : Type := mkSystem {
  hub : Hub;
  tasks : gmap ws role;   (* handlers suspended in [receive_text] *)
  accepted : gset ws      (* every WebSocket the server has accepted *)
}.

Inductive event : Type :=
| Connect (r : role) (ws : ws)           (* a new WebSocket reaches its endpoint *)
| Receive (ws : ws) (r : received)       (* [receive_text] of a waiting handler completes *)
| Post (jid : string) (payload : obj)    (* POST /api/junctions/{jid}/override *)
| Break (ws : ws) (e : exn).             (* the transport starts raising on send *)

Definition with_broken (f : gmap ws exn -> gmap ws exn) (h : Hub) : Hub :=
  mkHub (publish_clients h) (dashboard_clients h) (junctions h)
        (f (broken h)) (wire h) (clock h) (ticks h).

Definition open_as (r : role) : ws -> M bool :=
  match r with Producer => publish_open | Dashboard => dashboard_open end.

Definition turn_as (r : role) : ws -> received -> M bool :=
  match r with Producer => publish_turn | Dashboard => dashboard_turn end.

(** Whether the handler is still waiting after its run. *)
Definition waiting (res : exn + bool) : bool :=
  match res with inr true => true | _ => false end.

Definition fire `{Builtins} (ev : event) (s : System) : System :=
  match ev with
  | Connect r ws =>
      if decide (ws ∈ accepted s) then s       (* a WebSocket object is accepted once *)
      else
        let '(h', res) := open_as r ws (hub s) in
        mkSystem h'
          (if waiting res then <[ws := r]> (tasks s) else tasks s)
          (accepted s ∪ {[ws]})
  | Receive ws r =>
      match tasks s !! ws with
      | None => s                              (* nobody is waiting on it *)
      | Some role =>
          let '(h', res) := turn_as role ws r (hub s) in
          mkSystem h'
            (if waiting res then tasks s else delete ws (tasks s))
            (accepted s)
      end
  | Post jid payload =>
      let '(h', _) := override_junction jid payload (hub s) in
      mkSystem h' (tasks s) (accepted s)
  | Break ws e =>
      mkSystem (with_broken (fun b => <[ws := e]> b) (hub s)) (tasks s) (accepted s)
  end.

Definition run `{Builtins} (evs : list event) (s : System) : System :=
  fold_left (fun s ev => fire ev s) evs s.

(** The server right after start-up. *)
Definition boot (clock : nat -> datetime) : System :=
  mkSystem (mkHub ∅ ∅ [] ∅ [] clock 0%nat) ∅ ∅.

(** * Vocabulary for the statements *)

(** Whether [send_text] to [c] goes through. *)
Definition healthy (h : Hub) (c : ws) : bool :=
  match broken h !! c with Some _ => false | None => true end.

(** What one call of [broadcast] does when the registry is left alone,
    in closed form. *)
Definition failed (h : Hub) : list ws :=
  filter (fun c => healthy h c = false) (elements (dashboard_clients h)).

Definition calls (message : json) (h : Hub) : list send :=
  map (fun c => Send c message (healthy h c)) (elements (dashboard_clients h)).

(** No other task changes the registry during the waits. *)
Definition quiet (others : list pause) : Prop :=
  Forall (fun p => changes p = []) others.

(** The sends a computation has added to the wire. *)
Definition sent_since (h h' : Hub) : list send := drop (length (wire h)) (wire h').

Definition placeholder (jid : string) : obj := [("junction_id", JStr jid)].

Definition descriptor (operator reason : json) (time : string) : json :=
  JDict [("operator", operator); ("reason", reason); ("time", JStr time)].

(** The three assignments of the route, applied to a record. *)
Definition overridden (lane : json) (duration : Z) (operator reason : json)
    (time : string) (record : obj) : obj :=
  Dict.set "override" (descriptor operator reason time)
    (Dict.set "phase_remaining" (JInt duration)
       (Dict.set "current_green" lane record)).

Definition response (event applied_state : obj) : obj :=
  [("status", JStr "ok"); ("event", JDict event);
   ("applied_state", JDict applied_state)].

(** The request as the route reads it. *)
Definition lane_of (payload : obj) : json := default JNull (Dict.get "lane" payload).
Definition duration_of (payload : obj) : json :=
  default (JInt 20) (Dict.get "duration" payload).
Definition operator_of (payload : obj) : json :=
  default (JStr "manual") (Dict.get "operator" payload).
Definition reason_of (payload : obj) : json :=
  default (JStr "Manual override") (Dict.get "reason" payload).

(** The record the route leaves under [jid], and the memory before the
    broadcast. *)
Definition applied_record (jid : string) (payload : obj) (duration : Z) (h : Hub) : obj :=
  overridden (lane_of payload) duration (operator_of payload) (reason_of payload)
    (isoformat (clock h (ticks h)))
    (default (placeholder jid) (Dict.get (KStr jid) (junctions h))).

Definition applied_event (jid : string) (payload : obj) (h : Hub) : obj :=
  override_event jid payload (isoformat (clock h (S (ticks h)))).

Definition applied_hub (jid : string) (payload : obj) (duration : Z) (h : Hub) : Hub :=
  with_ticks (fun n => S (S n))
    (with_junctions (Dict.set (KStr jid) (applied_record jid payload duration h)) h).


(** The sends addressed to one client, oldest first. *)
Definition sent_to (c : ws) (w : list send) : list send :=
  filter (fun s => to s = c) w.

Definition is_snapshot (message : json) : bool :=
  match message with
  | JDict d => eq_str (default JNull (Dict.get "type" d)) "snapshot"
  | _ => false
  end.

(** A producer message of kind [junction_update] and the key it is filed under. *)
Definition is_update (d : obj) : bool :=
  eq_str (default JNull (Dict.get "type" d)) "junction_update".

Definition update_key (d : obj) : option pykey :=
  match Dict.get "junction_id" d with
  | Some v => match key_of v with inr k => Some k | inl _ => None end
  | None => None
  end.

(** The frame a producer sends for a message. *)
Definition frame (d : obj) : received := inr (Encodes (JDict d)).

(** The last message of a sequence filed under [k]. *)
Definition latest (k : pykey) (msgs : list obj) : option obj :=
  last (filter (fun d => update_key d = Some k) msgs).

(** Every stored record names the key it is stored under. *)
Definition keyed (table : list (pykey * obj)) : Prop :=
  forall k record, (k, record) ∈ table ->
    exists v, Dict.get "junction_id" record = Some v /\ key_of v = inr k.

(** Memory that differs at most in [publish_clients]. *)
Definition same_hub_but_publish (h h' : Hub) : Prop :=
  exists f, h' = with_publish f h.

(** The fields an override writes. *)
Definition override_fields : list string :=
  ["current_green"; "phase_remaining"; "override"].

(** Dashboards are registered only once accepted, and nothing is sent to a
    WebSocket the server has not accepted. *)
Definition well_connected (s : System) : Prop :=
  dashboard_clients (hub s) ⊆ accepted s /\
  Forall (fun x => to x ∈ accepted s) (wire (hub s)).

(** Sends that are not snapshots. *)
Definition pushes_only (new : list send) : Prop :=
  Forall (fun x => is_snapshot (body x) = false) new.

(** The two shapes an event's effect on registry and wire can take:
    pushes to dashboards already registered, or the arrival of a WebSocket
    not seen before, to which at most its snapshot is sent. *)
Definition pushed (s s' : System) (new : list send) : Prop :=
  dashboard_clients (hub s') ⊆ dashboard_clients (hub s) /\
  accepted s' = accepted s /\
  forall x, x ∈ new ->
    to x ∈ dashboard_clients (hub s) /\ is_snapshot (body x) = false.

Definition joined (c : ws) (s s' : System) (new : list send) : Prop :=
  (c ∉ accepted s) /\
  accepted s' = accepted s ∪ {[c]} /\
  dashboard_clients (hub s') ⊆ dashboard_clients (hub s) ∪ {[c]} /\
  forall x, x ∈ new -> to x = c.

(** ** Statements put to the test, as worded *)

(** A call of [broadcast] succeeds, tries every client registered when it
    starts, and has removed those whose send failed. *)
Definition sweeps_then_removes (others : list pause) (message : json) (h : Hub) : Prop :=
  exists h',
    broadcast others message h = (h', inr tt) /\
    (forall c, c ∈ dashboard_clients h ->
       Send c message (healthy h c) ∈ sent_since h h') /\
    (forall c, c ∈ dashboard_clients h -> healthy h c = false ->
       c ∉ dashboard_clients h').


(** A [junction_update] without [junction_id] is dropped and the session
    goes on with the frames that follow. *)
Definition drops_and_continues (ws : ws) (d : obj) (rest : list received) (h : Hub) : Prop :=
  is_update d = true -> Dict.get "junction_id" d = None ->
  ws_publish ws (frame d :: rest) h = ws_publish ws rest h.

(** Every override applies a non-negative duration. *)
Definition applies_natural_duration `{Builtins} (jid : string) (payload : obj) (h : Hub) : Prop :=
  exists h' resp record d,
    override_junction jid payload h = (h', inr resp) /\
    Dict.get (KStr jid) (junctions h') = Some record /\
    Dict.get "phase_remaining" record = Some (JInt d) /\
    0 <= d.

(** Leaving the registry succeeds whether or not the session is still in it. *)
Definition leave_is_idempotent (ws : ws) (h : Hub) : Prop :=
  exists h', dashboard_turn ws (inl WebSocketDisconnect) h = (h', inr false) /\
             ws ∉ dashboard_clients h'.

(** ** Sample data *)

(** A reading of [int] on strings for the worked examples: an optional
    sign followed by ASCII digits. *)
Definition digit_of (c : Ascii.ascii) : option Z :=
  let n := Z.of_N (Ascii.N_of_ascii c) in
  if (48 <=? n) && (n <=? 57) then Some (n - 48) else None.

Fixpoint digits_from (acc : Z) (s : string) : option Z :=
  match s with
  | EmptyString => Some acc
  | String c rest =>
      match digit_of c with
      | Some d => digits_from (10 * acc + d) rest
      | None => None
      end
  end.

Definition literal (s : string) : option Z :=
  match s with
  | EmptyString => None
  | String "-"%char (String _ _ as rest) => Z.opp <$> digits_from 0 rest
  | String "+"%char (String _ _ as rest) => digits_from 0 rest
  | String "-"%char EmptyString | String "+"%char EmptyString => None
  | _ => digits_from 0 s
  end.

Definition sample_builtins : Builtins := {| int_of_str := literal |}.

Definition sample_clock (n : nat) : datetime := DateTime 2025 1 2 3 4 5 n.

(** Three dashboards, the second with a dead transport. *)
Definition sample_hub : Hub :=
  mkHub ∅ {[1%positive; 2%positive; 3%positive]} []
        {[2%positive := RuntimeError]} [] sample_clock 0%nat.

Definition update_J1 : obj :=
  [("type", JStr "junction_update"); ("junction_id", JStr "J1");
   ("current_green", JStr "north"); ("phase_remaining", JInt 12)].

Definition update_J1_later : obj :=
  [("type", JStr "junction_update"); ("junction_id", JStr "J1");
   ("current_green", JStr "west"); ("phase_remaining", JInt 7)].

Definition update_J2 : obj :=
  [("type", JStr "junction_update"); ("junction_id", JStr "J2");
   ("current_green", JStr "south"); ("phase_remaining", JInt 30)].

Definition update_without_id : obj :=
  [("type", JStr "junction_update"); ("current_green", JStr "north")].

Definition request_J9 : obj :=
  [("lane", JStr "east"); ("duration", JInt 15);
   ("operator", JStr "op1"); ("reason", JStr "congestion")].

(** Dashboard 4 connects while [broadcast] waits for its first send. *)
Definition join_during_first_wait : list pause :=
  [Pause [Joins 4%positive] []].

(** While [broadcast] waits for its send to the dead dashboard 2, that
    dashboard's handler ends and dashboard 4 connects. *)
Definition leave_and_join : list pause :=
  [Pause [] []; Pause [Leaves 2%positive; Joins 4%positive] [1%positive; 4%positive]].

(** The same hub once J1 and J2 have reported. *)
Definition known_hub : Hub :=
  mkHub ∅ {[1%positive; 2%positive; 3%positive]}
        [(KStr "J1", update_J1); (KStr "J2", update_J2)]
        {[2%positive := RuntimeError]} [] sample_clock 0%nat.

(** A dashboard whose transport fails before the first update is relayed. *)
Definition leave_scenario : list event :=
  [Connect Dashboard 1%positive; Break 1%positive RuntimeError;
   Connect Producer 2%positive; Receive 2%positive (frame update_J1)].

(** A producer reports J1, a dashboard joins, then J2 is reported and J1
    is overridden. *)
Definition before_join : list event :=
  [Connect Producer 2%positive; Receive 2%positive (frame update_J1)].

Definition after_join : list event :=
  [Receive 2%positive (frame update_J2); Post "J1" request_J9].

(** * Further vocabulary *)

(** What a frame that is not a JSON object does to the producer loop:
    [json.loads] or [msg.get] raises. *)
Definition decode_error (data : text) : option exn :=
  match data with
  | Malformed => Some JSONDecodeError
  | Encodes (JDict _) => None
  | Encodes _ => Some AttributeError
  end.

(** The [type] field of a message, when it is a string. *)
Definition kind_of (message : json) : option string :=
  match message with
  | JDict d => match Dict.get "type" d with Some (JStr s) => Some s | _ => None end
  | _ => None
  end.

(** The three shapes of message the hub puts on the wire. *)
Definition relayed (message : json) : Prop :=
  (exists h, message = snapshot_of h) \/
  (exists d, message = JDict d /\ is_update d = true /\ is_Some (update_key d)) \/
  (exists jid payload ts, message = JDict (override_event jid payload ts)).

(** What [send_text] to [c] comes to. *)
Definition send_result (h : Hub) (c : ws) : exn + unit :=
  match broken h !! c with Some e => inl e | None => inr tt end.

(** The memory right after the call of [send_text]. *)
Definition called (c : ws) (m : json) (h : Hub) : Hub :=
  with_wire (fun w => w ++ [Send c m (healthy h c)]) h.

(** The registry as the other tasks leave it after one wait. *)
Definition registry_after (p : pause) (s : gset ws) : gset ws :=
  (fold_left touch (changes p) (s, false)).1.

(** Memory that differs at most in [dashboard_clients] and in what has
    been added to the wire. *)
Definition same_but_dashboards (h h' : Hub) : Prop :=
  junctions h' = junctions h /\ publish_clients h' = publish_clients h /\
  broken h' = broken h /\ ticks h' = ticks h /\ clock h' = clock h /\
  exists new, wire h' = wire h ++ new.

(** A producer session fed a sequence of messages. *)
Definition feed (p : ws) (msgs : list obj) : list event :=
  map (fun d => Receive p (frame d)) msgs.

(** * The simulator of [simulator/publisher.py]

    The simulator is a client of the hub: [publisher] is a producer on
    [/ws/publish], [override_listener] a dashboard on [/ws/dashboard].
    Random draws and clock readings are inputs; a reading that is compared
    or subtracted is an instant, one that is printed is a [datetime]. *)

(** Microseconds since 0001-01-01T00:00:00 UTC. *)
Abbreviation instant := Z.

(** 9999-12-31T23:59:59.999999, the last [datetime]. *)
Definition max_instant : instant := 315537897600 * 1000000 - 1.

(** [now + datetime.timedelta(seconds=duration)]: [OverflowError] when the
    [timedelta] has more than 999999999 days or the sum leaves the years
    1..9999. *)
Definition add_seconds (now : instant) (duration : Z) : exn + instant :=
  let days := duration / 86400 in
  let t := now + duration * 1000000 in
  if (-999999999 <=? days) && (days <=? 999999999) && (0 <=? t) && (t <=? max_instant)
  then inr t
  else inl OverflowError.

(** [int(delta.total_seconds())] for a [timedelta] of the given number of
    microseconds: the division by [10**6] is Python's float division; it is
    left open. *)
Class Floats : Type := { whole_seconds : Z -> Z }.

(** Sequencing of results that may be exceptions. *)
Definition and_then {A B} (r : exn + A) (k : A -> exn + B) : exn + B :=
  match r with
  | inr a => k a
  | inl e => inl e
  end.

Notation "'let?' x ':=' r 'in' k" := (and_then r (fun x => k))
  (at level 10, x name, r at level 100, k at level 200).

(** [v[k]] for a string [k]: only a dict can be indexed by a string. *)
Definition item (v : json) (k : string) : exn + json :=
  match v with
  | JDict d => subscript d k
  | _ => inl TypeError
  end.

(** One entry of [active_overrides]. *)
Record active : Type := Active { lane : json; end_time : instant }.

(** The body of [async for msg in ws] in [override_listener], [now] being
    the clock at that moment. *)
Definition override_listener_turn `{Builtins} (now : instant) (msg : text)
    (active_overrides : list (pykey * active)) : exn + list (pykey * active) :=
  let? data := loads msg in
  match data with
  | JDict d =>
      if eq_str (default JNull (Dict.get "type" d)) "override" then
        let? jid := subscript d "junction_id" in
        let? payload := subscript d "payload" in
        let? lane := item payload "lane" in
        let? seconds := item payload "duration" in
        let? duration := py_int seconds in
        let? end_time := add_seconds now duration in
        let? key := key_of jid in
        inr (Dict.set key (Active lane end_time) active_overrides)
      else inr active_overrides
  | _ => inl AttributeError
  end.


(** [random_plate()], given its three draws. *)
Definition random_plate (n : nat) (letters : string) (m : N) : string :=
  "KA" +:+ pad 2 n +:+ letters +:+ pretty m.

Definition plate_letters : list string := ["AB"; "CD"; "EF"; "GH"].

(** The character of a decimal digit. *)
Definition digit (k : N) : ascii := ascii_of_N (48 + k).

Inductive lane_name : Type := North | East | South | West.

Definition lane_str (l : lane_name) : string :=
  match l with
  | North => "north" | East => "east" | South => "south" | West => "west"
  end.

(** The keys of [lanes], in insertion order. *)
Definition lane_order : list lane_name := [North; East; South; West].

Record junction : Type := Junction {
  j_id : string; j_name : string; j_lat : spec_float; j_lon : spec_float
}.

(** The three junctions of [publisher]: 12.9716, 77.5946 and so on, as the
    doubles Python reads them. *)
Definition sim_junctions : list junction :=
  [Junction "J1" "1st & Main" (S754_finite false 7302361615799891 (-49))
                              (S754_finite false 5460234556968167 (-46));
   Junction "J2" "2nd & Park" (S754_finite false 7305120070571655 (-49))
                              (S754_finite false 5459840492000772 (-46));
   Junction "J3" "3rd & Lake" (S754_finite false 7299772046014153 (-49))
                              (S754_finite false 5460473810698371 (-46))].

(** What one pass of the inner loop draws. *)
Record draws : Type := Draws {
  vehicles : lane_name -> Z;      (* random.randint(0, 25), per lane *)
  green : lane_name;              (* random.choice(list(lanes.keys())) *)
  phase : Z;                      (* random.randint(5, 30) *)
  confidence : spec_float;        (* round(random.uniform(0.4, 0.98), 2) *)
  emergency : bool;               (* random.random() < 0.1 *)
  violation : option (nat * string * N * lane_name)
                                  (* random.random() < 0.05, then the plate's
                                     draws and the lane *)
}.

Definition lanes_of (dr : draws) : obj :=
  map (fun l => (lane_str l,
                 JDict [("vehicles", JInt (vehicles dr l));
                        ("density_score", JInt (vehicles dr l))]))
      lane_order.

(** [sorted(..., key=density, reverse=True)]: descending, and stable. *)
Fixpoint insert_desc (x : lane_name * Z) (l : list (lane_name * Z)) : list (lane_name * Z) :=
  match l with
  | [] => [x]
  | y :: rest => if snd y <=? snd x then x :: y :: rest else y :: insert_desc x rest
  end.

Definition sorted_desc (l : list (lane_name * Z)) : list (lane_name * Z) :=
  foldr insert_desc [] l.

(** [dens_sorted[0]]; the list has the four lanes. *)
Definition densest (dr : draws) : lane_name * Z :=
  hd (North, vehicles dr North)
     (sorted_desc (map (fun l => (l, vehicles dr l)) lane_order)).

Definition suggested_duration (dr : draws) : Z :=
  Z.max 10 (Z.min 60 (snd (densest dr) * 2)).

Definition suggestion (dr : draws) : json :=
  JDict [("next_green", JStr (lane_str (fst (densest dr))));
         ("duration", JInt (suggested_duration dr));
         ("confidence", JFloat (confidence dr))].

(** [jid in active_overrides and active_overrides[jid]["end_time"] > now] *)
Definition in_force (jid : string) (now : instant)
    (active_overrides : list (pykey * active)) : option active :=
  match Dict.get (KStr jid) active_overrides with
  | Some o => if now <? end_time o then Some o else None
  | None => None
  end.

(** One pass of [for j in junctions]: the message sent, and the local
    [rl_suggestion] as the pass leaves it ([None] while it is unbound).
    [now] is the reading taken at the top of the [while] loop, [t_violation]
    and [t_message] the two readings of [now_iso()]. *)
Definition publisher_turn `{Floats} (j : junction) (now : instant) (dr : draws)
    (t_violation t_message : datetime)
    (active_overrides : list (pykey * active)) (rl_suggestion : option json)
  : obj * option json :=
  let lanes := lanes_of dr in
  let '(current_green, phase_remaining, rl_suggestion) :=
    match in_force (j_id j) now active_overrides with
    | Some override =>
        (lane override, whole_seconds (end_time override - now), rl_suggestion)
    | None =>
        (JStr (lane_str (green dr)), phase dr, Some (suggestion dr))
    end in
  let violations :=
    match violation dr with
    | Some (n, letters, m, l) =>
        [JDict [("plate", JStr (random_plate n letters m));
                ("lane", JStr (lane_str l));
                ("time", JStr (isoformat t_violation))]]
    | None => []
    end in
  ([("type", JStr "junction_update");
    ("junction_id", JStr (j_id j));
    ("name", JStr (j_name j));
    ("lat", JFloat (j_lat j));
    ("lon", JFloat (j_lon j));
    ("timestamp", JStr (isoformat t_message));
    ("lanes", JDict lanes);
    ("current_green", current_green);
    ("phase_remaining", JInt phase_remaining);
    ("rl_suggestion", default JNull rl_suggestion);
    ("emergency_vehicle", JBool (emergency dr));
    ("violations", JList violations)],
   rl_suggestion).

(** What one pass of [for j in junctions] reads: its draws, the two
    readings of [now_iso()], and [active_overrides] as the listener task has
    left it when the pass looks. *)
Record reading : Type := Reading {
  r_draws : draws;
  r_violation : datetime;
  r_message : datetime;
  r_overrides : list (pykey * active)
}.

(** [for j in junctions]: the messages sent, in order, and [rl_suggestion]
    at the end.  [rs i] is what the [i]-th pass reads. *)
Fixpoint publisher_for `{Floats} (now : instant) (js : list junction) (i : nat)
    (rs : nat -> reading) (rl_suggestion : option json) : list obj * option json :=
  match js with
  | [] => ([], rl_suggestion)
  | j :: rest =>
      let r := rs i in
      let '(msg, rl_suggestion) :=
        publisher_turn j now (r_draws r) (r_violation r) (r_message r)
          (r_overrides r) rl_suggestion in
      let '(msgs, rl_suggestion) := publisher_for now rest (S i) rs rl_suggestion in
      (msg :: msgs, rl_suggestion)
  end.

(** The body of [while True], [now] being the reading at its top. *)
Definition publisher_pass `{Floats} (now : instant) (rs : nat -> reading)
    (rl_suggestion : option json) : list obj * option json :=
  publisher_for now sim_junctions 0 rs rl_suggestion.

(** So many rounds of [while True]. *)
Fixpoint publisher_loop `{Floats} (rounds : list (instant * (nat -> reading)))
    (rl_suggestion : option json) : list obj * option json :=
  match rounds with
  | [] => ([], rl_suggestion)
  | (now, rs) :: rest =>
      let '(msgs, rl_suggestion) := publisher_pass now rs rl_suggestion in
      let '(more, rl_suggestion) := publisher_loop rest rl_suggestion in
      (msgs ++ more, rl_suggestion)
  end.

(** What [publisher] sends in its first rounds; [rl_suggestion] starts
    unbound. *)
Definition publisher `{Floats} (rounds : list (instant * (nat -> reading))) : list obj :=
  (publisher_loop rounds None).1.

(** [junctions[jid] = msg], for a message the producer loop applies. *)
Definition store (table : list (pykey * obj)) (d : obj) : list (pykey * obj) :=
  match update_key d with
  | Some k => Dict.set k d table
  | None => table
  end.

Definition filed (msgs : list obj) (table : list (pykey * obj)) : list (pykey * obj) :=
  fold_left store msgs table.

(** A suggestion, as against the [null] of an unbound [rl_suggestion]. *)
Definition suggests (d : obj) : Prop :=
  exists dr, Dict.get "rl_suggestion" d = Some (suggestion dr).

(** ** Sample data for the simulator *)

Definition sample_floats : Floats := {| whole_seconds := fun n => n / 1000000 |}.

Definition sample_draws : draws :=
  Draws (fun l => match l with North => 4 | East => 19 | South => 19 | West => 0 end)
        West 12 (S754_finite false 4503599627370496 (-53)) false
        (Some (7%nat, "CD", 4821%N, South)).

Definition sample_J1 : junction :=
  Junction "J1" "1st & Main" (S754_finite false 7302361615799891 (-49))
                             (S754_finite false 5460234556968167 (-46)).

Definition sample_J2 : junction :=
  Junction "J2" "2nd & Park" (S754_finite false 7305120070571655 (-49))
                             (S754_finite false 5459840492000772 (-46)).

(** Noon on some day, in microseconds. *)
Definition sample_now : instant := 63000000000 * 1000000.

Definition sample_reading (i : nat) : reading :=
  Reading sample_draws (sample_clock i) (sample_clock (S i)) [].

(** The position of a lane among the keys of [lanes]. *)
Definition lane_index (l : lane_name) : nat :=
  match l with North => 0 | East => 1 | South => 2 | West => 3 end.
(** * Properties *)

(** ** The definitions on small inputs *)

Example isoformat_sample :
  isoformat (sample_clock 42) = "2025-01-02T03:04:05.000042+00:00" /\
  isoformat (sample_clock 0) = "2025-01-02T03:04:05+00:00".
Proof. split; reflexivity. Qed.

(** [3.0], [3] and [True + 2] are one key; [-1.5] is another; a list is none. *)
Example key_of_sample :
  key_of (JFloat (S754_finite false 12 (-2))) = key_of (JInt 3) /\
  key_of (JBool true) = key_of (JInt 1) /\
  key_of (JFloat (S754_finite true 3 (-1))) = inr (KFrac true 3 (-1)) /\
  key_of (JList []) = inl TypeError.
Proof. repeat split; reflexivity. Qed.

(** [int(-3.5)], [int("15")], [int("soon")], [int(None)]. *)
Example py_int_sample :
  py_int (H := sample_builtins) (JFloat (S754_finite true 7 (-1))) = inr (-3) /\
  py_int (H := sample_builtins) (JStr "15") = inr 15 /\
  py_int (H := sample_builtins) (JStr "soon") = inl ValueError /\
  py_int (H := sample_builtins) JNull = inl TypeError.
Proof. repeat split; reflexivity. Qed.

(** Three dashboards, one of them dead: three calls, two deliveries, one
    removal. *)
Example broadcast_sample :
  let h' := (broadcast [] JNull sample_hub).1 in
  map to (wire h') = [3; 2; 1]%positive /\
  map delivered (wire h') = [true; false; true] /\
  elements (dashboard_clients h') = [3; 1]%positive.
Proof. vm_compute. repeat split; reflexivity. Qed.

(** A session that ends in a disconnect leaves [publish_clients]. *)
Example ws_publish_sample :
  let r := ws_publish 7 [frame update_J1; inr Malformed] sample_hub in
  let r' := ws_publish 7 [frame update_J1; inl WebSocketDisconnect] sample_hub in
  r.2 = inl JSONDecodeError /\ elements (publish_clients r.1) = [7%positive] /\
  r'.2 = inr false /\ elements (publish_clients r'.1) = [] /\
  Dict.get (KStr "J1") (junctions r'.1) = Some update_J1.
Proof. vm_compute. repeat split; reflexivity. Qed.

(** ** Bookkeeping on [Hub] *)


Lemma with_wire_app (h : Hub) (l1 l2 : list send) :
  with_wire (fun w => w ++ l2) (with_wire (fun w => w ++ l1) h)
  = with_wire (fun w => w ++ (l1 ++ l2)) h.
Proof. destruct h; unfold with_wire; simpl. by rewrite <- app_assoc. Qed.

Lemma with_wire_nil (h : Hub) : with_wire (fun w => w ++ []) h = h.
Proof. destruct h; unfold with_wire; simpl. by rewrite app_nil_r. Qed.

Lemma healthy_with_wire (f : list send -> list send) (h : Hub) :
  healthy (with_wire f h) = healthy h.
Proof. reflexivity. Qed.

Lemma send_text_eq (c : ws) (m : json) (h : Hub) :
  send_text c m h =
  (with_wire (fun w => w ++ [Send c m (healthy h c)]) h,
   match broken h !! c with Some e => inl e | None => inr tt end).
Proof. unfold send_text, healthy. by destruct (broken h !! c). Qed.

Lemma unchanged_size_ok (used : nat) (h : Hub) :
  size (dashboard_clients h) = used -> unchanged_size used h = (h, inr tt).
Proof. intros E. unfold unchanged_size, bind, gets. by rewrite decide_True. Qed.

Lemma unchanged_size_raises (used : nat) (h : Hub) :
  size (dashboard_clients h) <> used -> unchanged_size used h = (h, inl RuntimeError).
Proof. intros E. unfold unchanged_size, bind, gets. by rewrite decide_False. Qed.

(** Left alone, the sweep calls [send_text] once per client, in order, and
    collects those on which it raised; it touches nothing but the wire. *)
Lemma sweep_alone_eq (m : json) (clients dead : list ws) (h : Hub) :
  sweep_alone m (size (dashboard_clients h)) clients dead h =
  (with_wire (fun w => w ++ map (fun c => Send c m (healthy h c)) clients) h,
   inr (dead ++ filter (fun c => healthy h c = false) clients)).
Proof.
  revert dead h. induction clients as [|c rest IH]; intros dead h; simpl.
  - unfold bind. rewrite unchanged_size_ok by done.
    by rewrite with_wire_nil, app_nil_r.
  - unfold bind at 1. rewrite unchanged_size_ok by done.
    unfold bind, try. rewrite send_text_eq, filter_cons.
    assert (Hc : healthy h c = match broken h !! c with Some _ => false | None => true end)
      by reflexivity.
    destruct (broken h !! c) as [e|]; simpl;
      change (size (dashboard_clients h)) with
        (size (dashboard_clients (with_wire (fun w => w ++ [Send c m (healthy h c)]) h)));
      rewrite IH, with_wire_app, healthy_with_wire, Hc; simpl.
    + by rewrite <- app_assoc.
    + done.
Qed.

Lemma remove_dashboard_member (c : ws) (h : Hub) :
  c ∈ dashboard_clients h ->
  remove_dashboard c h = (with_dashboard (fun s => s ∖ {[c]}) h, inr tt).
Proof.
  intros Hin. unfold remove_dashboard, bind, gets, lift, set_remove, modify.
  by rewrite decide_True.
Qed.

Lemma remove_dashboard_absent (c : ws) (h : Hub) :
  c ∉ dashboard_clients h -> remove_dashboard c h = (h, inl KeyError).
Proof.
  intros Hin. unfold remove_dashboard, bind, gets, lift, set_remove.
  by rewrite decide_False.
Qed.

Lemma with_dashboard_twice (f g : gset ws -> gset ws) (h : Hub) :
  with_dashboard g (with_dashboard f h) = with_dashboard (fun s => g (f s)) h.
Proof. reflexivity. Qed.

Lemma with_dashboard_ext (f g : gset ws -> gset ws) (h : Hub) :
  f (dashboard_clients h) = g (dashboard_clients h) ->
  with_dashboard f h = with_dashboard g h.
Proof. intros E. unfold with_dashboard. by rewrite E. Qed.

(** Removing a duplicate-free list of members never raises. *)
Lemma reap_eq (dead : list ws) (h : Hub) :
  NoDup dead ->
  (forall c, c ∈ dead -> c ∈ dashboard_clients h) ->
  reap dead h = (with_dashboard (fun s => s ∖ list_to_set dead) h, inr tt).
Proof.
  revert h. induction dead as [|c rest IH]; intros h Hnd Hin; simpl.
  - unfold ret. f_equal. destruct h; unfold with_dashboard; simpl.
    by rewrite difference_empty_L.
  - apply NoDup_cons in Hnd as [Hc Hnd].
    unfold bind. rewrite remove_dashboard_member by (apply Hin; left).
    rewrite IH; [|done|].
    + rewrite with_dashboard_twice. f_equal.
      apply with_dashboard_ext. simpl.
      by rewrite difference_difference_l_L.
    + intros c' Hc'. simpl.
      apply elem_of_difference. split; [apply Hin; by right|].
      rewrite elem_of_singleton. by intros ->.
Qed.



Lemma failed_NoDup (h : Hub) : NoDup (failed h).
Proof. apply NoDup_filter, NoDup_elements. Qed.

Lemma elem_of_failed (h : Hub) (c : ws) :
  c ∈ failed h <-> c ∈ dashboard_clients h /\ healthy h c = false.
Proof. unfold failed. rewrite list_elem_of_filter, elem_of_elements. tauto. Qed.

Lemma broadcast_eq (message : json) (h : Hub) :
  broadcast [] message h =
  (with_dashboard (fun s => s ∖ list_to_set (failed h))
     (with_wire (fun w => w ++ calls message h) h),
   inr tt).
Proof.
  unfold broadcast, bind, gets. simpl sweep.
  replace (length (elements (dashboard_clients h))) with (size (dashboard_clients h))
    by reflexivity.
  rewrite sweep_alone_eq. simpl.
  rewrite reap_eq; [done| apply failed_NoDup |].
  intros c Hc. apply elem_of_failed in Hc. simpl. tauto.
Qed.

Lemma calls_to (message : json) (h : Hub) :
  map to (calls message h) = elements (dashboard_clients h).
Proof. unfold calls. rewrite map_map. simpl. apply map_id. Qed.

Lemma calls_nobody (message : json) (h : Hub) :
  dashboard_clients h = ∅ -> calls message h = [].
Proof. intros E. unfold calls. by rewrite E, elements_empty. Qed.

Lemma failed_nobody (h : Hub) : dashboard_clients h = ∅ -> failed h = [].
Proof. intros E. unfold failed. by rewrite E, elements_empty. Qed.

(** ** Dictionaries *)

Module DictFacts.
Section Facts.
Context {K V : Type} `{EqDecision K}.
Implicit Types (k : K) (v : V) (d : list (K * V)).

Lemma get_set_eq k v d : Dict.get k (Dict.set k v d) = Some v.
Proof.
  induction d as [|[k' v'] d IH]; simpl.
  - by rewrite decide_True.
  - destruct (decide (k = k')) as [->|Hne]; simpl.
    + by rewrite decide_True.
    + by rewrite decide_False.
Qed.

Lemma get_set_ne k k' v d : k <> k' -> Dict.get k' (Dict.set k v d) = Dict.get k' d.
Proof.
  intros Hne. induction d as [|[k0 v0] d IH]; simpl.
  - by rewrite decide_False by congruence.
  - destruct (decide (k = k0)) as [->|Hk]; simpl.
    + by rewrite !decide_False by congruence.
    + destruct (decide (k' = k0)); [done|apply IH].
Qed.

Lemma set_set k v1 v2 d : Dict.set k v2 (Dict.set k v1 d) = Dict.set k v2 d.
Proof.
  induction d as [|[k' v'] d IH]; simpl.
  - by rewrite decide_True.
  - destruct (decide (k = k')) as [->|Hk]; simpl.
    + by rewrite decide_True.
    + rewrite decide_False by done. by rewrite IH.
Qed.

Lemma mem_get k d : Dict.mem k d = true <-> is_Some (Dict.get k d).
Proof.
  unfold Dict.mem. destruct (Dict.get k d); split; done.
Qed.

Lemma get_in_keys k d : is_Some (Dict.get k d) <-> k ∈ Dict.keys d.
Proof.
  unfold Dict.keys. induction d as [|[k' v'] d IH]; simpl.
  - split; [by intros [? ?]|by intros ?%elem_of_nil].
  - rewrite elem_of_cons. destruct (decide (k = k')) as [->|Hk].
    + split; [by left|by eexists].
    + rewrite IH. tauto.
Qed.

(** An assignment keeps the order of the keys; a new key goes last. *)
Lemma keys_set k v d :
  Dict.keys (Dict.set k v d) =
  if Dict.mem k d then Dict.keys d else Dict.keys d ++ [k].
Proof.
  unfold Dict.keys, Dict.mem. induction d as [|[k' v'] d IH]; simpl; [done|].
  destruct (decide (k = k')) as [->|Hk]; simpl; [done|].
  rewrite IH. by destruct (Dict.get k d).
Qed.

Lemma keys_set_NoDup k v d : NoDup (Dict.keys d) -> NoDup (Dict.keys (Dict.set k v d)).
Proof.
  intros Hnd. rewrite keys_set. destruct (Dict.mem k d) eqn:E; [done|].
  apply NoDup_app. split; [done|]. split; [|apply NoDup_singleton].
  intros x Hx ->%list_elem_of_singleton.
  apply get_in_keys, mem_get in Hx. congruence.
Qed.

Lemma get_elem k v d : Dict.get k d = Some v -> (k, v) ∈ d.
Proof.
  induction d as [|[k' v'] d IH]; simpl; [done|].
  destruct (decide (k = k')) as [->|Hk].
  - intros [= ->]. apply list_elem_of_here.
  - intros E. apply list_elem_of_further. by apply IH.
Qed.

Lemma elem_of_set k v k' v' d :
  (k', v') ∈ Dict.set k v d -> (k' = k /\ v' = v) \/ (k', v') ∈ d.
Proof.
  induction d as [|[k0 v0] d IH]; simpl.
  - intros [= -> ->]%list_elem_of_singleton. by left.
  - destruct (decide (k = k0)) as [->|Hk]; rewrite !elem_of_cons.
    + intros [[= -> ->]|Hin]; [by left|right; by right].
    + intros [[= -> ->]|Hin]; [right; by left|].
      destruct (IH Hin) as [?|?]; [by left|right; by right].
Qed.

Lemma set_fresh k v d : Dict.get k d = None -> Dict.set k v d = d ++ [(k, v)].
Proof.
  induction d as [|[k' v'] d IH]; simpl; [done|].
  destruct (decide (k = k')); [done|]. intros E. by rewrite IH.
Qed.
End Facts.
End DictFacts.

(** ** Timestamps *)


(** ** The override route in closed form *)

Lemma bind_ok {A B} (m : M A) (k : A -> M B) (h h' : Hub) (a : A) :
  m h = (h', inr a) -> bind m k h = k a h'.
Proof. intros E. unfold bind. by rewrite E. Qed.

Lemma bind_raise {A B} (m : M A) (k : A -> M B) (h h' : Hub) (e : exn) :
  m h = (h', inl e) -> bind m k h = (h', inl e).
Proof. intros E. unfold bind. by rewrite E. Qed.

(** Successive writes to one record and two clock readings. *)
Lemma settle (jid : pykey) (r1 r2 r3 : obj) (h : Hub) :
  with_ticks S (with_junctions (Dict.set jid r3)
    (with_ticks S (with_junctions (Dict.set jid r2)
       (with_junctions (Dict.set jid r1) h))))
  = with_ticks (fun n => S (S n)) (with_junctions (Dict.set jid r3) h).
Proof.
  destruct h; unfold with_ticks, with_junctions; simpl.
  by rewrite !DictFacts.set_set.
Qed.

Section Override.
Context `{Builtins}.

Lemma set_field_eq (jid : pykey) (field : string) (v : json) (record : obj) (h : Hub) :
  Dict.get jid (junctions h) = Some record ->
  set_field jid field v h =
  (with_junctions (Dict.set jid (Dict.set field v record)) h, inr tt).
Proof.
  intros E. unfold set_field, bind, gets, lift, subscript, modify. by rewrite E.
Qed.

Lemma override_junction_raises (jid : string) (payload : obj) (h : Hub) (e : exn) :
  py_int (duration_of payload) = inl e ->
  override_junction jid payload h = (h, inl e).
Proof.
  intros E. unfold override_junction, bind, lift.
  fold (duration_of payload). by rewrite E.
Qed.

Lemma override_junction_returns (jid : string) (payload : obj) (h : Hub) (d : Z) :
  py_int (duration_of payload) = inr d ->
  override_junction jid payload h =
  (fst (broadcast [] (JDict (applied_event jid payload h)) (applied_hub jid payload d h)),
   inr (response (applied_event jid payload h) (applied_record jid payload d h))).
Proof.
  intros E. unfold override_junction.
  fold (duration_of payload) (lane_of payload) (operator_of payload) (reason_of payload).
  erewrite bind_ok by (unfold lift; by rewrite E).
  erewrite bind_ok by reflexivity.
  set (record := default (placeholder jid) (Dict.get (KStr jid) (junctions h))).
  assert (Hstart : exists h1,
            (if Dict.mem (KStr jid) (junctions h) then ret tt
             else modify (with_junctions (Dict.set (KStr jid) (placeholder jid)))) h
            = (h1, inr tt) /\
            Dict.get (KStr jid) (junctions h1) = Some record /\
            forall v, with_junctions (Dict.set (KStr jid) v) h1
                      = with_junctions (Dict.set (KStr jid) v) h).
  { subst record. unfold Dict.mem.
    destruct (Dict.get (KStr jid) (junctions h)) as [r|] eqn:Hr; simpl.
    - by exists h.
    - eexists. split; [reflexivity|]. simpl.
      rewrite DictFacts.get_set_eq. split; [done|]. intros v.
      unfold with_junctions; simpl. by rewrite DictFacts.set_set. }
  destruct Hstart as (h1 & Hstart & Hget & Hset).
  erewrite bind_ok by exact Hstart.
  erewrite bind_ok by (by apply set_field_eq).
  rewrite Hset.
  erewrite bind_ok by (apply set_field_eq; simpl; apply DictFacts.get_set_eq).
  erewrite bind_ok by reflexivity.
  erewrite bind_ok by (apply set_field_eq; simpl; apply DictFacts.get_set_eq).
  erewrite bind_ok by reflexivity.
  erewrite bind_ok by apply broadcast_eq.
  erewrite bind_ok by reflexivity.
  erewrite bind_ok by (unfold lift, subscript; simpl; by rewrite DictFacts.get_set_eq).
  rewrite broadcast_eq. unfold ret, applied_hub, applied_event, applied_record, overridden, descriptor, response.
  fold record. simpl. by rewrite settle.
Qed.

(** What the route leaves behind. *)
Lemma override_junction_table (jid : string) (payload : obj) (h : Hub) (d : Z) :
  py_int (duration_of payload) = inr d ->
  junctions (override_junction jid payload h).1 =
  Dict.set (KStr jid) (applied_record jid payload d h) (junctions h).
Proof.
  intros E. by rewrite (override_junction_returns _ _ _ _ E), broadcast_eq.
Qed.


Lemma override_junction_stored (jid : string) (payload : obj) (h : Hub) (d : Z) :
  py_int (duration_of payload) = inr d ->
  Dict.get (KStr jid) (junctions (override_junction jid payload h).1) =
  Some (applied_record jid payload d h).
Proof.
  intros E. rewrite (override_junction_table _ _ _ _ E).
  apply DictFacts.get_set_eq.
Qed.

Lemma override_junction_cases (jid : string) (payload : obj) (h h' : Hub) (resp : obj) :
  override_junction jid payload h = (h', inr resp) ->
  exists d, py_int (duration_of payload) = inr d.
Proof.
  intros E. destruct (py_int (duration_of payload)) as [e|d] eqn:Hd; [|by exists d].
  by rewrite (override_junction_raises _ _ _ _ Hd) in E.
Qed.
End Override.


Lemma overridden_phase_remaining lane d operator reason time record :
  Dict.get "phase_remaining" (overridden lane d operator reason time record)
  = Some (JInt d).
Proof.
  unfold overridden. rewrite DictFacts.get_set_ne by done.
  apply DictFacts.get_set_eq.
Qed.

Lemma overridden_override lane d operator reason time record :
  Dict.get "override" (overridden lane d operator reason time record)
  = Some (descriptor operator reason time).
Proof. unfold overridden. apply DictFacts.get_set_eq. Qed.

Lemma overridden_other lane d operator reason time record field :
  field ∉ override_fields ->
  Dict.get field (overridden lane d operator reason time record)
  = Dict.get field record.
Proof.
  intros Hf. unfold override_fields in Hf.
  rewrite !not_elem_of_cons in Hf. destruct Hf as (H1 & H2 & H3 & _).
  unfold overridden. by rewrite !DictFacts.get_set_ne by done.
Qed.

(** ** C2: an override without [lane] *)




(** ** C5: an override for an unknown junction *)



(** ** C6: the duration that is applied *)

(** A request for five seconds less than none is applied as it stands. *)
Lemma override_applies_negative_duration :
  ~ @applies_natural_duration sample_builtins "J9"
      [("lane", JStr "east"); ("duration", JInt (-5))] sample_hub.
Proof.
  intros (h' & resp & record & d & E & Hrec & Hd & Hpos).
  assert (Hint : py_int (H := sample_builtins)
            (duration_of [("lane", JStr "east"); ("duration", JInt (-5))]) = inr (-5))
    by reflexivity.
  pose proof (override_junction_stored (H := sample_builtins) "J9" _ sample_hub _ Hint) as Hs.
  rewrite E in Hs. simpl in Hs. rewrite Hrec in Hs.
  injection Hs as ->.
  unfold applied_record in Hd. rewrite overridden_phase_remaining in Hd.
  injection Hd as <-. lia.
Qed.

(** C6 (amended). The duration an override applies is what [int] makes of
    the payload's [duration] field, 20 standing in when the field is
    absent; it is stored as it comes out, negative or not.  When [int]
    raises, the route raises the same exception and leaves memory as it
    was.  [operator] defaults to "manual" and [reason] to
    "Manual override". *)
Theorem override_coerces_duration `{Builtins}
    (jid : string) (payload : obj) (h : Hub) :
  match py_int (duration_of payload) with
  | inr d =>
      exists h' resp record,
        override_junction jid payload h = (h', inr resp) /\
        Dict.get (KStr jid) (junctions h') = Some record /\
        Dict.get "phase_remaining" record = Some (JInt d) /\
        Dict.get "override" record =
          Some (descriptor (operator_of payload) (reason_of payload)
                  (isoformat (clock h (ticks h))))
  | inl e => override_junction jid payload h = (h, inl e)
  end /\
  (Dict.get "duration" payload = None -> py_int (duration_of payload) = inr 20) /\
  (Dict.get "operator" payload = None -> operator_of payload = JStr "manual") /\
  (Dict.get "reason" payload = None -> reason_of payload = JStr "Manual override") /\
  (forall v, Dict.get "duration" payload = Some v -> duration_of payload = v) /\
  (forall v, Dict.get "operator" payload = Some v -> operator_of payload = v) /\
  (forall v, Dict.get "reason" payload = Some v -> reason_of payload = v).
Proof.
  split.
  - destruct (py_int (duration_of payload)) as [e|d] eqn:Hd.
    + by apply override_junction_raises.
    + exists (override_junction jid payload h).1,
             (response (applied_event jid payload h) (applied_record jid payload d h)),
             (applied_record jid payload d h).
      split; [by rewrite (override_junction_returns _ _ _ _ Hd)|].
      split; [by apply override_junction_stored|].
      split; [apply overridden_phase_remaining|apply overridden_override].
  - unfold duration_of, operator_of, reason_of.
    repeat split; try (by intros ->); by intros v ->.
Qed.

(** ** C7: what an override leaves alone *)

(** C7. An override that is applied changes, in the junction's record,
    nothing but [current_green], [phase_remaining] and [override]: every
    other field reads as before, and the record of every other junction is
    the one that was there.  The table keeps its order; a junction not yet
    known is added last, its record being the placeholder that holds just
    the id, with the three fields then set on it. *)
Theorem override_frame `{Builtins}
    (jid : string) (payload : obj) (h h' : Hub) (resp : obj) :
  override_junction jid payload h = (h', inr resp) ->
  (forall k, k <> KStr jid ->
     Dict.get k (junctions h') = Dict.get k (junctions h)) /\
  (exists d new,
     Dict.get (KStr jid) (junctions h') = Some new /\
     new = overridden (lane_of payload) d (operator_of payload) (reason_of payload)
             (isoformat (clock h (ticks h)))
             (default (placeholder jid) (Dict.get (KStr jid) (junctions h))) /\
     (forall old field,
        Dict.get (KStr jid) (junctions h) = Some old ->
        field ∉ override_fields ->
        Dict.get field new = Dict.get field old) /\
     (Dict.get (KStr jid) (junctions h) = None ->
      placeholder jid = [("junction_id", JStr jid)] /\
      junctions h' = junctions h ++ [(KStr jid, new)] /\
      forall field, field ∉ override_fields ->
        Dict.get field new = Dict.get field (placeholder jid))) /\
  Dict.keys (junctions h') =
    (if Dict.mem (KStr jid) (junctions h) then Dict.keys (junctions h)
     else Dict.keys (junctions h) ++ [KStr jid]).
Proof.
  intros E. destruct (override_junction_cases _ _ _ _ _ E) as [d Hd].
  pose proof (override_junction_table jid payload h d Hd) as Ht.
  rewrite E in Ht. simpl in Ht.
  split. { intros k Hk. rewrite Ht. by apply DictFacts.get_set_ne. }
  split.
  - exists d, (applied_record jid payload d h).
    split; [rewrite Ht; apply DictFacts.get_set_eq|].
    split; [done|].
    split.
    + intros old field Hold Hf. unfold applied_record.
      rewrite overridden_other by done. by rewrite Hold.
    + intros Hnew. split; [done|].
      split; [rewrite Ht; by apply DictFacts.set_fresh|].
      intros field Hf. unfold applied_record.
      rewrite overridden_other by done. by rewrite Hnew.
  - rewrite Ht. apply DictFacts.keys_set.
Qed.

Lemma override_frame_witness :
  exists h' resp,
    override_junction (H := sample_builtins) "J1" request_J9 known_hub = (h', inr resp) /\
    Dict.get (KStr "J2") (junctions h') = Some update_J2 /\
    Dict.keys (junctions h') = [KStr "J1"; KStr "J2"] /\
    exists new,
      Dict.get (KStr "J1") (junctions h') = Some new /\
      Dict.get "type" new = Some (JStr "junction_update").
Proof.
  eexists _, _. split; [vm_compute; reflexivity|].
  destruct (override_frame (H := sample_builtins) "J1" request_J9 known_hub _ _ eq_refl)
    as (Hother & (d & new & Hnew & _ & Hold & _) & Hkeys).
  split; [by rewrite Hother|]. split; [exact Hkeys|].
  exists new. split; [exact Hnew|].
  rewrite (Hold update_J1 "type" eq_refl); [reflexivity|].
  unfold override_fields. rewrite !not_elem_of_cons. repeat split; try done.
  apply not_elem_of_nil.
Defined.

(** ** The producer's loop *)

Lemma until_disconnect_ok (cleanup body : M unit) (h h' : Hub) :
  body h = (h', inr tt) -> until_disconnect cleanup body h = (h', inr true).
Proof. intros E. unfold until_disconnect, bind, try. by rewrite E. Qed.

Lemma until_disconnect_escapes (cleanup body : M unit) (h h' : Hub) (e : exn) :
  body h = (h', inl e) -> e <> WebSocketDisconnect ->
  until_disconnect cleanup body h = (h', inl e).
Proof.
  intros E He. unfold until_disconnect, bind, try. rewrite E.
  by destruct e.
Qed.

Lemma until_disconnect_caught (cleanup body : M unit) (h h' : Hub) :
  body h = (h', inl WebSocketDisconnect) ->
  until_disconnect cleanup body h = (do! cleanup in ret false) h'.
Proof. intros E. unfold until_disconnect, bind at 1, try. by rewrite E. Qed.

(** A well-formed update is filed under its key and then broadcast. *)
Lemma publish_turn_update (ws : ws) (d : obj) (k : pykey) (h : Hub) :
  is_update d = true -> update_key d = Some k ->
  publish_turn ws (frame d) h =
  ((broadcast [] (JDict d) (with_junctions (Dict.set k d) h)).1, inr true).
Proof.
  intros Hu Hk. unfold publish_turn, publish_turn_among. apply until_disconnect_ok.
  unfold frame, on_publish. simpl.
  erewrite bind_ok by reflexivity. erewrite bind_ok by reflexivity.
  cbv beta iota. unfold is_update in Hu. rewrite Hu.
  unfold update_key in Hk.
  destruct (Dict.get "junction_id" d) as [v|] eqn:Hv; [|done].
  destruct (key_of v) as [e|k'] eqn:Hkey; [done|]. injection Hk as ->.
  erewrite bind_ok by (unfold lift, subscript; by rewrite Hv).
  erewrite bind_ok by (unfold lift; by rewrite Hkey).
  erewrite bind_ok by reflexivity.
  by rewrite broadcast_eq.
Qed.

(** An update without [junction_id] raises [KeyError] out of the handler. *)
Lemma publish_turn_without_id (ws : ws) (d : obj) (h : Hub) :
  is_update d = true -> Dict.get "junction_id" d = None ->
  publish_turn ws (frame d) h = (h, inl KeyError).
Proof.
  intros Hu Hv. unfold publish_turn, publish_turn_among. apply until_disconnect_escapes; [|done].
  unfold frame, on_publish. simpl.
  erewrite bind_ok by reflexivity. erewrite bind_ok by reflexivity.
  cbv beta iota. unfold is_update in Hu. rewrite Hu.
  apply bind_raise. unfold lift, subscript. by rewrite Hv.
Qed.

(** ** C3: a [junction_update] without [junction_id] *)

(** After such a frame the valid update for J1 that follows is never
    looked at. *)
Lemma update_without_id_stops_the_loop :
  ~ drops_and_continues 7 update_without_id [frame update_J1] sample_hub.
Proof.
  intros Hc. specialize (Hc eq_refl eq_refl).
  apply (f_equal snd) in Hc. vm_compute in Hc. discriminate.
Qed.

(** C3 (amended). A [junction_update] without [junction_id] changes neither
    the table nor the registries and is not broadcast, but it is not
    dropped either: the [KeyError] of [msg["junction_id"]] leaves the
    handler, so no later frame of that connection is processed, whatever
    it is; the connection stays in [publish_clients]. *)
Theorem update_without_id_ends_session (ws : ws) (d : obj) (rest : list received) (h : Hub) :
  is_update d = true ->
  Dict.get "junction_id" d = None ->
  exists h',
    ws_publish ws (frame d :: rest) h = (h', inl KeyError) /\
    junctions h' = junctions h /\
    wire h' = wire h /\
    dashboard_clients h' = dashboard_clients h /\
    ws ∈ publish_clients h' /\
    forall others, ws_publish ws (frame d :: others) h = (h', inl KeyError).
Proof.
  intros Hu Hv. exists (with_publish (fun s => s ∪ {[ws]}) h).
  assert (Hrun : forall others,
            ws_publish ws (frame d :: others) h
            = (with_publish (fun s => s ∪ {[ws]}) h, inl KeyError)).
  { intros others. unfold ws_publish, publish_open.
    erewrite bind_ok by reflexivity. simpl.
    apply bind_raise. by apply publish_turn_without_id. }
  repeat split; try done.
  simpl. apply elem_of_union_r, elem_of_singleton. reflexivity.
Qed.

Lemma update_without_id_ends_session_witness :
  is_update update_without_id = true /\
  Dict.get "junction_id" update_without_id = None /\
  exists h',
    ws_publish 7 [frame update_without_id; frame update_J1] sample_hub
      = (h', inl KeyError) /\
    junctions h' = [] /\ wire h' = [].
Proof.
  split; [reflexivity|]. split; [reflexivity|].
  destruct (update_without_id_ends_session 7 update_without_id [frame update_J1]
              sample_hub eq_refl eq_refl) as (h' & E & Hj & Hw & _).
  exists h'. split; [exact E|]. split; [exact Hj|exact Hw].
Defined.

(** ** C4: last write wins *)

Lemma broadcast_junctions (message : json) (h : Hub) :
  junctions (broadcast [] message h).1 = junctions h.
Proof. by rewrite broadcast_eq. Qed.

Lemma latest_cons (k : pykey) (d : obj) (msgs : list obj) :
  latest k (d :: msgs) =
  match latest k msgs with
  | Some x => Some x
  | None => if decide (update_key d = Some k) then Some d else None
  end.
Proof.
  unfold latest. rewrite filter_cons.
  destruct (decide (update_key d = Some k)); [|by destruct (last _)].
  rewrite last_cons. by destruct (last _).
Qed.

(** The loop over a run of well-formed updates. *)
Lemma serve_updates (ws : ws) (msgs : list obj) (h : Hub) :
  Forall (fun d => is_update d = true /\ is_Some (update_key d)) msgs ->
  exists h',
    serve (publish_turn ws) (map frame msgs) h = (h', inr true) /\
    publish_clients h' = publish_clients h /\
    (NoDup (Dict.keys (junctions h)) -> NoDup (Dict.keys (junctions h'))) /\
    forall k, Dict.get k (junctions h') =
              match latest k msgs with
              | Some d => Some d
              | None => Dict.get k (junctions h)
              end.
Proof.
  revert h. induction msgs as [|d msgs IH]; intros h Hall.
  - exists h. by repeat split.
  - apply Forall_cons in Hall as [[Hu [k0 Hk0]] Hall]. simpl.
    erewrite bind_ok by (by apply publish_turn_update). simpl.
    destruct (IH (broadcast [] (JDict d) (with_junctions (Dict.set k0 d) h)).1 Hall)
      as (h' & E & Hpub & Hnd & Hget).
    exists h'. split; [exact E|].
    split. { rewrite Hpub. by rewrite broadcast_eq. }
    split.
    + intros Hh. apply Hnd. rewrite broadcast_junctions. simpl.
      by apply DictFacts.keys_set_NoDup.
    + intros k. rewrite Hget, latest_cons, broadcast_junctions. simpl.
      destruct (latest k msgs); [done|].
      destruct (decide (update_key d = Some k)) as [Hk|Hk].
      * assert (k0 = k) as -> by congruence. apply DictFacts.get_set_eq.
      * apply DictFacts.get_set_ne. congruence.
Qed.

(** C4. After a producer session has gone through any sequence of
    well-formed [junction_update] messages, the table holds every key once,
    and under each key exactly the last message of the sequence filed under
    it, whole, whatever was sent for other keys in between; keys the
    sequence does not mention keep the record they had. *)
Theorem publish_last_write_wins (ws : ws) (msgs : list obj) (h : Hub) :
  Forall (fun d => is_update d = true /\ is_Some (update_key d)) msgs ->
  NoDup (Dict.keys (junctions h)) ->
  exists h',
    ws_publish ws (map frame msgs) h = (h', inr true) /\
    NoDup (Dict.keys (junctions h')) /\
    forall k, Dict.get k (junctions h') =
              match latest k msgs with
              | Some d => Some d
              | None => Dict.get k (junctions h)
              end.
Proof.
  intros Hall Hnd.
  destruct (serve_updates ws msgs (with_publish (fun s => s ∪ {[ws]}) h) Hall)
    as (h' & E & _ & Hnd' & Hget).
  exists h'. unfold ws_publish, publish_open.
  erewrite bind_ok by reflexivity. simpl.
  split; [exact E|]. split; [by apply Hnd'|exact Hget].
Qed.

Lemma publish_last_write_wins_witness :
  Forall (fun d => is_update d = true /\ is_Some (update_key d))
         [update_J1; update_J2; update_J1_later] /\
  NoDup (Dict.keys (junctions sample_hub)) /\
  exists h',
    ws_publish 7 (map frame [update_J1; update_J2; update_J1_later]) sample_hub
      = (h', inr true) /\
    Dict.get (KStr "J1") (junctions h') = Some update_J1_later /\
    Dict.get (KStr "J2") (junctions h') = Some update_J2 /\
    NoDup (Dict.keys (junctions h')).
Proof.
  assert (Hall : Forall (fun d => is_update d = true /\ is_Some (update_key d))
                   [update_J1; update_J2; update_J1_later]).
  { repeat (constructor; [split; [reflexivity|by eexists]|]). constructor. }
  split; [exact Hall|]. split; [apply NoDup_nil_2|].
  destruct (publish_last_write_wins 7 _ sample_hub Hall (NoDup_nil_2 (A := pykey)))
    as (h' & E & Hnd & Hget).
  exists h'. split; [exact E|].
  split; [apply (Hget (KStr "J1"))|]. split; [apply (Hget (KStr "J2"))|exact Hnd].
Defined.

(** ** The dashboard handler in closed form *)

Lemma dashboard_turn_eq (c : ws) (r : received) (h : Hub) :
  dashboard_turn c r h =
  match r with
  | inr _ => (h, inr true)
  | inl WebSocketDisconnect =>
      if decide (c ∈ dashboard_clients h)
      then (with_dashboard (fun s => s ∖ {[c]}) h, inr false)
      else (h, inl KeyError)
  | inl e => (h, inl e)
  end.
Proof.
  destruct r as [e|data]; [|done].
  destruct e; try done.
  unfold dashboard_turn. rewrite (until_disconnect_caught _ _ h h) by done.
  case_decide.
  - erewrite bind_ok by (by apply remove_dashboard_member). done.
  - apply bind_raise. by apply remove_dashboard_absent.
Qed.

Lemma dashboard_open_eq (c : ws) (h : Hub) :
  dashboard_open c h =
  let h1 := with_wire (fun w => w ++ [Send c (snapshot_of h) (healthy h c)])
              (with_dashboard (fun s => s ∪ {[c]}) h) in
  match broken h !! c with
  | None => (h1, inr true)
  | Some WebSocketDisconnect => (with_dashboard (fun s => s ∖ {[c]}) h1, inr false)
  | Some e => (h1, inl e)
  end.
Proof.
  unfold dashboard_open. erewrite bind_ok by reflexivity.
  set (h0 := with_dashboard _ h).
  assert (Hsend : (let! snapshot := gets snapshot_of in send_text c snapshot) h0
                  = (with_wire (fun w => w ++ [Send c (snapshot_of h) (healthy h c)]) h0,
                     match broken h !! c with Some e => inl e | None => inr tt end)).
  { erewrite bind_ok by reflexivity. by rewrite send_text_eq. }
  destruct (broken h !! c) as [e|] eqn:Hc; simpl.
  - destruct (decide (e = WebSocketDisconnect)) as [->|He].
    + rewrite (until_disconnect_caught _ _ _ _ Hsend).
      erewrite bind_ok; [reflexivity|].
      apply remove_dashboard_member. simpl.
      apply elem_of_union_r, elem_of_singleton. reflexivity.
    + rewrite (until_disconnect_escapes _ _ _ _ _ Hsend He). by destruct e.
  - by apply until_disconnect_ok.
Qed.

(** The handler itself sends one message, whatever it receives. *)
Lemma serve_dashboard_wire (c : ws) (inbox : list received) (h : Hub) :
  wire (serve (dashboard_turn c) inbox h).1 = wire h.
Proof.
  revert h. induction inbox as [|r inbox IH]; intros h; [done|].
  simpl. unfold bind. rewrite dashboard_turn_eq.
  destruct r as [e|data]; [|apply IH].
  destruct e; try done. by case_decide.
Qed.

Lemma ws_dashboard_wire (c : ws) (inbox : list received) (h : Hub) :
  wire (ws_dashboard c inbox h).1 = wire h ++ [Send c (snapshot_of h) (healthy h c)].
Proof.
  unfold ws_dashboard, bind. rewrite dashboard_open_eq.
  destruct (broken h !! c) as [e|]; [by destruct e|].
  simpl. by rewrite serve_dashboard_wire.
Qed.

(** ** C9: leaving the registry twice *)

Lemma dashboard_leave_absent (c : ws) (h : Hub) :
  c ∉ dashboard_clients h ->
  dashboard_turn c (inl WebSocketDisconnect) h = (h, inl KeyError).
Proof. intros Hc. rewrite dashboard_turn_eq. by rewrite decide_False. Qed.

(** C9. Dashboard 1 connects and its transport dies; the next update a
    producer sends makes [broadcast] collect it and take it out of the
    registry while its handler is still waiting in [receive_text].  When
    that wait ends in [WebSocketDisconnect], the handler's own
    [dashboard_clients.remove(ws)] raises [KeyError]: the second removal is
    an error, not a no-op. *)
Theorem dashboard_leave_after_reap_raises :
  let s := run (H := sample_builtins) leave_scenario (boot sample_clock) in
  tasks s !! 1%positive = Some Dashboard /\
  dashboard_clients (hub s) = ∅ /\
  dashboard_turn 1 (inl WebSocketDisconnect) (hub s) = (hub s, inl KeyError) /\
  ~ leave_is_idempotent 1 (hub s).
Proof.
  intros s.
  assert (Hout : dashboard_clients (hub s) = ∅) by (vm_compute; reflexivity).
  assert (Hturn : dashboard_turn 1 (inl WebSocketDisconnect) (hub s) = (hub s, inl KeyError)).
  { apply dashboard_leave_absent. rewrite Hout. apply not_elem_of_empty. }
  split; [vm_compute; reflexivity|]. split; [exact Hout|]. split; [exact Hturn|].
  intros (h' & E & _). rewrite Hturn in E. discriminate.
Qed.

(** ** What one turn of a handler can do to memory *)

Lemma same_hub_refl (h : Hub) : same_hub_but_publish h h.
Proof. exists (fun s => s). by destruct h. Qed.

Lemma remove_publish_effect (c : ws) (h : Hub) :
  same_hub_but_publish h (remove_publish c h).1.
Proof.
  unfold remove_publish, bind, gets, lift, set_remove, modify.
  case_decide; simpl; [by eexists|apply same_hub_refl].
Qed.

Lemma on_publish_cases (r : received) (h : Hub) :
  (exists e, (let! data := lift r in on_publish [] data) h = (h, inl e)) \/
  (let! data := lift r in on_publish [] data) h = (h, inr tt) \/
  (exists d k, r = frame d /\ is_update d = true /\ update_key d = Some k).
Proof.
  destruct r as [e|[|v]]; [left; by exists e|left; by exists JSONDecodeError|].
  erewrite bind_ok by reflexivity. unfold on_publish.
  erewrite bind_ok by reflexivity. cbv beta iota.
  destruct v as [ | | | | | |d]; try (left; by exists AttributeError).
  fold (is_update d). destruct (is_update d) eqn:Hu; [|right; by left].
  destruct (Dict.get "junction_id" d) as [v|] eqn:Hv.
  - destruct (key_of v) as [e|k] eqn:Hk.
    + left. exists e. erewrite bind_ok by (unfold lift, subscript; by rewrite Hv).
      apply bind_raise. unfold lift. by rewrite Hk.
    + right; right. exists d, k. unfold update_key. by rewrite Hv, Hk.
  - left. exists KeyError. apply bind_raise. unfold lift, subscript. by rewrite Hv.
Qed.

Lemma publish_turn_effect (c : ws) (r : received) (h : Hub) :
  same_hub_but_publish h (publish_turn c r h).1 \/
  exists d k, is_update d = true /\ update_key d = Some k /\
    (publish_turn c r h).1 = (broadcast [] (JDict d) (with_junctions (Dict.set k d) h)).1.
Proof.
  destruct (on_publish_cases r h) as [[e He]|[Hok|(d & k & -> & Hu & Hk)]].
  - left. unfold publish_turn, publish_turn_among. destruct (decide (e = WebSocketDisconnect)) as [->|Hne].
    + rewrite (until_disconnect_caught _ _ _ _ He).
      pose proof (remove_publish_effect c h) as Hrm. unfold bind.
      destruct (remove_publish c h) as [h' [e|[]]]; exact Hrm.
    + rewrite (until_disconnect_escapes _ _ _ _ _ He Hne). apply same_hub_refl.
  - left. unfold publish_turn, publish_turn_among. rewrite (until_disconnect_ok _ _ _ _ Hok).
    apply same_hub_refl.
  - right. exists d, k. by rewrite (publish_turn_update _ _ _ _ Hu Hk).
Qed.

Section Running.
Context `{Builtins}.

Lemma override_junction_effect (jid : string) (payload : obj) (h : Hub) :
  (override_junction jid payload h).1 = h \/
  exists d,
    py_int (duration_of payload) = inr d /\
    (override_junction jid payload h).1 =
    (broadcast [] (JDict (applied_event jid payload h)) (applied_hub jid payload d h)).1.
Proof.
  destruct (py_int (duration_of payload)) as [e|d] eqn:Hd.
  - left. by rewrite (override_junction_raises _ _ _ _ Hd).
  - right. exists d. split; [done|]. by rewrite (override_junction_returns _ _ _ _ Hd).
Qed.

Lemma run_app (evs1 evs2 : list event) (s : System) :
  run (evs1 ++ evs2) s = run evs2 (run evs1 s).
Proof. apply fold_left_app. Qed.

Lemma run_cons (ev : event) (evs : list event) (s : System) :
  run (ev :: evs) s = run evs (fire ev s).
Proof. reflexivity. Qed.

(** *** The table under a running hub *)

Lemma fire_junctions (ev : event) (s : System) :
  junctions (hub (fire ev s)) = junctions (hub s) \/
  (exists d k, is_update d = true /\ update_key d = Some k /\
     junctions (hub (fire ev s)) = Dict.set k d (junctions (hub s))) \/
  (exists jid payload d,
     junctions (hub (fire ev s)) =
     Dict.set (KStr jid) (applied_record jid payload d (hub s)) (junctions (hub s))).
Proof.
  destruct ev as [r c|c r|jid payload|c e]; simpl.
  - case_decide; [by left|]. left. destruct r; simpl.
    + done.
    + rewrite dashboard_open_eq. simpl.
      by destruct (broken (hub s) !! c) as [[]|].
  - destruct (tasks s !! c) as [[]|]; [| |by left].
    + destruct (publish_turn_effect c r (hub s)) as [[f Hf]|(d & k & Hu & Hk & E)];
        simpl; destruct (publish_turn c r (hub s)) as [h' res]; simpl in *.
      * left. by rewrite Hf.
      * right; left. exists d, k. by rewrite E, broadcast_junctions.
    + left. simpl. rewrite dashboard_turn_eq.
      destruct r as [[]|]; try done. by case_decide.
  - destruct (override_junction_effect jid payload (hub s)) as [E|(d & Hd & E)];
      destruct (override_junction jid payload (hub s)) as [h' res]; simpl in *.
    + left. by rewrite E.
    + right; right. exists jid, payload, d. by rewrite E, broadcast_junctions.
  - by left.
Qed.

(** *** C10: records name their key *)

Lemma keyed_set (k : pykey) (d : obj) (table : list (pykey * obj)) :
  keyed table ->
  (exists v, Dict.get "junction_id" d = Some v /\ key_of v = inr k) ->
  keyed (Dict.set k d table).
Proof.
  intros Ht Hd k' record Hin.
  apply DictFacts.elem_of_set in Hin as [[-> ->]|Hin]; [exact Hd|by apply Ht].
Qed.

Lemma keyed_update (k : pykey) (d : obj) (table : list (pykey * obj)) :
  keyed table -> update_key d = Some k -> keyed (Dict.set k d table).
Proof.
  intros Ht Hk. apply keyed_set; [done|]. unfold update_key in Hk.
  destruct (Dict.get "junction_id" d) as [v|]; [|done]. exists v.
  destruct (key_of v); [done|]. by injection Hk as ->.
Qed.

Lemma keyed_override (jid : string) (payload : obj) (d : Z) (h : Hub) :
  keyed (junctions h) ->
  keyed (Dict.set (KStr jid) (applied_record jid payload d h) (junctions h)).
Proof.
  intros Ht. apply keyed_set; [done|]. unfold applied_record.
  rewrite overridden_other.
  - destruct (Dict.get (KStr jid) (junctions h)) as [old|] eqn:Hold; simpl.
    + apply Ht. by apply DictFacts.get_elem.
    + by exists (JStr jid).
  - unfold override_fields. rewrite !not_elem_of_cons.
    repeat split; try done. apply not_elem_of_nil.
Qed.

Lemma fire_keyed (ev : event) (s : System) :
  keyed (junctions (hub s)) -> keyed (junctions (hub (fire ev s))).
Proof.
  intros Hs.
  destruct (fire_junctions ev s)
    as [->|[(d & k & _ & Hk & ->)|(jid & payload & d & ->)]];
    [done|by apply keyed_update|by apply keyed_override].
Qed.

Lemma run_keyed (evs : list event) (s : System) :
  keyed (junctions (hub s)) -> keyed (junctions (hub (run evs s))).
Proof.
  revert s. induction evs as [|ev evs IH]; intros s Hs; [done|].
  rewrite run_cons. by apply IH, fire_keyed.
Qed.

(** C10. Whatever connections, frames and override requests the hub has
    gone through since start-up, every record of the table has a
    [junction_id] field, and that field is the key the record is stored
    under (as Python compares keys); an update and an override both keep
    it so. *)
Theorem junction_id_names_the_key (clock : nat -> datetime) :
  (forall evs, keyed (junctions (hub (run evs (boot clock))))) /\
  (forall c r h, keyed (junctions h) -> keyed (junctions (publish_turn c r h).1)) /\
  (forall jid payload h,
     keyed (junctions h) -> keyed (junctions (override_junction jid payload h).1)).
Proof.
  split; [|split].
  - intros evs. apply run_keyed. intros k record Hin. by apply elem_of_nil in Hin.
  - intros c r h Hh.
    destruct (publish_turn_effect c r h) as [[f ->]|(d & k & _ & Hk & ->)]; [done|].
    rewrite broadcast_junctions. by apply keyed_update.
  - intros jid payload h Hh.
    destruct (override_junction_effect jid payload h) as [->|(d & _ & ->)]; [done|].
    rewrite broadcast_junctions. by apply keyed_override.
Qed.

(** *** The wire under a running hub *)

Lemma update_not_snapshot (d : obj) : is_update d = true -> is_snapshot (JDict d) = false.
Proof.
  unfold is_update, is_snapshot, eq_str.
  destruct (default JNull (Dict.get "type" d)); try done.
  intros ->%bool_decide_eq_true. done.
Qed.

Lemma elem_of_calls (x : send) (message : json) (h : Hub) :
  x ∈ calls message h -> to x ∈ dashboard_clients h /\ body x = message.
Proof.
  unfold calls. intros (c & -> & Hc)%list_elem_of_fmap. simpl.
  split; [by apply elem_of_elements|done].
Qed.

Lemma broadcast_registry (message : json) (h : Hub) :
  dashboard_clients (broadcast [] message h).1 ⊆ dashboard_clients h.
Proof. rewrite broadcast_eq. simpl. apply subseteq_difference_l. done. Qed.

Lemma broadcast_wire (message : json) (h : Hub) :
  wire (broadcast [] message h).1 = wire h ++ calls message h.
Proof. by rewrite broadcast_eq. Qed.

Lemma pushed_same (s : System) :
  exists new, wire (hub s) = wire (hub s) ++ new /\
    (pushed s s new \/ exists c, joined c s s new).
Proof.
  exists []. rewrite app_nil_r. split; [done|]. left.
  split; [done|]. split; [done|]. intros x Hx. by apply elem_of_nil in Hx.
Qed.

Lemma pushed_nothing (s : System) (h' : Hub) (t : gmap ws role) :
  wire h' = wire (hub s) ->
  dashboard_clients h' ⊆ dashboard_clients (hub s) ->
  exists new, wire h' = wire (hub s) ++ new /\
    (pushed s (mkSystem h' t (accepted s)) new \/
     exists c, joined c s (mkSystem h' t (accepted s)) new).
Proof.
  intros Hw Hd. exists []. rewrite app_nil_r. split; [done|]. left.
  split; [done|]. split; [done|]. intros x Hx. by apply elem_of_nil in Hx.
Qed.

Lemma pushed_broadcast (s : System) (message : json) (h0 : Hub) (t : gmap ws role) :
  wire h0 = wire (hub s) -> dashboard_clients h0 = dashboard_clients (hub s) ->
  is_snapshot message = false ->
  exists new, wire (broadcast [] message h0).1 = wire (hub s) ++ new /\
    (pushed s (mkSystem (broadcast [] message h0).1 t (accepted s)) new \/
     exists c, joined c s (mkSystem (broadcast [] message h0).1 t (accepted s)) new).
Proof.
  intros Hw Hd Hm. exists (calls message h0).
  rewrite broadcast_wire, Hw. split; [done|]. left.
  split; [simpl; rewrite <- Hd; apply broadcast_registry|]. split; [done|].
  intros x [Hx ->]%elem_of_calls. by rewrite <- Hd.
Qed.

(** One event either pushes to registered dashboards, or lets in a
    WebSocket not seen before. *)
Lemma fire_effect (ev : event) (s : System) :
  exists new,
    wire (hub (fire ev s)) = wire (hub s) ++ new /\
    (pushed s (fire ev s) new \/ exists c, joined c s (fire ev s) new).
Proof.
  destruct ev as [r c|c r|jid payload|c e]; simpl.
  - case_decide as Hacc; [apply pushed_same|]. destruct r; simpl.
    + exists []. rewrite app_nil_r. split; [done|]. right. exists c.
      split; [done|]. split; [done|]. split; [apply union_subseteq_l|].
      intros x Hx. by apply elem_of_nil in Hx.
    + rewrite dashboard_open_eq.
      exists [Send c (snapshot_of (hub s)) (healthy (hub s) c)].
      split; [by destruct (broken (hub s) !! c) as [[]|]|].
      right. exists c. split; [done|].
      split; [by destruct (broken (hub s) !! c) as [[]|]|].
      split.
      * destruct (broken (hub s) !! c) as [[]|]; simpl; try done.
        apply subseteq_difference_l. done.
      * by intros x ->%list_elem_of_singleton.
  - destruct (tasks s !! c) as [[]|]; [| |apply pushed_same]; simpl.
    + destruct (publish_turn_effect c r (hub s)) as [[f Hf]|(d & k & Hu & Hk & E)];
        destruct (publish_turn c r (hub s)) as [h' res]; simpl in *; subst h'.
      * by apply pushed_nothing.
      * apply pushed_broadcast; try done. by apply update_not_snapshot.
    + rewrite dashboard_turn_eq.
      destruct r as [[]|]; try (by apply pushed_nothing).
      case_decide; apply pushed_nothing; try done.
      simpl. apply subseteq_difference_l. done.
  - destruct (override_junction_effect jid payload (hub s)) as [E|(d & Hd & E)];
      destruct (override_junction jid payload (hub s)) as [h' res]; simpl in *; subst h'.
    + by apply pushed_nothing.
    + by apply pushed_broadcast.
  - by apply (pushed_nothing s (with_broken _ (hub s))).
Qed.

(** *** Registered means accepted *)

Lemma boot_well_connected (clock : nat -> datetime) : well_connected (boot clock).
Proof. split; [done|]. simpl. apply Forall_nil_2. Qed.

Lemma fire_well_connected (ev : event) (s : System) :
  well_connected s -> well_connected (fire ev s).
Proof.
  intros [Hreg Hwire].
  destruct (fire_effect ev s) as (new & Hw & [(Hd & Ha & Hx)|(c & Hc & Ha & Hd & Hx)]);
    unfold well_connected; rewrite Hw, Ha, Forall_app.
  - split; [by etrans|]. split; [done|].
    apply Forall_forall. intros x Hin. apply Hreg. by apply Hx.
  - split; [|split].
    + etrans; [exact Hd|]. by apply union_mono_r.
    + eapply Forall_impl; [exact Hwire|]. intros x Hin. by apply elem_of_union_l.
    + apply Forall_forall. intros x Hin. rewrite (Hx x Hin).
      apply elem_of_union_r, elem_of_singleton. reflexivity.
Qed.

Lemma run_well_connected (evs : list event) (s : System) :
  well_connected s -> well_connected (run evs s).
Proof.
  revert s. induction evs as [|ev evs IH]; intros s Hs; [done|].
  rewrite run_cons. by apply IH, fire_well_connected.
Qed.

Lemma unseen_is_silent (c : ws) (s : System) :
  well_connected s -> c ∉ accepted s -> sent_to c (wire (hub s)) = [].
Proof.
  intros [_ Hwire] Hc. unfold sent_to.
  induction Hwire as [|x w Hx Hw IH]; [done|].
  rewrite filter_cons. destruct (decide (to x = c)) as [<-|Hne]; [done|exact IH].
Qed.

(** *** After the snapshot, pushes only *)

Lemma sent_to_app (c : ws) (w1 w2 : list send) :
  sent_to c (w1 ++ w2) = sent_to c w1 ++ sent_to c w2.
Proof. unfold sent_to. apply filter_app. Qed.

Lemma fire_later (c : ws) (ev : event) (s : System) :
  c ∈ accepted s ->
  c ∈ accepted (fire ev s) /\
  exists pushes,
    sent_to c (wire (hub (fire ev s))) = sent_to c (wire (hub s)) ++ pushes /\
    pushes_only pushes.
Proof.
  intros Hc.
  destruct (fire_effect ev s) as (new & Hw & [(Hd & Ha & Hx)|(c' & Hc' & Ha & Hd & Hx)]);
    rewrite Hw, Ha, sent_to_app.
  - split; [done|]. exists (sent_to c new). split; [done|].
    apply Forall_forall. intros x [_ Hin]%list_elem_of_filter. by apply Hx.
  - split; [by apply elem_of_union_l|]. exists []. split; [|apply Forall_nil_2].
    f_equal. unfold sent_to. clear Hw.
    induction new as [|x new IH]; [done|]. rewrite filter_cons.
    rewrite decide_False.
    + apply IH. intros y Hy. apply Hx. by right.
    + rewrite (Hx x) by left. by intros ->.
Qed.

Lemma run_later (c : ws) (evs : list event) (s : System) :
  c ∈ accepted s ->
  exists pushes,
    sent_to c (wire (hub (run evs s))) = sent_to c (wire (hub s)) ++ pushes /\
    pushes_only pushes.
Proof.
  revert s. induction evs as [|ev evs IH]; intros s Hc.
  - exists []. rewrite app_nil_r. split; [done|apply Forall_nil_2].
  - rewrite run_cons.
    destruct (fire_later c ev s Hc) as (Hc' & p1 & E1 & Hp1).
    destruct (IH _ Hc') as (p2 & E2 & Hp2).
    exists (p1 ++ p2). rewrite E2, E1, <- app_assoc. split; [done|].
    by apply Forall_app.
Qed.

(** *** Once out of the registry, out for good *)

Lemma sent_to_none (c : ws) (new : list send) :
  (forall x, x ∈ new -> to x <> c) -> sent_to c new = [].
Proof.
  intros Hx. unfold sent_to. induction new as [|x new IH]; [done|].
  rewrite filter_cons, decide_False by (apply Hx; left).
  apply IH. intros y Hy. apply Hx. by right.
Qed.

Lemma fire_out (c : ws) (ev : event) (s : System) :
  c ∈ accepted s -> c ∉ dashboard_clients (hub s) ->
  c ∈ accepted (fire ev s) /\
  (c ∉ dashboard_clients (hub (fire ev s))) /\
  sent_to c (wire (hub (fire ev s))) = sent_to c (wire (hub s)).
Proof.
  intros Hacc Hout.
  destruct (fire_effect ev s) as (new & Hw & [(Hd & Ha & Hx)|(c' & Hc' & Ha & Hd & Hx)]);
    rewrite Hw, Ha, sent_to_app.
  - split; [done|]. split; [by intros Hin%Hd|].
    rewrite (sent_to_none c new), app_nil_r; [done|].
    intros x Hin <-. by apply Hx in Hin as [Hin _].
  - assert (c <> c') by (by intros ->).
    split; [by apply elem_of_union_l|]. split.
    + intros Hin%Hd. apply elem_of_union in Hin as [Hin|Hin%elem_of_singleton]; done.
    + rewrite (sent_to_none c new), app_nil_r; [done|].
      intros x Hin. by rewrite (Hx x Hin).
Qed.

Lemma run_out (c : ws) (evs : list event) (s : System) :
  c ∈ accepted s -> c ∉ dashboard_clients (hub s) ->
  (c ∉ dashboard_clients (hub (run evs s))) /\
  sent_to c (wire (hub (run evs s))) = sent_to c (wire (hub s)).
Proof.
  revert s. induction evs as [|ev evs IH]; intros s Hacc Hout; [done|].
  rewrite run_cons. destruct (fire_out c ev s Hacc Hout) as (Hacc' & Hout' & E).
  destruct (IH _ Hacc' Hout') as [Hfin E']. split; [done|]. by rewrite E', E.
Qed.

(** *** C1: [broadcast] *)

(** C1. Three dashboards are registered, the second with a dead
    transport.  If a fourth connects while [broadcast] waits for its first
    send, the next step of the loop raises [RuntimeError] out of
    [broadcast]: one client has been tried, the other two have not, and the
    dead one is still registered.  If instead, while [broadcast] waits for
    its send to the dead client, that client's handler ends and a fourth
    dashboard connects, the sweep goes on and the [remove] that follows it
    raises [KeyError].  In neither run does [broadcast] return, try every
    client registered at its start and remove the dead ones. *)
Theorem broadcast_interrupted_by_other_tasks :
  let r := broadcast join_during_first_wait JNull sample_hub in
  let r' := broadcast leave_and_join JNull sample_hub in
  r.2 = inl RuntimeError /\
  length (sent_since sample_hub r.1) = 1%nat /\
  size (dashboard_clients sample_hub) = 3%nat /\
  healthy sample_hub 2 = false /\ 2%positive ∈ dashboard_clients r.1 /\
  r'.2 = inl KeyError /\
  ~ sweeps_then_removes join_during_first_wait JNull sample_hub /\
  ~ sweeps_then_removes leave_and_join JNull sample_hub.
Proof.
  intros r r'.
  assert (Hr : r.2 = inl RuntimeError) by (vm_compute; reflexivity).
  assert (Hr' : r'.2 = inl KeyError) by (vm_compute; reflexivity).
  split; [exact Hr|]. split; [vm_compute; reflexivity|].
  split; [vm_compute; reflexivity|]. split; [reflexivity|].
  split. { subst r. vm_compute. reflexivity. }
  split; [exact Hr'|].
  split.
  - intros (h' & E & _). subst r. rewrite E in Hr. discriminate.
  - intros (h' & E & _). subst r'. rewrite E in Hr'. discriminate.
Qed.

(** *** C8: the snapshot *)

(** C8. Take any history of the hub, and a dashboard WebSocket [c] that
    connects after it.  The handler puts [c] in the registry and then
    calls [send_text] on it once, with a snapshot whose [junctions] list
    is the records of the table at that moment, in table order; it sends
    nothing else, whatever it receives later.  Nothing
    was sent to [c] before, and whatever happens afterwards, everything
    else sent to [c] is a push that is not a snapshot: the snapshot is
    the first message addressed to [c] and the only snapshot among
    them. *)
Theorem snapshot_first_and_once
    (clock : nat -> datetime) (before after : list event) (c : ws) :
  let s0 := run before (boot clock) in
  let s1 := fire (Connect Dashboard c) s0 in
  let s := run (before ++ Connect Dashboard c :: after) (boot clock) in
  c ∉ accepted s0 ->
  exists ok pushes,
    dashboard_open c (hub s0) =
      until_disconnect (remove_dashboard c)
        (let! snapshot := gets snapshot_of in send_text c snapshot)
        (with_dashboard (fun r => r ∪ {[c]}) (hub s0)) /\
    snapshot_of (hub s0) =
      JDict [("type", JStr "snapshot");
             ("junctions", JList (map JDict (Dict.values (junctions (hub s0)))))] /\
    (forall inbox,
       wire (ws_dashboard c inbox (hub s0)).1
       = wire (hub s0) ++ [Send c (snapshot_of (hub s0)) ok]) /\
    sent_to c (wire (hub s0)) = [] /\
    wire (hub s1) = wire (hub s0) ++ [Send c (snapshot_of (hub s0)) ok] /\
    (ok = true -> c ∈ dashboard_clients (hub s1)) /\
    sent_to c (wire (hub s)) = Send c (snapshot_of (hub s0)) ok :: pushes /\
    pushes_only pushes /\
    filter (fun x => is_snapshot (body x) = true) (sent_to c (wire (hub s)))
      = [Send c (snapshot_of (hub s0)) ok].
Proof.
  intros s0 s1 s Hc.
  assert (Hs0 : well_connected s0) by apply run_well_connected, boot_well_connected.
  assert (Hquiet : sent_to c (wire (hub s0)) = []) by by apply unseen_is_silent.
  assert (Hw1 : wire (hub s1)
                = wire (hub s0) ++ [Send c (snapshot_of (hub s0)) (healthy (hub s0) c)]).
  { subst s1. simpl. rewrite decide_False by done. rewrite dashboard_open_eq.
    by destruct (broken (hub s0) !! c) as [[]|]. }
  assert (Hc1 : c ∈ accepted s1).
  { subst s1. simpl. rewrite decide_False by done. rewrite dashboard_open_eq.
    destruct (broken (hub s0) !! c) as [[]|]; simpl;
      apply elem_of_union_r, elem_of_singleton; reflexivity. }
  destruct (run_later c after s1 Hc1) as (pushes & Hlater & Hpushes).
  assert (Hs : sent_to c (wire (hub s))
               = Send c (snapshot_of (hub s0)) (healthy (hub s0) c) :: pushes).
  { subst s. rewrite run_app, run_cons. fold s0. fold s1.
    rewrite Hlater, Hw1, sent_to_app, Hquiet. simpl.
    unfold sent_to at 1. rewrite filter_cons. simpl. by case_decide. }
  exists (healthy (hub s0) c), pushes.
  split. { unfold dashboard_open. by erewrite bind_ok by reflexivity. }
  split; [done|]. split; [intros inbox; apply ws_dashboard_wire|].
  split; [exact Hquiet|]. split; [exact Hw1|].
  split.
  { intros Hok. subst s1. simpl. rewrite decide_False by done.
    rewrite dashboard_open_eq. unfold healthy in Hok.
    destruct (broken (hub s0) !! c); [done|]. simpl.
    apply elem_of_union_r, elem_of_singleton. reflexivity. }
  split; [exact Hs|]. split; [exact Hpushes|].
  rewrite Hs, filter_cons. simpl. f_equal.
  clear Hlater Hs. induction Hpushes as [|x l Hx Hl IH]; [done|].
  rewrite filter_cons, decide_False; [exact IH|]. by rewrite Hx.
Qed.
End Running.

Lemma snapshot_first_and_once_witness :
  (1%positive ∉ accepted (run (H := sample_builtins) before_join (boot sample_clock))) /\
  exists ok pushes,
    sent_to 1 (wire (hub (run (H := sample_builtins)
                            (before_join ++ Connect Dashboard 1 :: after_join)
                            (boot sample_clock))))
    = Send 1 (JDict [("type", JStr "snapshot");
                     ("junctions", JList [JDict update_J1])]) ok :: pushes /\
    pushes_only pushes.
Proof.
  assert (Hnew : 1%positive ∉ accepted (run (H := sample_builtins) before_join
                                         (boot sample_clock))).
  { intros Hin. vm_compute in Hin. discriminate. }
  split; [exact Hnew|].
  destruct (snapshot_first_and_once (H := sample_builtins) sample_clock
              before_join after_join 1 Hnew)
    as (ok & pushes & _ & _ & _ & _ & _ & _ & Hs & Hp & _).
  exists ok, pushes. split; [exact Hs|exact Hp].
Defined.

(** * Further properties of the hub *)

(** ** [broadcast] among other tasks *)

Lemma meanwhile_quiet (p : pause) (h : Hub) :
  changes p = [] -> meanwhile p h = (h, inr false).
Proof. intros E. unfold meanwhile. rewrite E. simpl. by destruct h. Qed.

Lemma bind_ext {A B} (m : M A) (k1 k2 : A -> M B) (h : Hub) :
  (forall a h', k1 a h' = k2 a h') -> bind m k1 h = bind m k2 h.
Proof. intros E. unfold bind. destruct (m h) as [h' [e|a]]; [done|apply E]. Qed.

Lemma sweep_quiet (others : list pause) (m : json) (used : nat)
    (pending dead : list ws) (h : Hub) :
  quiet others ->
  sweep others m used pending dead h = sweep_alone m used pending dead h.
Proof.
  intros Hq. revert pending dead h.
  induction Hq as [|p later Hp Hq IH]; intros pending dead h; [done|].
  destruct pending as [|c rest]; [done|].
  cbn [sweep sweep_alone].
  apply bind_ext. intros _ h1. apply bind_ext. intros r h2.
  unfold bind. rewrite meanwhile_quiet by done. apply IH.
Qed.

Lemma broadcast_quiet (others : list pause) (m : json) (h : Hub) :
  quiet others -> broadcast others m h = broadcast [] m h.
Proof. intros Hq. unfold broadcast, bind, gets. by rewrite sweep_quiet. Qed.

Lemma same_but_dashboards_refl (h : Hub) : same_but_dashboards h h.
Proof. do 5 (split; [done|]). exists []. by rewrite app_nil_r. Qed.

Lemma same_but_dashboards_trans (h1 h2 h3 : Hub) :
  same_but_dashboards h1 h2 -> same_but_dashboards h2 h3 -> same_but_dashboards h1 h3.
Proof.
  intros (J1 & P1 & B1 & T1 & C1 & n1 & W1) (J2 & P2 & B2 & T2 & C2 & n2 & W2).
  split; [congruence|]. split; [congruence|]. split; [congruence|].
  split; [congruence|]. split; [congruence|].
  exists (n1 ++ n2). by rewrite W2, W1, app_assoc.
Qed.

Lemma sweep_alone_nil (m : json) (used : nat) (dead : list ws) (h : Hub) :
  sweep_alone m used [] dead h =
  if decide (size (dashboard_clients h) = used) then (h, inr dead)
  else (h, inl RuntimeError).
Proof.
  cbn [sweep_alone]. unfold bind. case_decide.
  - by rewrite unchanged_size_ok.
  - by rewrite unchanged_size_raises.
Qed.

Lemma sweep_alone_cons (m : json) (used : nat) (c : ws) (rest dead : list ws) (h : Hub) :
  sweep_alone m used (c :: rest) dead h =
  if decide (size (dashboard_clients h) = used)
  then sweep_alone m used rest (collect dead c (send_result h c)) (called c m h)
  else (h, inl RuntimeError).
Proof.
  cbn [sweep_alone]. unfold bind at 1. case_decide.
  - rewrite unchanged_size_ok by done. unfold bind, try. by rewrite send_text_eq.
  - by rewrite unchanged_size_raises.
Qed.

Lemma sweep_nil (p : pause) (later : list pause) (m : json) (used : nat)
    (dead : list ws) (h : Hub) :
  sweep (p :: later) m used [] dead h =
  if decide (size (dashboard_clients h) = used) then (h, inr dead)
  else (h, inl RuntimeError).
Proof.
  cbn [sweep]. unfold bind. case_decide.
  - by rewrite unchanged_size_ok.
  - by rewrite unchanged_size_raises.
Qed.

Lemma sweep_cons (p : pause) (later : list pause) (m : json) (used : nat)
    (c : ws) (rest dead : list ws) (h : Hub) :
  sweep (p :: later) m used (c :: rest) dead h =
  if decide (size (dashboard_clients h) = used)
  then sweep later m used
         (if (fold_left touch (changes p) (dashboard_clients h, false)).2
          then resumed p else rest)
         (collect dead c (send_result h c))
         (with_dashboard (fun _ => registry_after p (dashboard_clients h)) (called c m h))
  else (h, inl RuntimeError).
Proof.
  cbn [sweep]. unfold bind at 1. case_decide.
  - rewrite unchanged_size_ok by done. unfold bind, try. by rewrite send_text_eq.
  - by rewrite unchanged_size_raises.
Qed.

Lemma called_same (c : ws) (m : json) (h : Hub) : same_but_dashboards h (called c m h).
Proof. do 5 (split; [done|]). by eexists. Qed.

Lemma with_dashboard_same (f : gset ws -> gset ws) (h : Hub) :
  same_but_dashboards h (with_dashboard f h).
Proof. do 5 (split; [done|]). exists []. simpl. by rewrite app_nil_r. Qed.

Lemma sweep_alone_outcome (m : json) (used : nat) (pending dead : list ws) (h : Hub) :
  same_but_dashboards h (sweep_alone m used pending dead h).1 /\
  forall e, (sweep_alone m used pending dead h).2 = inl e -> e = RuntimeError.
Proof.
  revert dead h. induction pending as [|c rest IH]; intros dead h.
  - rewrite sweep_alone_nil. case_decide; simpl.
    + split; [apply same_but_dashboards_refl|done].
    + split; [apply same_but_dashboards_refl|by intros e [= <-]].
  - rewrite sweep_alone_cons. case_decide.
    + destruct (IH (collect dead c (send_result h c)) (called c m h)) as [Hsame He].
      split; [|done]. eapply same_but_dashboards_trans; [apply called_same|done].
    + split; [apply same_but_dashboards_refl|by intros e [= <-]].
Qed.

Lemma sweep_outcome (others : list pause) (m : json) (used : nat)
    (pending dead : list ws) (h : Hub) :
  same_but_dashboards h (sweep others m used pending dead h).1 /\
  forall e, (sweep others m used pending dead h).2 = inl e -> e = RuntimeError.
Proof.
  revert pending dead h. induction others as [|p later IH]; intros pending dead h.
  { apply sweep_alone_outcome. }
  destruct pending as [|c rest].
  - rewrite sweep_nil. case_decide; simpl.
    + split; [apply same_but_dashboards_refl|done].
    + split; [apply same_but_dashboards_refl|by intros e [= <-]].
  - rewrite sweep_cons. case_decide.
    + match goal with
      | |- context [sweep later m used ?pend ?dd ?hh] =>
          destruct (IH pend dd hh) as [Hsame He]
      end.
      split; [|done].
      eapply same_but_dashboards_trans; [apply called_same|].
      eapply same_but_dashboards_trans; [apply with_dashboard_same|done].
    + split; [apply same_but_dashboards_refl|by intros e [= <-]].
Qed.

Lemma remove_dashboard_cases (c : ws) (h : Hub) :
  remove_dashboard c h = (with_dashboard (fun s => s ∖ {[c]}) h, inr tt) \/
  remove_dashboard c h = (h, inl KeyError).
Proof.
  destruct (decide (c ∈ dashboard_clients h)).
  - left. by apply remove_dashboard_member.
  - right. by apply remove_dashboard_absent.
Qed.

Lemma reap_outcome (dead : list ws) (h : Hub) :
  same_but_dashboards h (reap dead h).1 /\
  forall e, (reap dead h).2 = inl e -> e = KeyError.
Proof.
  revert h. induction dead as [|c rest IH]; intros h; cbn [reap].
  { split; [apply same_but_dashboards_refl|done]. }
  unfold bind. destruct (remove_dashboard_cases c h) as [-> | ->].
  - destruct (IH (with_dashboard (fun s => s ∖ {[c]}) h)) as [Hsame He].
    split; [|done]. eapply same_but_dashboards_trans; [|exact Hsame].
    do 5 (split; [done|]). exists []. simpl. by rewrite app_nil_r.
  - split; [apply same_but_dashboards_refl|by intros e [= <-]].
Qed.

(** [broadcast] raises nothing but the iterator's [RuntimeError] and the
    [KeyError] of [remove], and writes nothing but the registry and the
    wire. *)
Lemma broadcast_outcome (others : list pause) (m : json) (h : Hub) :
  same_but_dashboards h (broadcast others m h).1 /\
  forall e, (broadcast others m h).2 = inl e -> e = RuntimeError \/ e = KeyError.
Proof.
  unfold broadcast, bind, gets.
  destruct (sweep_outcome others m (length (elements (dashboard_clients h)))
              (elements (dashboard_clients h)) [] h) as [Hs He].
  destruct (sweep others m _ _ [] h) as [h1 [e|dead]]; simpl in *.
  - split; [done|]. intros e' [= <-]. left. by apply He.
  - destruct (reap_outcome dead h1) as [Hr Hk].
    split; [by eapply same_but_dashboards_trans|].
    intros e Hre. right. by apply Hk.
Qed.

(** ** [broadcast], twice *)

Lemma healthy_broadcast (message : json) (h : Hub) (c : ws) :
  healthy (broadcast [] message h).1 c = healthy h c.
Proof. by rewrite broadcast_eq. Qed.

Lemma filter_none {A} (P : A -> Prop) `{forall x, Decision (P x)} (l : list A) :
  (forall x, x ∈ l -> ~ P x) -> filter P l = [].
Proof.
  intros Hl. induction l as [|x l IH]; [done|].
  rewrite filter_cons_False by (apply Hl; left).
  apply IH. intros y Hy. apply Hl. by right.
Qed.

Lemma failed_after_broadcast (message : json) (h : Hub) :
  failed (broadcast [] message h).1 = [].
Proof.
  unfold failed. apply filter_none.
  intros c Hc%elem_of_elements. rewrite healthy_broadcast.
  rewrite broadcast_eq in Hc. simpl in Hc.
  apply elem_of_difference in Hc as [Hc Hout].
  intros E. apply Hout.
  apply elem_of_list_to_set, elem_of_failed. by split.
Qed.

(** X1. When no other task changes the registry while two successive
    calls of [broadcast] wait, what the first leaves in the registry is
    healthy: the second reaches every remaining client, every send is
    delivered, and it removes none. *)
Theorem broadcast_leaves_only_healthy
    (others others' : list pause) (message next : json) (h : Hub) :
  quiet others -> quiet others' ->
  let h1 := (broadcast others message h).1 in
  let h2 := (broadcast others' next h1).1 in
  (broadcast others message h).2 = inr tt /\
  (broadcast others' next h1).2 = inr tt /\
  dashboard_clients h2 = dashboard_clients h1 /\
  wire h2 = wire h1 ++ calls next h1 /\
  (forall s, s ∈ calls next h1 -> delivered s = true) /\
  map to (calls next h1) = elements (dashboard_clients h1).
Proof.
  intros Hq Hq' h1 h2. subst h2 h1.
  rewrite (broadcast_quiet others) by done.
  rewrite (broadcast_quiet others') by done.
  set (h1 := (broadcast [] message h).1).
  split; [by rewrite broadcast_eq|]. rewrite (broadcast_eq next h1).
  split; [done|].
  unfold h1 at 1. rewrite failed_after_broadcast. simpl.
  split; [by rewrite difference_empty_L|]. split; [done|].
  split; [|apply calls_to].
  intros s Hs. unfold calls in Hs. apply list_elem_of_fmap in Hs as (c & -> & Hc).
  simpl. apply elem_of_elements in Hc.
  destruct (healthy h1 c) eqn:E; [done|]. exfalso.
  assert (Hf : c ∈ failed h1) by (apply elem_of_failed; by split).
  unfold h1 in Hf. rewrite failed_after_broadcast in Hf. by apply elem_of_nil in Hf.
Qed.

Lemma broadcast_leaves_only_healthy_witness :
  quiet [Pause [] [1%positive]] /\ quiet [] /\
  let h1 := (broadcast [Pause [] [1%positive]] JNull sample_hub).1 in
  dashboard_clients (broadcast [] JNull h1).1 = dashboard_clients h1 /\
  forall s, s ∈ calls JNull h1 -> delivered s = true.
Proof.
  assert (Hq : quiet [Pause [] [1%positive]]) by (by repeat constructor).
  assert (Hq' : quiet []) by constructor.
  split; [exact Hq|]. split; [exact Hq'|].
  destruct (broadcast_leaves_only_healthy [Pause [] [1%positive]] [] JNull JNull
              sample_hub Hq Hq') as (_ & _ & H3 & _ & H5 & _).
  split; [exact H3|exact H5].
Defined.

(** ** The producer loop on frames it does not apply *)

Lemma ws_publish_cons (ws : ws) (r : received) (rest : list received) (h : Hub) :
  ws_publish ws (r :: rest) h =
  (let! again := publish_turn ws r in
   if again then serve (publish_turn ws) rest else ret false)
    (with_publish (fun s => s ∪ {[ws]}) h).
Proof. unfold ws_publish, publish_open. by erewrite bind_ok by reflexivity. Qed.

Lemma ws_publish_nil_rest (ws : ws) (rest : list received) (h : Hub) :
  ws_publish ws rest h =
  serve (publish_turn ws) rest (with_publish (fun s => s ∪ {[ws]}) h).
Proof. unfold ws_publish, publish_open. by erewrite bind_ok by reflexivity. Qed.

Lemma publish_turn_ignored (ws : ws) (d : obj) (h : Hub) :
  is_update d = false -> publish_turn ws (frame d) h = (h, inr true).
Proof.
  intros Hu. unfold publish_turn, publish_turn_among. apply until_disconnect_ok.
  unfold frame, on_publish.
  erewrite bind_ok by reflexivity. erewrite bind_ok by reflexivity.
  cbv beta iota. unfold is_update in Hu. by rewrite Hu.
Qed.

(** X2. A JSON object whose [type] is not "junction_update" (or that has
    no [type] at all) is passed over: the session goes on with the next
    frame exactly as if the object had not been sent. *)
Theorem publish_ignores_other_kinds (ws : ws) (d : obj) (rest : list received) (h : Hub) :
  is_update d = false ->
  ws_publish ws (frame d :: rest) h = ws_publish ws rest h.
Proof.
  intros Hu. rewrite ws_publish_cons, ws_publish_nil_rest.
  by erewrite bind_ok by (by apply publish_turn_ignored).
Qed.

Lemma publish_ignores_other_kinds_witness :
  is_update [("type", JStr "heartbeat"); ("junction_id", JStr "J1")] = false /\
  ws_publish 7 [frame [("type", JStr "heartbeat"); ("junction_id", JStr "J1")];
                frame update_J2] sample_hub
  = ws_publish 7 [frame update_J2] sample_hub.
Proof.
  split; [reflexivity|].
  apply (publish_ignores_other_kinds 7 _ [frame update_J2] sample_hub). reflexivity.
Defined.

Lemma publish_turn_undecodable (ws : ws) (data : text) (e : exn) (h : Hub) :
  decode_error data = Some e -> publish_turn ws (inr data) h = (h, inl e).
Proof.
  intros He. unfold publish_turn, publish_turn_among.
  assert (Hne : e <> WebSocketDisconnect).
  { destruct data as [|[]]; simpl in He; by simplify_eq. }
  apply until_disconnect_escapes; [|done].
  erewrite bind_ok by reflexivity. unfold on_publish.
  destruct data as [|v]; simpl in He.
  - simplify_eq. by apply bind_raise.
  - erewrite bind_ok by reflexivity.
    destruct v; simpl in He; by simplify_eq.
Qed.

(** X3. A text frame that is not JSON, or that is JSON but not an object
    (a number, a string, a list, [null]), ends the producer session:
    [JSONDecodeError] in the first case, [AttributeError] in the second,
    leaves the handler; the table, the wire and the dashboards are as they
    were, the frames that follow are not read, and the connection stays in
    [publish_clients]. *)
Theorem publish_undecodable_ends_session
    (ws : ws) (data : text) (e : exn) (rest : list received) (h : Hub) :
  decode_error data = Some e ->
  exists h',
    ws_publish ws (inr data :: rest) h = (h', inl e) /\
    junctions h' = junctions h /\
    wire h' = wire h /\
    dashboard_clients h' = dashboard_clients h /\
    ws ∈ publish_clients h' /\
    (data = Malformed -> e = JSONDecodeError) /\
    (forall v, data = Encodes v -> e = AttributeError).
Proof.
  intros He. exists (with_publish (fun s => s ∪ {[ws]}) h).
  split.
  { rewrite ws_publish_cons. apply bind_raise. by apply publish_turn_undecodable. }
  repeat split; try done.
  - simpl. apply elem_of_union_r, elem_of_singleton. reflexivity.
  - intros ->. simpl in He. by simplify_eq.
  - intros v ->. destruct v; simpl in He; by simplify_eq.
Qed.

Lemma publish_undecodable_ends_session_witness :
  decode_error (Encodes (JList [JDict update_J1])) = Some AttributeError /\
  exists h',
    ws_publish 7 [inr (Encodes (JList [JDict update_J1])); frame update_J1] sample_hub
      = (h', inl AttributeError) /\
    junctions h' = [].
Proof.
  split; [reflexivity|].
  destruct (publish_undecodable_ends_session 7 (Encodes (JList [JDict update_J1]))
              AttributeError [frame update_J1] sample_hub eq_refl)
    as (h' & E & Hj & _).
  exists h'. split; [exact E|exact Hj].
Defined.

Lemma remove_publish_member (c : ws) (h : Hub) :
  c ∈ publish_clients h ->
  remove_publish c h = (with_publish (fun s => s ∖ {[c]}) h, inr tt).
Proof.
  intros Hin. unfold remove_publish, bind, gets, lift, set_remove, modify.
  by rewrite decide_True.
Qed.

Lemma remove_publish_absent (c : ws) (h : Hub) :
  c ∉ publish_clients h -> remove_publish c h = (h, inl KeyError).
Proof.
  intros Hin. unfold remove_publish, bind, gets, lift, set_remove.
  by rewrite decide_False.
Qed.

Lemma publish_turn_disconnect (ws : ws) (h : Hub) :
  publish_turn ws (inl WebSocketDisconnect) h =
  if decide (ws ∈ publish_clients h)
  then (with_publish (fun s => s ∖ {[ws]}) h, inr false)
  else (h, inl KeyError).
Proof.
  unfold publish_turn, publish_turn_among. rewrite (until_disconnect_caught _ _ h h) by done.
  case_decide.
  - by erewrite bind_ok by (by apply remove_publish_member).
  - apply bind_raise. by apply remove_publish_absent.
Qed.

Lemma publish_turn_unhashable (ws : ws) (d : obj) (v : json) (e : exn) (h : Hub) :
  is_update d = true -> Dict.get "junction_id" d = Some v -> key_of v = inl e ->
  publish_turn ws (frame d) h = (h, inl e).
Proof.
  intros Hu Hv Hk. unfold publish_turn, publish_turn_among. apply until_disconnect_escapes.
  - unfold frame, on_publish.
    erewrite bind_ok by reflexivity. erewrite bind_ok by reflexivity.
    cbv beta iota. unfold is_update in Hu. rewrite Hu.
    erewrite bind_ok by (unfold lift, subscript; by rewrite Hv).
    apply bind_raise. unfold lift. by rewrite Hk.
  - destruct v; simpl in Hk; by simplify_eq.
Qed.

(** A turn returns, or raises with memory untouched. *)
Lemma publish_turn_outcome (ws : ws) (r : received) (h : Hub) :
  (exists e, publish_turn ws r h = (h, inl e)) \/
  (exists h' again, publish_turn ws r h = (h', inr again)).
Proof.
  destruct (on_publish_cases r h) as [[e He]|[Hok|(d & k & -> & Hu & Hk)]].
  - destruct (decide (e = WebSocketDisconnect)) as [->|Hne].
    + unfold publish_turn, publish_turn_among. rewrite (until_disconnect_caught _ _ _ _ He).
      destruct (decide (ws ∈ publish_clients h)) as [Hin|Hout].
      * right. erewrite bind_ok by (by apply remove_publish_member). by eexists _, _.
      * left. exists KeyError. apply bind_raise. by apply remove_publish_absent.
    + left. exists e. unfold publish_turn, publish_turn_among. by apply until_disconnect_escapes.
  - right. unfold publish_turn, publish_turn_among. rewrite (until_disconnect_ok _ _ _ _ Hok). by eexists _, _.
  - right. rewrite (publish_turn_update _ _ _ _ Hu Hk). by eexists _, _.
Qed.

Lemma on_publish_update (others : list pause) (d : obj) (k : pykey) (h : Hub) :
  is_update d = true -> update_key d = Some k ->
  (let! data := lift (frame d) in on_publish others data) h =
  broadcast others (JDict d) (with_junctions (Dict.set k d) h).
Proof.
  intros Hu Hk. unfold frame, on_publish. simpl.
  erewrite bind_ok by reflexivity. erewrite bind_ok by reflexivity.
  cbv beta iota. unfold is_update in Hu. rewrite Hu.
  unfold update_key in Hk.
  destruct (Dict.get "junction_id" d) as [v|] eqn:Hv; [|done].
  destruct (key_of v) as [e|k'] eqn:Hkey; [done|]. injection Hk as ->.
  erewrite bind_ok by (unfold lift, subscript; by rewrite Hv).
  erewrite bind_ok by (unfold lift; by rewrite Hkey).
  by erewrite bind_ok by reflexivity.
Qed.

Lemma on_publish_among_cases (others : list pause) (r : received) (h : Hub) :
  (exists e, (let! data := lift r in on_publish others data) h = (h, inl e)) \/
  (let! data := lift r in on_publish others data) h = (h, inr tt) \/
  (exists d k, r = frame d /\ is_update d = true /\ update_key d = Some k).
Proof.
  destruct r as [e|[|v]]; [left; by exists e|left; by exists JSONDecodeError|].
  erewrite bind_ok by reflexivity. unfold on_publish.
  erewrite bind_ok by reflexivity. cbv beta iota.
  destruct v as [ | | | | | |d]; try (left; by exists AttributeError).
  fold (is_update d). destruct (is_update d) eqn:Hu; [|right; by left].
  destruct (Dict.get "junction_id" d) as [v|] eqn:Hv.
  - destruct (key_of v) as [e|k] eqn:Hk.
    + left. exists e. erewrite bind_ok by (unfold lift, subscript; by rewrite Hv).
      apply bind_raise. unfold lift. by rewrite Hk.
    + right; right. exists d, k. unfold update_key. by rewrite Hv, Hk.
  - left. exists KeyError. apply bind_raise. unfold lift, subscript. by rewrite Hv.
Qed.

(** X4. A producer turn that raises has either changed nothing or was
    stopped inside [broadcast].  Every check of the frame comes before the
    first write, so an exception from [receive_text], from decoding, from
    a missing or unhashable [junction_id], or from the [remove] of the
    disconnect branch leaves memory exactly as it was.  The store comes
    before [await broadcast]: when [broadcast] raises, which it does only
    with [RuntimeError] or [KeyError] and only if another task changed the
    registry while it waited, the update is already in the table.  With the
    registry left alone a turn that raises has changed nothing, and on an
    update with a [junction_id] it raises what hashing the id raises,
    [TypeError]. *)
Theorem publish_turn_raises_clean
    (others : list pause) (ws : ws) (r : received) (h : Hub) (e : exn) :
  (publish_turn_among others ws r h).2 = inl e ->
  let h' := (publish_turn_among others ws r h).1 in
  (h' = h \/
   exists d k, r = frame d /\ is_update d = true /\ update_key d = Some k /\
     junctions h' = Dict.set k d (junctions h) /\
     publish_clients h' = publish_clients h /\
     (e = RuntimeError \/ e = KeyError) /\ ~ quiet others) /\
  (quiet others ->
     h' = h /\
     forall d v, r = frame d -> is_update d = true ->
       Dict.get "junction_id" d = Some v -> key_of v = inl e /\ e = TypeError).
Proof.
  intros Hr h'. subst h'.
  assert (Hmain :
    (publish_turn_among others ws r h).1 = h \/
    exists d k, r = frame d /\ is_update d = true /\ update_key d = Some k /\
      junctions (publish_turn_among others ws r h).1 = Dict.set k d (junctions h) /\
      publish_clients (publish_turn_among others ws r h).1 = publish_clients h /\
      (e = RuntimeError \/ e = KeyError) /\ ~ quiet others).
  { unfold publish_turn_among in *.
    destruct (on_publish_among_cases others r h) as [(e0 & He)|[Hok|(d & k & -> & Hu & Hk)]].
    - left. destruct (decide (e0 = WebSocketDisconnect)) as [->|Hne].
      + rewrite (until_disconnect_caught _ _ _ _ He) in *. unfold bind in *.
        destruct (remove_publish ws h) as [h1 [e1|[]]] eqn:Erm; [|done].
        destruct (decide (ws ∈ publish_clients h)) as [Hin|Hout].
        * by rewrite remove_publish_member in Erm.
        * rewrite remove_publish_absent in Erm by done. by simplify_eq.
      + by rewrite (until_disconnect_escapes _ _ _ _ _ He Hne).
    - by rewrite (until_disconnect_ok _ _ _ _ Hok) in Hr.
    - right. exists d, k. do 3 (split; [done|]).
      pose proof (on_publish_update others d k h Hu Hk) as Eb.
      destruct (broadcast_outcome others (JDict d) (with_junctions (Dict.set k d) h))
        as [(Hj & Hp & _) He].
      destruct (broadcast others (JDict d) (with_junctions (Dict.set k d) h))
        as [h1 [e1|[]]] eqn:Ebr; simpl in *.
      + assert (Hne : e1 <> WebSocketDisconnect)
          by (destruct (He e1 eq_refl) as [-> | ->]; done).
        rewrite (until_disconnect_escapes _ _ _ _ _ Eb Hne) in *. simpl in *.
        injection Hr as <-. do 2 (split; [done|]). split; [by apply He|].
        intros Hq. rewrite (broadcast_quiet _ _ _ Hq), broadcast_eq in Ebr. done.
      + by rewrite (until_disconnect_ok _ _ _ _ Eb) in Hr. }
  split; [exact Hmain|].
  intros Hq.
  assert (Hsame : (publish_turn_among others ws r h).1 = h).
  { destruct Hmain as [E|(d & k & _ & _ & _ & _ & _ & _ & Hnq)]; [done|by destruct Hnq]. }
  split; [exact Hsame|].
  intros d v -> Hu Hv. destruct (key_of v) as [e0|k] eqn:Hk.
  - unfold publish_turn_among in Hr.
    assert (Eb : (let! data := lift (frame d) in on_publish others data) h = (h, inl e0)).
    { unfold frame, on_publish. simpl.
      erewrite bind_ok by reflexivity. erewrite bind_ok by reflexivity.
      cbv beta iota. unfold is_update in Hu. rewrite Hu.
      erewrite bind_ok by (unfold lift, subscript; by rewrite Hv).
      apply bind_raise. unfold lift. by rewrite Hk. }
    assert (Ht : e0 = TypeError) by (destruct v; simpl in Hk; by simplify_eq).
    rewrite (until_disconnect_escapes _ _ _ _ _ Eb) in Hr by (by rewrite Ht).
    simpl in Hr. injection Hr as <-. done.
  - exfalso. assert (Hkey : update_key d = Some k) by (unfold update_key; by rewrite Hv, Hk).
    unfold publish_turn_among in Hr.
    pose proof (on_publish_update others d k h Hu Hkey) as Eb.
    rewrite (broadcast_quiet _ _ _ Hq), broadcast_eq in Eb.
    by rewrite (until_disconnect_ok _ _ _ _ Eb) in Hr.
Qed.

Lemma publish_turn_raises_clean_witness :
  let t := publish_turn_among join_during_first_wait 7 (frame update_J1) sample_hub in
  t.2 = inl RuntimeError /\
  Dict.get (KStr "J1") (junctions t.1) = Some update_J1 /\
  (t.1 = sample_hub \/
   exists d k, frame update_J1 = frame d /\ is_update d = true /\ update_key d = Some k /\
     junctions t.1 = Dict.set k d (junctions sample_hub) /\
     publish_clients t.1 = publish_clients sample_hub /\
     (RuntimeError = RuntimeError \/ RuntimeError = KeyError) /\
     ~ quiet join_during_first_wait).
Proof.
  intros t.
  assert (Hr : t.2 = inl RuntimeError) by (vm_compute; reflexivity).
  split; [exact Hr|]. split; [vm_compute; reflexivity|].
  exact (proj1 (publish_turn_raises_clean join_during_first_wait 7 (frame update_J1)
                  sample_hub RuntimeError Hr)).
Defined.

(** ** A producer that disconnects *)

Lemma serve_app (turn : received -> M bool) (l1 l2 : list received) (h h1 : Hub) :
  serve turn l1 h = (h1, inr true) -> serve turn (l1 ++ l2) h = serve turn l2 h1.
Proof.
  revert h. induction l1 as [|r l1 IH]; intros h E; simpl in *.
  - unfold ret in E. by simplify_eq.
  - unfold bind in *. destruct (turn r h) as [h0 [e|[]]]; [done| |done].
    by apply IH.
Qed.

Lemma add_then_remove (c : ws) (s : gset ws) : (s ∪ {[c]}) ∖ {[c]} = s ∖ {[c]}.
Proof. by rewrite difference_union_distr_l_L, difference_diag_L, union_empty_r_L. Qed.

(** X5. When a producer disconnects after a run of updates, the handler
    returns normally and takes the connection, and nothing else, out of
    [publish_clients]; what the producer reported stays in the table, and
    nothing is sent to anyone on account of the disconnect.  Frames after
    the disconnect are not read. *)
Theorem publish_disconnect_keeps_state
    (ws : ws) (msgs : list obj) (rest : list received) (h : Hub) :
  Forall (fun d => is_update d = true /\ is_Some (update_key d)) msgs ->
  exists h',
    ws_publish ws (map frame msgs ++ inl WebSocketDisconnect :: rest) h = (h', inr false) /\
    publish_clients h' = publish_clients h ∖ {[ws]} /\
    dashboard_clients h' = dashboard_clients (ws_publish ws (map frame msgs) h).1 /\
    wire h' = wire (ws_publish ws (map frame msgs) h).1 /\
    forall k, Dict.get k (junctions h') =
              match latest k msgs with
              | Some d => Some d
              | None => Dict.get k (junctions h)
              end.
Proof.
  intros Hall.
  destruct (serve_updates ws msgs (with_publish (fun s => s ∪ {[ws]}) h) Hall)
    as (h1 & E & Hpub & _ & Hget).
  exists (with_publish (fun s => s ∖ {[ws]}) h1).
  rewrite !ws_publish_nil_rest, E, (serve_app _ _ _ _ _ E). simpl.
  assert (Hin : ws ∈ publish_clients h1).
  { rewrite Hpub. simpl. apply elem_of_union_r, elem_of_singleton. reflexivity. }
  split.
  { by erewrite bind_ok by (rewrite publish_turn_disconnect; by rewrite decide_True). }
  split; [simpl; rewrite Hpub; apply add_then_remove|].
  by repeat split.
Qed.

Lemma publish_disconnect_keeps_state_witness :
  Forall (fun d => is_update d = true /\ is_Some (update_key d)) [update_J1] /\
  exists h',
    ws_publish 7 (map frame [update_J1] ++ inl WebSocketDisconnect :: [frame update_J2])
      sample_hub = (h', inr false) /\
    publish_clients h' = publish_clients sample_hub ∖ {[7%positive]} /\
    Dict.get (KStr "J1") (junctions h') = Some update_J1 /\
    Dict.get (KStr "J2") (junctions h') = None.
Proof.
  assert (Hall : Forall (fun d => is_update d = true /\ is_Some (update_key d)) [update_J1]).
  { repeat (constructor; [split; [reflexivity|by eexists]|]). constructor. }
  split; [exact Hall|].
  destruct (publish_disconnect_keeps_state 7 [update_J1] [frame update_J2] sample_hub Hall)
    as (h' & E & Hpub & _ & _ & Hget).
  exists h'. split; [exact E|]. split; [exact Hpub|].
  split; [apply (Hget (KStr "J1"))|apply (Hget (KStr "J2"))].
Defined.

(** ** Dashboards are read-only *)

Lemma serve_dashboard_cases (c : ws) (inbox : list received) (h : Hub) :
  (serve (dashboard_turn c) inbox h).1 = h \/
  (serve (dashboard_turn c) inbox h).1 = with_dashboard (fun s => s ∖ {[c]}) h.
Proof.
  revert h. induction inbox as [|r inbox IH]; intros h; [by left|].
  simpl. unfold bind. rewrite dashboard_turn_eq.
  destruct r as [e|data]; [|apply IH].
  destruct e; try (by left). case_decide; [by right|by left].
Qed.

(** X6. Nothing a dashboard sends, and no way its session ends, changes
    the table, the producers' registry or the clock, or adds or removes any
    other dashboard: a dashboard session can only change its own
    membership. *)
Theorem dashboard_is_read_only (c : ws) (inbox : list received) (h : Hub) :
  let h' := (ws_dashboard c inbox h).1 in
  junctions h' = junctions h /\
  publish_clients h' = publish_clients h /\
  ticks h' = ticks h /\
  broken h' = broken h /\
  forall c', c' <> c -> (c' ∈ dashboard_clients h' <-> c' ∈ dashboard_clients h).
Proof.
  intros h'. subst h'. unfold ws_dashboard, bind. rewrite dashboard_open_eq.
  assert (Hadd : forall c', c' <> c ->
            (c' ∈ dashboard_clients h ∪ {[c]} <-> c' ∈ dashboard_clients h)).
  { intros c' Hne. rewrite elem_of_union, elem_of_singleton. tauto. }
  assert (Hrm : forall c' (s : gset ws), c' <> c -> (c' ∈ s ∖ {[c]} <-> c' ∈ s)).
  { intros c' s Hne. rewrite elem_of_difference, elem_of_singleton. tauto. }
  destruct (broken h !! c) as [e|].
  - destruct e; simpl; (do 4 (split; [done|])); intros c' Hne;
      rewrite ?Hrm by done; by apply Hadd.
  - simpl.
    destruct (serve_dashboard_cases c inbox
                (with_wire (fun w => w ++ [Send c (snapshot_of h) (healthy h c)])
                   (with_dashboard (fun s => s ∪ {[c]}) h))) as [->| ->]; simpl;
      (do 4 (split; [done|])); intros c' Hne;
      rewrite ?Hrm by done; by apply Hadd.
Qed.

Lemma dashboard_turn_text (c : ws) (data : text) (h : Hub) :
  dashboard_turn c (inr data) h = (h, inr true).
Proof. by rewrite dashboard_turn_eq. Qed.

Lemma serve_dashboard_texts (c : ws) (texts : list text) (h : Hub) :
  serve (dashboard_turn c) (map inr texts) h = (h, inr true).
Proof.
  induction texts as [|t texts IH]; [done|].
  simpl. by erewrite bind_ok by apply dashboard_turn_text.
Qed.

(** X7. A dashboard with a working transport that sends any number of
    frames and then disconnects: the frames do nothing, the handler returns
    normally, and the registry is what it was without that dashboard. *)
Theorem dashboard_disconnect_unregisters
    (c : ws) (texts : list text) (rest : list received) (h : Hub) :
  healthy h c = true ->
  exists h',
    ws_dashboard c (map inr texts ++ inl WebSocketDisconnect :: rest) h = (h', inr false) /\
    dashboard_clients h' = dashboard_clients h ∖ {[c]} /\
    wire h' = wire h ++ [Send c (snapshot_of h) true] /\
    junctions h' = junctions h.
Proof.
  intros Hc. unfold healthy in Hc.
  destruct (broken h !! c) as [e|] eqn:Hb; [done|].
  set (h1 := with_wire (fun w => w ++ [Send c (snapshot_of h) true])
               (with_dashboard (fun s => s ∪ {[c]}) h)).
  exists (with_dashboard (fun s => s ∖ {[c]}) h1).
  split.
  - assert (Hin : c ∈ dashboard_clients h1).
    { simpl. apply elem_of_union_r, elem_of_singleton. reflexivity. }
    unfold ws_dashboard.
    erewrite bind_ok
      by (rewrite dashboard_open_eq, Hb; unfold healthy; rewrite Hb; reflexivity).
    cbv beta iota. fold h1.
    rewrite (serve_app _ _ _ _ _ (serve_dashboard_texts c texts h1)). simpl.
    by erewrite bind_ok by (rewrite dashboard_turn_eq; by rewrite decide_True).
  - simpl. split; [apply add_then_remove|done].
Qed.

Lemma dashboard_disconnect_unregisters_witness :
  healthy sample_hub 9 = true /\
  exists h',
    ws_dashboard 9 (map inr [Malformed; Encodes (JDict update_J1)]
                    ++ inl WebSocketDisconnect :: []) sample_hub = (h', inr false) /\
    dashboard_clients h' = dashboard_clients sample_hub ∖ {[9%positive]} /\
    junctions h' = [].
Proof.
  split; [reflexivity|].
  destruct (dashboard_disconnect_unregisters 9 [Malformed; Encodes (JDict update_J1)] []
              sample_hub eq_refl) as (h' & E & Hd & _ & Hj).
  exists h'. split; [exact E|]. split; [exact Hd|exact Hj].
Defined.

(** X8. A dashboard whose snapshot cannot be sent: if [send_text] raises
    [WebSocketDisconnect] the handler unregisters it on the spot; if it
    raises anything else the exception leaves the handler while the dead
    connection is still in [dashboard_clients], and it stays there until the
    next [broadcast] that runs with the registry left alone, whose sweep
    removes it. *)
Theorem dashboard_failed_snapshot (c : ws) (inbox : list received) (h : Hub) (e : exn) :
  broken h !! c = Some e ->
  exists h1,
    wire h1 = wire h ++ [Send c (snapshot_of h) false] /\
    (e = WebSocketDisconnect ->
       ws_dashboard c inbox h = (h1, inr false) /\ (c ∉ dashboard_clients h1)) /\
    (e <> WebSocketDisconnect ->
       ws_dashboard c inbox h = (h1, inl e) /\ c ∈ dashboard_clients h1 /\
       forall message, c ∉ dashboard_clients (broadcast [] message h1).1).
Proof.
  intros Hb.
  assert (Hh : healthy h c = false) by (unfold healthy; by rewrite Hb).
  destruct (decide (e = WebSocketDisconnect)) as [->|Hne].
  - eexists. split; [|split; [intros _|done]].
    2:{ split.
        - unfold ws_dashboard.
          by erewrite bind_ok by (rewrite dashboard_open_eq, Hb, Hh; reflexivity).
        - simpl. rewrite elem_of_difference, elem_of_singleton. tauto. }
    done.
  - exists (with_wire (fun w => w ++ [Send c (snapshot_of h) false])
              (with_dashboard (fun s => s ∪ {[c]}) h)).
    split; [done|]. split; [done|]. intros _.
    split; [|split].
    + unfold ws_dashboard. apply bind_raise.
      rewrite dashboard_open_eq, Hb, Hh. by destruct e.
    + simpl. apply elem_of_union_r, elem_of_singleton. reflexivity.
    + intros message. rewrite broadcast_eq. simpl.
      rewrite elem_of_difference, elem_of_list_to_set, elem_of_failed. simpl.
      intros [Hin Hout]. apply Hout. split; [done|].
      unfold healthy. simpl. by rewrite Hb.
Qed.

Lemma dashboard_failed_snapshot_witness :
  broken sample_hub !! 2%positive = Some RuntimeError /\
  exists h1,
    ws_dashboard 2 [] sample_hub = (h1, inl RuntimeError) /\
    2%positive ∈ dashboard_clients h1 /\
    (2%positive ∉ dashboard_clients (broadcast [] JNull h1).1).
Proof.
  split; [reflexivity|].
  destruct (dashboard_failed_snapshot 2 [] sample_hub RuntimeError eq_refl)
    as (h1 & _ & _ & Hother).
  destruct Hother as (E & Hin & Hout); [done|].
  exists h1. split; [exact E|]. split; [exact Hin|apply Hout].
Defined.

(** ** The override route, whatever the junction *)



(** ** The table over the life of the hub *)

Lemma keys_set_prefix {V} (k : pykey) (v : V) (d : list (pykey * V)) :
  Dict.keys d `prefix_of` Dict.keys (Dict.set k v d).
Proof.
  rewrite DictFacts.keys_set. destruct (Dict.mem k d); [done|].
  by apply prefix_app_r.
Qed.

Lemma fire_keys `{Builtins} (ev : event) (s : System) :
  Dict.keys (junctions (hub s)) `prefix_of` Dict.keys (junctions (hub (fire ev s))) /\
  (NoDup (Dict.keys (junctions (hub s))) ->
   NoDup (Dict.keys (junctions (hub (fire ev s))))).
Proof.
  destruct (fire_junctions ev s)
    as [->|[(d & k & _ & _ & ->)|(jid & payload & d & ->)]].
  - done.
  - split; [apply keys_set_prefix|apply DictFacts.keys_set_NoDup].
  - split; [apply keys_set_prefix|apply DictFacts.keys_set_NoDup].
Qed.

Lemma run_keys `{Builtins} (evs : list event) (s : System) :
  Dict.keys (junctions (hub s)) `prefix_of` Dict.keys (junctions (hub (run evs s))) /\
  (NoDup (Dict.keys (junctions (hub s))) ->
   NoDup (Dict.keys (junctions (hub (run evs s))))).
Proof.
  revert s. induction evs as [|ev evs IH]; intros s; [done|].
  rewrite run_cons. destruct (fire_keys ev s) as [Hp Hn].
  destruct (IH (fire ev s)) as [Hp' Hn'].
  split; [by etrans|]. intros Hs. by apply Hn', Hn.
Qed.

(** X10. Over any history of the hub the table holds each junction key
    once, and it only grows: no event removes a junction, and the junctions
    already known keep their place, new ones being added at the end (so
    successive snapshots list the known junctions in the same order). *)
Theorem table_only_grows `{Builtins}
    (clock : nat -> datetime) (evs more : list event) :
  let s := run evs (boot clock) in
  let s' := run more s in
  NoDup (Dict.keys (junctions (hub s))) /\
  Dict.keys (junctions (hub s)) `prefix_of` Dict.keys (junctions (hub s')) /\
  forall k, is_Some (Dict.get k (junctions (hub s))) ->
            is_Some (Dict.get k (junctions (hub s'))).
Proof.
  intros s s'. subst s'.
  destruct (run_keys more s) as [Hp _].
  split; [apply run_keys; simpl; apply NoDup_nil_2|]. split; [exact Hp|].
  intros k Hk. apply DictFacts.get_in_keys. apply DictFacts.get_in_keys in Hk.
  destruct Hp as [l ->]. by apply elem_of_app; left.
Qed.

(** ** Who gets what *)

(** X11. Nothing is ever sent to a producer: from the moment a WebSocket
    is accepted on the producers' endpoint, no [send_text] is addressed to
    it and it never enters [dashboard_clients], whatever happens next. *)
Theorem producers_hear_nothing `{Builtins}
    (clock : nat -> datetime) (before after : list event) (p : ws) :
  let s0 := run before (boot clock) in
  let s := run (before ++ Connect Producer p :: after) (boot clock) in
  p ∉ accepted s0 ->
  sent_to p (wire (hub s)) = [] /\ (p ∉ dashboard_clients (hub s)).
Proof.
  intros s0 s Hp.
  assert (Hs0 : well_connected s0) by apply run_well_connected, boot_well_connected.
  assert (Hquiet : sent_to p (wire (hub s0)) = []) by by apply unseen_is_silent.
  assert (Hout : p ∉ dashboard_clients (hub s0)).
  { intros Hin. apply Hp. by apply Hs0. }
  set (s1 := fire (Connect Producer p) s0).
  assert (H1 : p ∈ accepted s1 /\ (p ∉ dashboard_clients (hub s1)) /\
               wire (hub s1) = wire (hub s0)).
  { subst s1. simpl. rewrite decide_False by done. simpl.
    split; [apply elem_of_union_r, elem_of_singleton; reflexivity|done]. }
  destruct H1 as (Hacc & Hout1 & Hw).
  subst s. rewrite run_app, run_cons. fold s0. fold s1.
  destruct (run_out p after s1 Hacc Hout1) as [Hfin E].
  split; [|done]. by rewrite E, Hw.
Qed.

Lemma producers_hear_nothing_witness :
  (2%positive ∉ accepted (run (H := sample_builtins) [Connect Dashboard 1]
                            (boot sample_clock))) /\
  sent_to 2 (wire (hub (run (H := sample_builtins)
                          ([Connect Dashboard 1] ++ Connect Producer 2 ::
                           [Receive 2 (frame update_J1); Post "J1" request_J9])
                          (boot sample_clock)))) = [].
Proof.
  assert (Hnew : 2%positive ∉ accepted (run (H := sample_builtins) [Connect Dashboard 1]
                                          (boot sample_clock))).
  { intros Hin. vm_compute in Hin. discriminate. }
  split; [exact Hnew|].
  apply (producers_hear_nothing (H := sample_builtins) sample_clock
           [Connect Dashboard 1] [Receive 2 (frame update_J1); Post "J1" request_J9] 2 Hnew).
Defined.

Lemma relayed_kind (message : json) :
  relayed message ->
  exists kind, kind_of message = Some kind /\
               kind ∈ ["snapshot"; "junction_update"; "override"].
Proof.
  intros [[h ->]|[(d & -> & Hu & _)|(jid & payload & ts & ->)]].
  - exists "snapshot". split; [done|]. by left.
  - exists "junction_update". split; [|right; by left].
    unfold is_update, eq_str in Hu. simpl.
    destruct (Dict.get "type" d) as [[]|]; simpl in Hu; try done.
    by apply bool_decide_eq_true in Hu as ->.
  - exists "override". split; [done|]. right; right; by left.
Qed.

Lemma fire_bodies `{Builtins} (ev : event) (s : System) :
  exists new,
    wire (hub (fire ev s)) = wire (hub s) ++ new /\
    Forall (fun x => relayed (body x)) new.
Proof.
  assert (Hnone : forall w : list send,
            exists new, w = w ++ new /\ Forall (fun x => relayed (body x)) new).
  { intros w. exists []. by rewrite app_nil_r. }
  assert (Hcalls : forall message h0, relayed message ->
            Forall (fun x => relayed (body x)) (calls message h0)).
  { intros message h0 Hm. apply Forall_forall. by intros x [_ ->]%elem_of_calls. }
  destruct ev as [r c|c r|jid payload|c e]; simpl.
  - case_decide; [apply Hnone|]. destruct r; simpl; [apply Hnone|].
    rewrite dashboard_open_eq.
    exists [Send c (snapshot_of (hub s)) (healthy (hub s) c)].
    split; [by destruct (broken (hub s) !! c) as [[]|]|].
    apply Forall_singleton. left. by exists (hub s).
  - destruct (tasks s !! c) as [[]|]; [| |apply Hnone]; simpl.
    + destruct (publish_turn_effect c r (hub s)) as [[f Hf]|(d & k & Hu & Hk & E)];
        destruct (publish_turn c r (hub s)) as [h' res]; simpl in *; subst h'.
      * apply Hnone.
      * exists (calls (JDict d) (with_junctions (Dict.set k d) (hub s))).
        split; [by rewrite broadcast_wire|]. apply Hcalls.
        right; left. exists d. by rewrite Hk.
    + rewrite dashboard_turn_eq.
      destruct r as [[]|]; try apply Hnone. case_decide; apply Hnone.
  - destruct (override_junction_effect jid payload (hub s)) as [E|(d & Hd & E)];
      destruct (override_junction jid payload (hub s)) as [h' res]; simpl in *; subst h'.
    + apply Hnone.
    + exists (calls (JDict (applied_event jid payload (hub s)))
                (applied_hub jid payload d (hub s))).
      split; [by rewrite broadcast_wire|]. apply Hcalls.
      right; right. by eexists _, _, _.
  - apply Hnone.
Qed.

Lemma run_relayed `{Builtins} (clock : nat -> datetime) (evs : list event) (x : send) :
  x ∈ wire (hub (run evs (boot clock))) -> relayed (body x).
Proof.
  assert (Hrun : forall evs s,
            Forall (fun x => relayed (body x)) (wire (hub s)) ->
            Forall (fun x => relayed (body x)) (wire (hub (run evs s)))).
  { clear evs. intros evs. induction evs as [|ev evs IH]; intros s Hs; [done|].
    rewrite run_cons. apply IH.
    destruct (fire_bodies ev s) as (new & -> & Hnew). by apply Forall_app. }
  intros Hx.
  assert (Hall : Forall (fun x => relayed (body x)) (wire (hub (run evs (boot clock)))))
    by (apply Hrun; simpl; apply Forall_nil_2).
  rewrite Forall_forall in Hall. by apply Hall.
Qed.

(** X12. Every message the hub has ever put on a dashboard's connection
    is a JSON object whose [type] is "snapshot", "junction_update" or
    "override": a snapshot of the table, a producer's update (one that has a
    usable [junction_id]), or an override event. *)
Theorem wire_carries_three_kinds `{Builtins}
    (clock : nat -> datetime) (evs : list event) (x : send) :
  x ∈ wire (hub (run evs (boot clock))) ->
  relayed (body x) /\
  exists kind, kind_of (body x) = Some kind /\
               kind ∈ ["snapshot"; "junction_update"; "override"].
Proof.
  intros Hx. pose proof (run_relayed clock evs x Hx) as Hr.
  split; [exact Hr|by apply relayed_kind].
Qed.

Lemma wire_carries_three_kinds_witness :
  let x := Send 1 (JDict (override_event "J1" request_J9
                            "2025-01-02T03:04:05.000001+00:00")) true in
  x ∈ wire (hub (run (H := sample_builtins)
                   (before_join ++ Connect Dashboard 1 :: after_join)
                   (boot sample_clock))) /\
  relayed (body x) /\
  exists kind, kind_of (body x) = Some kind /\
               kind ∈ ["snapshot"; "junction_update"; "override"].
Proof.
  intros x.
  assert (Hx : x ∈ wire (hub (run (H := sample_builtins)
                                (before_join ++ Connect Dashboard 1 :: after_join)
                                (boot sample_clock)))).
  { vm_compute. do 2 apply list_elem_of_further. apply list_elem_of_here. }
  split; [exact Hx|].
  exact (wire_carries_three_kinds (H := sample_builtins) sample_clock _ x Hx).
Defined.

(** ** From producer to snapshot *)

Lemma publish_turn_update_quiet (p : ws) (d : obj) (k : pykey) (h : Hub) :
  is_update d = true -> update_key d = Some k -> dashboard_clients h = ∅ ->
  publish_turn p (frame d) h = (with_junctions (Dict.set k d) h, inr true).
Proof.
  intros Hu Hk Hd. rewrite (publish_turn_update _ _ _ _ Hu Hk), broadcast_eq.
  rewrite failed_nobody, calls_nobody by done. simpl. f_equal.
  destruct h; unfold with_dashboard, with_wire, with_junctions; simpl in *.
  by rewrite app_nil_r, difference_empty_L.
Qed.

Lemma run_feed_quiet `{Builtins} (p : ws) (msgs : list obj) (s : System) :
  tasks s !! p = Some Producer ->
  dashboard_clients (hub s) = ∅ ->
  Forall (fun d => is_update d = true /\ is_Some (update_key d)) msgs ->
  let s' := run (feed p msgs) s in
  accepted s' = accepted s /\
  dashboard_clients (hub s') = ∅ /\
  wire (hub s') = wire (hub s) /\
  broken (hub s') = broken (hub s) /\
  (NoDup (Dict.keys (junctions (hub s))) -> NoDup (Dict.keys (junctions (hub s')))) /\
  forall k, Dict.get k (junctions (hub s')) =
            match latest k msgs with
            | Some d => Some d
            | None => Dict.get k (junctions (hub s))
            end.
Proof.
  revert s. induction msgs as [|d msgs IH]; intros s Ht Hd Hall.
  { simpl. do 5 (split; [done|]). done. }
  apply Forall_cons in Hall as [[Hu [k0 Hk0]] Hall].
  intros s'. subst s'. unfold feed. simpl map. rewrite run_cons. fold (feed p msgs).
  set (s1 := fire (Receive p (frame d)) s).
  assert (E1 : s1 = mkSystem (with_junctions (Dict.set k0 d) (hub s)) (tasks s) (accepted s)).
  { subst s1. simpl. rewrite Ht. simpl.
    by rewrite (publish_turn_update_quiet _ _ _ _ Hu Hk0 Hd). }
  assert (F1 : accepted s1 = accepted s /\ wire (hub s1) = wire (hub s) /\
               broken (hub s1) = broken (hub s) /\
               junctions (hub s1) = Dict.set k0 d (junctions (hub s)) /\
               dashboard_clients (hub s1) = ∅ /\ tasks s1 !! p = Some Producer)
    by (by rewrite E1).
  clearbody s1. destruct F1 as (Fa & Fw & Fb & Fj & Fd & Ft).
  destruct (IH s1 Ft Fd Hall) as (Ha & Hd' & Hw & Hb & Hn & Hget).
  split; [by rewrite Ha|]. split; [done|]. split; [by rewrite Hw|].
  split; [by rewrite Hb|].
  split. { intros Hs. apply Hn. rewrite Fj. by apply DictFacts.keys_set_NoDup. }
  intros k. rewrite Hget, latest_cons, Fj.
  destruct (latest k msgs); [done|].
  destruct (decide (update_key d = Some k)) as [Hk|Hk].
  - assert (k0 = k) as -> by congruence. apply DictFacts.get_set_eq.
  - apply DictFacts.get_set_ne. congruence.
Qed.

(** X13. A producer connects to a hub just started and reports any
    sequence of well-formed updates; then the first dashboard connects.
    The one message on the wire is that dashboard's snapshot, delivered,
    and its [junctions] list holds one record per junction reported: for
    each key the last update sent for it, and nothing else. *)
Theorem snapshot_holds_latest `{Builtins}
    (clock : nat -> datetime) (p c : ws) (msgs : list obj) :
  p <> c ->
  Forall (fun d => is_update d = true /\ is_Some (update_key d)) msgs ->
  let s := run (Connect Producer p :: feed p msgs ++ [Connect Dashboard c]) (boot clock) in
  exists table,
    wire (hub s) =
      [Send c (JDict [("type", JStr "snapshot");
                      ("junctions", JList (map JDict (Dict.values table)))]) true] /\
    NoDup (Dict.keys table) /\
    (forall k, Dict.get k table = latest k msgs) /\
    dashboard_clients (hub s) = {[c]}.
Proof.
  intros Hpc Hall s. subst s. rewrite run_cons.
  set (s0 := fire (Connect Producer p) (boot clock)).
  assert (E0 : s0 = mkSystem (with_publish (fun r => r ∪ {[p]}) (hub (boot clock)))
                      (<[p := Producer]> ∅) (∅ ∪ {[p]})).
  { subst s0. simpl. by rewrite decide_False by apply not_elem_of_empty. }
  rewrite run_app.
  destruct (run_feed_quiet p msgs s0) as (Ha & Hd & Hw & Hb & Hn & Hget);
    [rewrite E0; simpl; apply lookup_insert_eq|by rewrite E0|done|].
  set (s1 := run (feed p msgs) s0) in *.
  rewrite E0 in Ha, Hw, Hb, Hn, Hget. simpl in *.
  exists (junctions (hub s1)).
  assert (Hc : c ∉ accepted s1).
  { rewrite Ha, elem_of_union, elem_of_singleton.
    intros [Hin| ->]; [by apply not_elem_of_empty in Hin|done]. }
  assert (Hbc : broken (hub s1) !! c = None) by (by rewrite Hb).
  rewrite decide_False by done. rewrite dashboard_open_eq, Hbc. simpl.
  unfold healthy. rewrite Hbc, Hw. simpl.
  split; [done|]. split; [apply Hn, NoDup_nil_2|].
  split. { intros k. rewrite Hget. by destruct (latest k msgs). }
  by rewrite Hd, union_empty_l_L.
Qed.

Lemma snapshot_holds_latest_witness :
  (2%positive <> 1%positive) /\
  Forall (fun d => is_update d = true /\ is_Some (update_key d))
         [update_J1; update_J2; update_J1_later] /\
  exists table,
    wire (hub (run (H := sample_builtins)
                 (Connect Producer 2 :: feed 2 [update_J1; update_J2; update_J1_later]
                  ++ [Connect Dashboard 1]) (boot sample_clock)))
    = [Send 1 (JDict [("type", JStr "snapshot");
                      ("junctions", JList (map JDict (Dict.values table)))]) true] /\
    Dict.get (KStr "J1") table = Some update_J1_later /\
    Dict.get (KStr "J2") table = Some update_J2 /\
    Dict.get (KStr "J3") table = None.
Proof.
  assert (Hall : Forall (fun d => is_update d = true /\ is_Some (update_key d))
                   [update_J1; update_J2; update_J1_later]).
  { repeat (constructor; [split; [reflexivity|by eexists]|]). constructor. }
  split; [done|]. split; [exact Hall|].
  destruct (snapshot_holds_latest (H := sample_builtins) sample_clock 2 1
              [update_J1; update_J2; update_J1_later] ltac:(done) Hall)
    as (table & E & _ & Hget & _).
  exists table. split; [exact E|].
  split; [apply (Hget (KStr "J1"))|]. split; [apply (Hget (KStr "J2"))|apply (Hget (KStr "J3"))].
Defined.

(** * The simulator *)

(** ** Plates *)

Lemma string_length_app (a b : string) :
  String.length (a +:+ b) = (String.length a + String.length b)%nat.
Proof. induction a as [|c a IH]; simpl; [done|]. by rewrite IH. Qed.

Lemma pad_two_digits (n : nat) :
  (n <= 99)%nat ->
  pad 2 n = String (digit (N.of_nat (n / 10))) (String (digit (N.of_nat (n mod 10))) "").
Proof.
  intros Hn.
  assert (Hall : forallb (fun n => String.eqb (pad 2 n)
                    (String (digit (N.of_nat (n / 10)))
                       (String (digit (N.of_nat (n mod 10))) ""))) (seq 0 100) = true)
    by (vm_compute; reflexivity).
  rewrite forallb_forall in Hall.
  apply String.eqb_eq, Hall, in_seq. lia.
Qed.

Lemma pretty_N_char_digit (x : N) : (x < 10)%N -> pretty_N_char x = digit x.
Proof.
  intros Hx.
  assert (Hc : (x = 0 \/ x = 1 \/ x = 2 \/ x = 3 \/ x = 4 \/ x = 5 \/ x = 6 \/
                x = 7 \/ x = 8 \/ x = 9)%N) by lia.
  repeat (destruct Hc as [->|Hc]; [reflexivity|]). by subst.
Qed.

Lemma pretty_four_digits (m : N) :
  (1000 <= m <= 9999)%N ->
  pretty m = String (digit (m / 1000 mod 10)) (String (digit (m / 100 mod 10))
               (String (digit (m / 10 mod 10)) (String (digit (m mod 10)) ""))).
Proof.
  intros Hm. unfold pretty, pretty_N. rewrite decide_False by lia.
  assert (H1 : (100 <= m / 10 <= 999)%N).
  { split; [apply N.div_le_lower_bound|apply N.lt_succ_r, N.Div0.div_lt_upper_bound]; lia. }
  assert (H2 : (10 <= m / 10 / 10 <= 99)%N).
  { split; [apply N.div_le_lower_bound|apply N.lt_succ_r, N.Div0.div_lt_upper_bound]; lia. }
  assert (H3 : (1 <= m / 10 / 10 / 10 <= 9)%N).
  { split; [apply N.div_le_lower_bound|apply N.lt_succ_r, N.Div0.div_lt_upper_bound]; lia. }
  rewrite 4!pretty_N_go_step by lia.
  rewrite (N.div_small (m / 10 / 10 / 10) 10), pretty_N_go_0 by lia.
  rewrite !pretty_N_char_digit by (apply N.mod_lt; lia).
  assert (E2 : (m / 10 / 10 = m / 100)%N) by (rewrite N.Div0.div_div; reflexivity).
  assert (E3 : (m / 10 / 10 / 10 = m / 1000)%N) by (rewrite !N.Div0.div_div; reflexivity).
  by rewrite E3, E2.
Qed.

(** X14. Whatever [random_plate] draws within its ranges, the plate is
    "KA", then the two decimal digits of the first number (tens, with a
    zero below ten, and units), then the letter pair drawn, then the four
    decimal digits of the second number, thousands first: ten characters
    in all, the first number's digits at positions 2 and 3 and the second
    number's at positions 6 to 9. *)
Theorem random_plate_format (n : nat) (letters : string) (m : N) :
  (1 <= n <= 99)%nat -> letters ∈ plate_letters -> (1000 <= m <= 9999)%N ->
  random_plate n letters m =
    "KA" +:+ String (digit (N.of_nat (n / 10))) (String (digit (N.of_nat (n mod 10))) "")
         +:+ letters
         +:+ String (digit (m / 1000 mod 10)) (String (digit (m / 100 mod 10))
               (String (digit (m / 10 mod 10)) (String (digit (m mod 10)) ""))) /\
  (N.of_nat (n / 10) < 10)%N /\ (N.of_nat (n mod 10) < 10)%N /\
  N.of_nat n = (10 * N.of_nat (n / 10) + N.of_nat (n mod 10))%N /\
  m = (1000 * (m / 1000 mod 10) + 100 * (m / 100 mod 10) + 10 * (m / 10 mod 10)
       + m mod 10)%N /\
  String.length letters = 2%nat /\
  String.length (random_plate n letters m) = 10%nat.
Proof.
  intros Hn Hl Hm.
  assert (Hletters : String.length letters = 2%nat).
  { unfold plate_letters in Hl. repeat (apply elem_of_cons in Hl as [->|Hl]; [done|]).
    by apply elem_of_nil in Hl. }
  assert (E : random_plate n letters m =
    "KA" +:+ String (digit (N.of_nat (n / 10))) (String (digit (N.of_nat (n mod 10))) "")
         +:+ letters
         +:+ String (digit (m / 1000 mod 10)) (String (digit (m / 100 mod 10))
               (String (digit (m / 10 mod 10)) (String (digit (m mod 10)) "")))).
  { unfold random_plate. by rewrite pad_two_digits, pretty_four_digits by lia. }
  split; [exact E|].
  assert (Hq : (n / 10 < 10)%nat) by (apply Nat.Div0.div_lt_upper_bound; lia).
  assert (Hr : (n mod 10 < 10)%nat) by (apply Nat.mod_upper_bound; lia).
  split; [lia|]. split; [lia|].
  split. { pose proof (Nat.div_mod_eq n 10). lia. }
  split.
  { pose proof (N.div_mod m 10 ltac:(lia)) as D1.
    pose proof (N.div_mod (m / 10) 10 ltac:(lia)) as D2.
    pose proof (N.div_mod (m / 10 / 10) 10 ltac:(lia)) as D3.
    assert (E2 : (m / 10 / 10 = m / 100)%N) by (rewrite N.Div0.div_div; reflexivity).
    assert (E3 : (m / 10 / 10 / 10 = m / 1000)%N) by (rewrite !N.Div0.div_div; reflexivity).
    assert (H3 : (m / 1000 < 10)%N) by (apply N.Div0.div_lt_upper_bound; lia).
    rewrite (N.mod_small (m / 1000) 10) by done.
    rewrite E3 in D3. rewrite E2 in D2, D3. lia. }
  split; [exact Hletters|].
  rewrite E, !string_length_app, Hletters. reflexivity.
Qed.

Lemma random_plate_format_witness :
  (1 <= 7 <= 99)%nat /\ "CD" ∈ plate_letters /\ (1000 <= 4821 <= 9999)%N /\
  random_plate 7 "CD" 4821 =
    "KA" +:+ String (digit (N.of_nat (7 / 10))) (String (digit (N.of_nat (7 mod 10))) "")
         +:+ "CD"
         +:+ String (digit (4821 / 1000 mod 10)) (String (digit (4821 / 100 mod 10))
               (String (digit (4821 / 10 mod 10)) (String (digit (4821 mod 10)) ""))).
Proof.
  assert (Hl : "CD" ∈ plate_letters) by (right; left).
  split; [lia|]. split; [exact Hl|]. split; [lia|].
  apply (random_plate_format 7 "CD" 4821 ltac:(lia) Hl ltac:(lia)).
Defined.

Example random_plate_sample : random_plate 7 "CD" 4821 = "KA07CD4821".
Proof. reflexivity. Qed.

(** ** The suggestion *)

(** X15. The lane [publisher] suggests is a densest one, the first of
    them in the order north, east, south, west; the duration it suggests is
    twice that lane's count brought into 10..60, and with counts drawn from
    0..25 it is at most 50. *)
Theorem suggestion_is_densest (dr : draws) :
  let l := fst (densest dr) in
  let dens := snd (densest dr) in
  dens = vehicles dr l /\
  (forall l', vehicles dr l' <= dens) /\
  (forall l', (lane_index l' < lane_index l)%nat -> vehicles dr l' < dens) /\
  suggestion dr =
    JDict [("next_green", JStr (lane_str l));
           ("duration", JInt (Z.max 10 (Z.min 60 (dens * 2))));
           ("confidence", JFloat (confidence dr))] /\
  10 <= suggested_duration dr <= 60 /\
  ((forall l', 0 <= vehicles dr l' <= 25) -> suggested_duration dr <= 50).
Proof.
  intros l dens. subst l dens. unfold suggestion, suggested_duration, densest, sorted_desc.
  simpl.
  repeat match goal with
         | |- context [?a <=? ?b] => destruct (Z.leb_spec a b); simpl
         end;
    (split; [done|]);
    (split; [intros []; lia|]);
    (split; [intros []; simpl; lia|]);
    (split; [done|]);
    (split; [lia|]);
    intros Hv;
    pose proof (Hv North); pose proof (Hv East);
    pose proof (Hv South); pose proof (Hv West); lia.
Qed.

Lemma suggestion_is_densest_witness :
  fst (densest sample_draws) = East /\
  snd (densest sample_draws) = 19 /\
  suggested_duration sample_draws = 38 /\
  ((forall l', 0 <= vehicles sample_draws l' <= 25) -> suggested_duration sample_draws <= 50).
Proof.
  split; [reflexivity|]. split; [reflexivity|]. split; [reflexivity|].
  exact (proj2 (proj2 (proj2 (proj2 (proj2 (suggestion_is_densest sample_draws)))))).
Defined.

(** ** What the simulator sends, and what the hub makes of it *)

Lemma publisher_turn_update `{Floats} (j : junction) (now : instant) (dr : draws)
    (t_violation t_message : datetime)
    (active_overrides : list (pykey * active)) (rl_suggestion : option json) :
  let msg := (publisher_turn j now dr t_violation t_message active_overrides rl_suggestion).1 in
  is_update msg = true /\ update_key msg = Some (KStr (j_id j)).
Proof.
  unfold publisher_turn. by destruct (in_force (j_id j) now active_overrides).
Qed.


(** ** The stale suggestion *)

(** X17. A pass of [publisher] made while an override is in force does
    not compute a suggestion; it reports the one the last pass without an
    override left behind, even when that pass was for another junction and
    other lane counts, and [null] when there has been none.  Its green is
    the override's lane. *)
Theorem suggestion_is_carried_over `{Floats}
    (jA jB : junction) (nowA nowB : instant) (drA drB : draws)
    (tA tA' tB tB' : datetime)
    (activeA activeB : list (pykey * active)) (before : option json) (o : active) :
  in_force (j_id jA) nowA activeA = None ->
  in_force (j_id jB) nowB activeB = Some o ->
  let first := publisher_turn jA nowA drA tA tA' activeA before in
  let second := publisher_turn jB nowB drB tB tB' activeB first.2 in
  let unbound := publisher_turn jB nowB drB tB tB' activeB None in
  Dict.get "rl_suggestion" first.1 = Some (suggestion drA) /\
  Dict.get "rl_suggestion" second.1 = Some (suggestion drA) /\
  second.2 = Some (suggestion drA) /\
  Dict.get "current_green" second.1 = Some (lane o) /\
  Dict.get "lanes" second.1 = Some (JDict (lanes_of drB)) /\
  Dict.get "rl_suggestion" unbound.1 = Some JNull /\
  unbound.2 = None.
Proof.
  intros HA HB first second unbound. subst first second unbound.
  unfold publisher_turn. rewrite HA, HB. simpl. by repeat split.
Qed.

Lemma suggestion_is_carried_over_witness :
  let active := [(KStr "J2", Active (JStr "east") (sample_now + 15000000))] in
  let first := publisher_turn (H := sample_floats) sample_J1 sample_now sample_draws
                 (sample_clock 1) (sample_clock 2) active None in
  let second := publisher_turn (H := sample_floats) sample_J2 sample_now sample_draws
                  (sample_clock 3) (sample_clock 4) active first.2 in
  in_force "J1" sample_now active = None /\
  in_force "J2" sample_now active = Some (Active (JStr "east") (sample_now + 15000000)) /\
  Dict.get "rl_suggestion" second.1 = Some (suggestion sample_draws) /\
  Dict.get "current_green" second.1 = Some (JStr "east").
Proof.
  intros active first second. split; [reflexivity|]. split; [reflexivity|].
  destruct (suggestion_is_carried_over (H := sample_floats) sample_J1 sample_J2
              sample_now sample_now sample_draws sample_draws
              (sample_clock 1) (sample_clock 2) (sample_clock 3) (sample_clock 4)
              active active None (Active (JStr "east") (sample_now + 15000000))
              eq_refl eq_refl) as (_ & H2 & _ & H4 & _).
  split; [exact H2|exact H4].
Defined.

(** ** The listener *)

Lemma listener_skips (now : instant) (d : obj) `{Builtins}
    (active_overrides : list (pykey * active)) :
  eq_str (default JNull (Dict.get "type" d)) "override" = false ->
  override_listener_turn now (Encodes (JDict d)) active_overrides = inr active_overrides.
Proof. intros E. unfold override_listener_turn. simpl. by rewrite E. Qed.

(** X18. Whatever the hub has sent that is not an override event, that is
    every snapshot and every relayed update, the listener lets pass: it
    does not raise and [active_overrides] is as it was. *)
Theorem listener_ignores_the_rest `{Builtins}
    (clock : nat -> datetime) (evs : list event) (x : send)
    (now : instant) (active_overrides : list (pykey * active)) :
  x ∈ wire (hub (run evs (boot clock))) ->
  kind_of (body x) <> Some "override" ->
  override_listener_turn now (Encodes (body x)) active_overrides = inr active_overrides.
Proof.
  intros Hx Hk.
  pose proof (run_relayed clock evs x Hx) as Hr.
  destruct Hr as [[h E]|[(d & E & Hu & _)|(jid & payload & ts & E)]]; rewrite E in *.
  - by apply listener_skips.
  - apply listener_skips. unfold is_update, eq_str in *.
    destruct (default JNull (Dict.get "type" d)); try done.
    by apply bool_decide_eq_true in Hu as ->.
  - by destruct Hk.
Qed.

Lemma listener_ignores_the_rest_witness :
  let x := Send 1 (JDict update_J2) true in
  x ∈ wire (hub (run (H := sample_builtins)
                   (before_join ++ Connect Dashboard 1 :: after_join)
                   (boot sample_clock))) /\
  kind_of (body x) <> Some "override" /\
  override_listener_turn (H := sample_builtins) sample_now (Encodes (body x)) [] = inr [].
Proof.
  intros x.
  assert (Hx : x ∈ wire (hub (run (H := sample_builtins)
                                (before_join ++ Connect Dashboard 1 :: after_join)
                                (boot sample_clock)))).
  { vm_compute. apply list_elem_of_further, list_elem_of_here. }
  assert (Hk : kind_of (body x) <> Some "override") by done.
  split; [exact Hx|]. split; [exact Hk|].
  exact (listener_ignores_the_rest (H := sample_builtins) sample_clock _ x sample_now [] Hx Hk).
Defined.

Lemma listener_on_event `{Builtins} (now : instant) (jid : string) (payload : obj)
    (ts : string) (active_overrides : list (pykey * active)) :
  override_listener_turn now (Encodes (JDict (override_event jid payload ts)))
    active_overrides =
  let? lane := subscript payload "lane" in
  let? seconds := subscript payload "duration" in
  let? duration := py_int seconds in
  let? end_time := add_seconds now duration in
  inr (Dict.set (KStr jid) (Active lane end_time) active_overrides).
Proof.
  unfold override_listener_turn, override_event, and_then. simpl.
  destruct (subscript payload "lane"); [done|].
  destruct (subscript payload "duration"); [done|].
  destruct (py_int _); [done|]. by destruct (add_seconds _ _).
Qed.



(** ** From the operator to the simulator *)

Lemma in_force_set (jid : string) (now t1 : instant) (lane_v : json)
    (active_overrides : list (pykey * active)) :
  in_force jid now (Dict.set (KStr jid) (Active lane_v t1) active_overrides) =
  if now <? t1 then Some (Active lane_v t1) else None.
Proof. unfold in_force. by rewrite DictFacts.get_set_eq. Qed.

Lemma in_force_other (jid other : string) (now : instant) (o : active)
    (active_overrides : list (pykey * active)) :
  jid <> other ->
  in_force jid now (Dict.set (KStr other) o active_overrides) =
  in_force jid now active_overrides.
Proof.
  intros Hne. unfold in_force. rewrite DictFacts.get_set_ne; [done|congruence].
Qed.

(** X20. An override that carries a lane and a duration goes from the hub
    to the simulator: the listener files the event the hub broadcasts under
    the junction's id, with the lane and with the end time [d] seconds after
    its arrival, [d] being the same integer the hub stored as
    [phase_remaining].  Until that end time every message [publisher]
    builds for the junction reports the lane as [current_green] and the
    whole seconds left as [phase_remaining]; from the end time on (at once,
    when [d] is zero or negative) it reports its own draws again.  Messages
    for other junctions are what they would have been. *)
Theorem override_reaches_the_simulator `{Builtins} `{Floats}
    (jid : string) (payload : obj) (lane_v seconds : json) (d : Z) (h : Hub)
    (t0 t1 : instant) (active_overrides : list (pykey * active))
    (j : junction) (now : instant) (dr : draws) (tv tm : datetime)
    (rl_suggestion : option json) :
  Dict.get "lane" payload = Some lane_v ->
  Dict.get "duration" payload = Some seconds ->
  py_int seconds = inr d ->
  add_seconds t0 d = inr t1 ->
  exists heard_overrides,
    Dict.get "phase_remaining" (applied_record jid payload d h) = Some (JInt d) /\
    override_listener_turn t0 (Encodes (JDict (applied_event jid payload h)))
      active_overrides = inr heard_overrides /\
    Dict.get (KStr jid) heard_overrides = Some (Active lane_v t1) /\
    t1 = t0 + d * 1000000 /\
    (j_id j = jid -> now < t1 ->
       let msg := (publisher_turn j now dr tv tm heard_overrides rl_suggestion).1 in
       Dict.get "current_green" msg = Some lane_v /\
       Dict.get "phase_remaining" msg = Some (JInt (whole_seconds (t1 - now)))) /\
    (j_id j = jid -> t1 <= now ->
       let msg := (publisher_turn j now dr tv tm heard_overrides rl_suggestion).1 in
       Dict.get "current_green" msg = Some (JStr (lane_str (green dr))) /\
       Dict.get "phase_remaining" msg = Some (JInt (phase dr))) /\
    (j_id j <> jid ->
       publisher_turn j now dr tv tm heard_overrides rl_suggestion =
       publisher_turn j now dr tv tm active_overrides rl_suggestion).
Proof.
  intros Hl Hs Hd Ht.
  exists (Dict.set (KStr jid) (Active lane_v t1) active_overrides).
  split; [apply overridden_phase_remaining|].
  split.
  { unfold applied_event. rewrite listener_on_event. unfold subscript, and_then.
    by rewrite Hl, Hs, Hd, Ht. }
  split; [apply DictFacts.get_set_eq|].
  split.
  { unfold add_seconds in Ht. by case_match; simplify_eq. }
  split; [|split].
  - intros <- Hlt. unfold publisher_turn. rewrite in_force_set.
    apply Z.ltb_lt in Hlt. by rewrite Hlt.
  - intros <- Hle. unfold publisher_turn. rewrite in_force_set.
    apply Z.ltb_ge in Hle. by rewrite Hle.
  - intros Hne. unfold publisher_turn. by rewrite in_force_other.
Qed.

Lemma override_reaches_the_simulator_witness :
  let payload := [("lane", JStr "east"); ("duration", JInt 15)] in
  let t1 := sample_now + 15000000 in
  Dict.get "lane" payload = Some (JStr "east") /\
  Dict.get "duration" payload = Some (JInt 15) /\
  py_int (H := sample_builtins) (JInt 15) = inr 15 /\
  add_seconds sample_now 15 = inr t1 /\
  exists heard_overrides,
    override_listener_turn (H := sample_builtins) sample_now
      (Encodes (JDict (applied_event "J1" payload sample_hub))) [] = inr heard_overrides /\
    Dict.get (KStr "J1") heard_overrides = Some (Active (JStr "east") t1) /\
    Dict.get "current_green"
      (publisher_turn (H := sample_floats) sample_J1 (sample_now + 4500000) sample_draws
         (sample_clock 1) (sample_clock 2) heard_overrides None).1 = Some (JStr "east").
Proof.
  intros payload t1.
  split; [reflexivity|]. split; [reflexivity|]. split; [reflexivity|].
  split; [reflexivity|].
  destruct (override_reaches_the_simulator (H := sample_builtins) (H0 := sample_floats)
              "J1" payload (JStr "east") (JInt 15) 15 sample_hub sample_now t1 []
              sample_J1 (sample_now + 4500000) sample_draws
              (sample_clock 1) (sample_clock 2) None
              eq_refl eq_refl eq_refl eq_refl)
    as (heard_overrides & _ & E & Hg & _ & Hin & _).
  exists heard_overrides. split; [exact E|]. split; [exact Hg|].
  exact (proj1 (Hin eq_refl eq_refl)).
Defined.

(** X21. The descriptor an override leaves in the hub's record lasts
    until the simulator's next message for that junction: [ws_publish]
    stores the message in place of the record, and no message [publisher]
    builds has an [override] field; the table keeps its keys. *)
Theorem simulator_update_erases_override `{Builtins} `{Floats}
    (jid : string) (payload : obj) (d : Z) (h : Hub)
    (j : junction) (now : instant) (dr : draws) (tv tm : datetime)
    (active_overrides : list (pykey * active)) (rl_suggestion : option json) (p : ws) :
  py_int (duration_of payload) = inr d ->
  j_id j = jid ->
  let h1 := (override_junction jid payload h).1 in
  let msg := (publisher_turn j now dr tv tm active_overrides rl_suggestion).1 in
  let h2 := (publish_turn p (frame msg) h1).1 in
  (exists record,
     Dict.get (KStr jid) (junctions h1) = Some record /\
     Dict.get "override" record =
       Some (descriptor (operator_of payload) (reason_of payload)
               (isoformat (clock h (ticks h))))) /\
  Dict.get (KStr jid) (junctions h2) = Some msg /\
  Dict.get "override" msg = None /\
  Dict.keys (junctions h2) = Dict.keys (junctions h1).
Proof.
  intros Hd <- h1 msg h2.
  assert (Hstored : Dict.get (KStr (j_id j)) (junctions h1)
                    = Some (applied_record (j_id j) payload d h))
    by by apply override_junction_stored.
  split.
  { eexists. split; [exact Hstored|]. apply overridden_override. }
  destruct (publisher_turn_update j now dr tv tm active_overrides rl_suggestion)
    as [Hu Hk]. fold msg in Hu, Hk.
  subst h2. rewrite (publish_turn_update p msg (KStr (j_id j)) h1 Hu Hk).
  cbn [fst]. rewrite broadcast_junctions. cbn [junctions with_junctions].
  split; [apply DictFacts.get_set_eq|].
  split.
  { subst msg. unfold publisher_turn.
    by destruct (in_force (j_id j) now active_overrides). }
  rewrite DictFacts.keys_set. unfold Dict.mem. by rewrite Hstored.
Qed.

Lemma simulator_update_erases_override_witness :
  let h1 := (override_junction (H := sample_builtins) "J1" request_J9 sample_hub).1 in
  let msg := (publisher_turn (H := sample_floats) sample_J1 sample_now sample_draws
                (sample_clock 1) (sample_clock 2) [] None).1 in
  let h2 := (publish_turn 7 (frame msg) h1).1 in
  py_int (H := sample_builtins) (duration_of request_J9) = inr 15 /\
  j_id sample_J1 = "J1" /\
  Dict.get (KStr "J1") (junctions h2) = Some msg /\
  Dict.get "override" msg = None.
Proof.
  intros h1 msg h2. split; [reflexivity|]. split; [reflexivity|].
  destruct (simulator_update_erases_override (H := sample_builtins) (H0 := sample_floats)
              "J1" request_J9 15 sample_hub sample_J1 sample_now sample_draws
              (sample_clock 1) (sample_clock 2) [] None 7 eq_refl eq_refl)
    as (_ & H2 & H3 & _).
  split; [exact H2|exact H3].
Defined.

(** ** The simulator's rounds *)

Lemma publisher_pass_shape `{Floats} (now : instant) (rs : nat -> reading)
    (rl : option json) :
  exists m1 m2 m3 rl',
    publisher_pass now rs rl = ([m1; m2; m3], rl') /\
    (is_update m1 = true /\ update_key m1 = Some (KStr "J1")) /\
    (is_update m2 = true /\ update_key m2 = Some (KStr "J2")) /\
    (is_update m3 = true /\ update_key m3 = Some (KStr "J3")).
Proof.
  unfold publisher_pass, sim_junctions. cbn [publisher_for].
  match goal with
  | |- context [publisher_turn ?j now ?d ?a ?b ?o rl] =>
      pose proof (publisher_turn_update j now d a b o rl) as H1;
      destruct (publisher_turn j now d a b o rl) as [m1 rl1]
  end.
  match goal with
  | |- context [publisher_turn ?j now ?d ?a ?b ?o rl1] =>
      pose proof (publisher_turn_update j now d a b o rl1) as H2;
      destruct (publisher_turn j now d a b o rl1) as [m2 rl2]
  end.
  match goal with
  | |- context [publisher_turn ?j now ?d ?a ?b ?o rl2] =>
      pose proof (publisher_turn_update j now d a b o rl2) as H3;
      destruct (publisher_turn j now d a b o rl2) as [m3 rl3]
  end.
  by exists m1, m2, m3, rl3.
Qed.

Lemma filed_app (a b : list obj) (table : list (pykey * obj)) :
  filed (a ++ b) table = filed b (filed a table).
Proof. apply fold_left_app. Qed.

Lemma filed_pass (m1 m2 m3 : obj) (table : list (pykey * obj)) :
  update_key m1 = Some (KStr "J1") -> update_key m2 = Some (KStr "J2") ->
  update_key m3 = Some (KStr "J3") ->
  Dict.keys table = [] \/ Dict.keys table = [KStr "J1"; KStr "J2"; KStr "J3"] ->
  filed [m1; m2; m3] table = [(KStr "J1", m1); (KStr "J2", m2); (KStr "J3", m3)].
Proof.
  intros H1 H2 H3 Hk. unfold filed, store. simpl. rewrite H1, H2, H3.
  destruct Hk as [Hk|Hk].
  - destruct table; [|done]. reflexivity.
  - destruct table as [|[k1 a] [|[k2 b] [|[k3 c] [|]]]]; try done.
    simpl in Hk. simplify_eq. reflexivity.
Qed.

Lemma publisher_loop_app `{Floats} (a b : list (instant * (nat -> reading)))
    (rl : option json) :
  publisher_loop (a ++ b) rl =
  ((publisher_loop a rl).1 ++ (publisher_loop b (publisher_loop a rl).2).1,
   (publisher_loop b (publisher_loop a rl).2).2).
Proof.
  revert rl. induction a as [|[now rs] a IH]; intros rl; simpl.
  { by destruct (publisher_loop b rl). }
  destruct (publisher_pass now rs rl) as [msgs rl1]. rewrite IH.
  destruct (publisher_loop a rl1) as [more rl2]. simpl.
  by rewrite app_assoc.
Qed.

Lemma publisher_loop_shape `{Floats} (rounds : list (instant * (nat -> reading)))
    (rl : option json) (table : list (pykey * obj)) :
  Dict.keys table = [] \/ Dict.keys table = [KStr "J1"; KStr "J2"; KStr "J3"] ->
  let msgs := (publisher_loop rounds rl).1 in
  length msgs = (3 * length rounds)%nat /\
  Forall (fun d => is_update d = true /\ is_Some (update_key d)) msgs /\
  (Dict.keys (filed msgs table) = [] \/
   Dict.keys (filed msgs table) = [KStr "J1"; KStr "J2"; KStr "J3"]).
Proof.
  revert rl table. induction rounds as [|[now rs] rounds IH]; intros rl table Hk; simpl.
  { split; [done|]. split; [constructor|done]. }
  destruct (publisher_pass_shape now rs rl)
    as (m1 & m2 & m3 & rl1 & -> & [Hu1 Hk1] & [Hu2 Hk2] & [Hu3 Hk3]).
  pose proof (filed_pass m1 m2 m3 table Hk1 Hk2 Hk3 Hk) as Hf.
  destruct (IH rl1 (filed [m1; m2; m3] table)) as (Hl & Hall & Hkeys);
    [right; by rewrite Hf|].
  destruct (publisher_loop rounds rl1) as [more rl2]. simpl in *.
  split; [lia|]. split.
  - repeat (constructor; [split; [done|by eexists]|]). done.
  - done.
Qed.

Lemma run_feed_table `{Builtins} (p : ws) (msgs : list obj) (s : System) :
  tasks s !! p = Some Producer ->
  dashboard_clients (hub s) = ∅ ->
  Forall (fun d => is_update d = true /\ is_Some (update_key d)) msgs ->
  junctions (hub (run (feed p msgs) s)) = filed msgs (junctions (hub s)).
Proof.
  revert s. induction msgs as [|d msgs IH]; intros s Ht Hd Hall; [done|].
  apply Forall_cons in Hall as [[Hu [k0 Hk0]] Hall].
  unfold feed. simpl map. rewrite run_cons. fold (feed p msgs).
  set (s1 := fire (Receive p (frame d)) s).
  assert (E1 : s1 = mkSystem (with_junctions (Dict.set k0 d) (hub s)) (tasks s) (accepted s)).
  { subst s1. simpl. rewrite Ht. simpl.
    by rewrite (publish_turn_update_quiet _ _ _ _ Hu Hk0 Hd). }
  assert (F1 : junctions (hub s1) = store (junctions (hub s)) d /\
               dashboard_clients (hub s1) = ∅ /\ tasks s1 !! p = Some Producer).
  { rewrite E1. unfold store. by rewrite Hk0. }
  clearbody s1. destruct F1 as (Fj & Fd & Ft).
  rewrite (IH s1 Ft Fd Hall), Fj. reflexivity.
Qed.

(** X22. [publisher] alone feeding a hub just started: each round sends
    three messages, for J1, J2 and J3 in that order, and the hub applies
    every one of them.  A dashboard that then connects gets as its snapshot
    exactly the three messages of the last round, in that order, whatever
    the earlier rounds reported. *)
Theorem snapshot_is_last_round `{Builtins} `{Floats}
    (clock : nat -> datetime) (p c : ws)
    (earlier : list (instant * (nat -> reading))) (now : instant) (rs : nat -> reading) :
  p <> c ->
  let msgs := publisher (earlier ++ [(now, rs)]) in
  let last_round := (publisher_pass now rs (publisher_loop earlier None).2).1 in
  let s := run (Connect Producer p :: feed p msgs ++ [Connect Dashboard c]) (boot clock) in
  length msgs = (3 * S (length earlier))%nat /\
  map update_key last_round = [Some (KStr "J1"); Some (KStr "J2"); Some (KStr "J3")] /\
  wire (hub s) =
    [Send c (JDict [("type", JStr "snapshot");
                    ("junctions", JList (map JDict last_round))]) true].
Proof.
  intros Hpc msgs last_round s.
  destruct (publisher_loop_shape (earlier ++ [(now, rs)]) None [] (or_introl eq_refl))
    as (Hlen & Hall & _). fold (publisher (earlier ++ [(now, rs)])) in Hlen, Hall.
  fold msgs in Hlen, Hall.
  split; [rewrite Hlen, List.length_app; simpl; lia|].
  destruct (publisher_loop_shape earlier None [] (or_introl eq_refl)) as (_ & _ & Hkeys).
  assert (Hm : msgs = (publisher_loop earlier None).1 ++ last_round).
  { subst msgs last_round. unfold publisher. rewrite publisher_loop_app. simpl.
    destruct (publisher_pass now rs (publisher_loop earlier None).2). simpl.
    by rewrite app_nil_r. }
  destruct (publisher_pass_shape now rs (publisher_loop earlier None).2)
    as (m1 & m2 & m3 & rl1 & E & [Hu1 Hk1] & [Hu2 Hk2] & [Hu3 Hk3]).
  assert (El : last_round = [m1; m2; m3]) by (subst last_round; by rewrite E).
  assert (Ht : filed msgs [] = [(KStr "J1", m1); (KStr "J2", m2); (KStr "J3", m3)]).
  { rewrite Hm, filed_app, El. by apply filed_pass. }
  split; [rewrite El; simpl; by rewrite Hk1, Hk2, Hk3|].
  subst s. rewrite run_cons.
  set (s0 := fire (Connect Producer p) (boot clock)).
  assert (E0 : s0 = mkSystem (with_publish (fun r => r ∪ {[p]}) (hub (boot clock)))
                      (<[p := Producer]> ∅) (∅ ∪ {[p]})).
  { subst s0. simpl. by rewrite decide_False by apply not_elem_of_empty. }
  rewrite run_app.
  assert (Hp0 : tasks s0 !! p = Some Producer)
    by (rewrite E0; simpl; apply lookup_insert_eq).
  assert (Hd0 : dashboard_clients (hub s0) = ∅) by (by rewrite E0).
  pose proof (run_feed_table p msgs s0 Hp0 Hd0 Hall) as Htable.
  destruct (run_feed_quiet p msgs s0 Hp0 Hd0 Hall) as (Ha & Hd & Hw & Hb & _ & _).
  set (s1 := run (feed p msgs) s0) in *.
  rewrite E0 in Ha, Hw, Hb, Htable. simpl in Ha, Hw, Hb, Htable.
  rewrite Ht in Htable.
  assert (Hc : c ∉ accepted s1).
  { rewrite Ha, elem_of_union, elem_of_singleton.
    intros [Hin| ->]; [by apply not_elem_of_empty in Hin|done]. }
  assert (Hbc : broken (hub s1) !! c = None) by (by rewrite Hb).
  simpl. rewrite decide_False by done. rewrite dashboard_open_eq, Hbc. simpl.
  unfold healthy, snapshot_of. rewrite Hbc, Hw, Htable, El. reflexivity.
Qed.

Lemma snapshot_is_last_round_witness :
  let last_round := (publisher_pass (H := sample_floats) (sample_now + 2500000)
                       sample_reading
                       (publisher_loop (H := sample_floats)
                          [(sample_now, sample_reading)] None).2).1 in
  (2%positive <> 1%positive) /\
  wire (hub (run (H := sample_builtins)
               (Connect Producer 2 ::
                feed 2 (publisher (H := sample_floats)
                          [(sample_now, sample_reading);
                           (sample_now + 2500000, sample_reading)])
                ++ [Connect Dashboard 1]) (boot sample_clock)))
  = [Send 1 (JDict [("type", JStr "snapshot");
                    ("junctions", JList (map JDict last_round))]) true].
Proof.
  intros last_round. split; [done|].
  exact (proj2 (proj2 (snapshot_is_last_round (H := sample_builtins) (H0 := sample_floats)
                         sample_clock 2 1 [(sample_now, sample_reading)]
                         (sample_now + 2500000) sample_reading ltac:(done)))).
Defined.

Lemma publisher_turn_suggests `{Floats} (j : junction) (now : instant) (dr : draws)
    (tv tm : datetime) (active_overrides : list (pykey * active)) (rl : option json) :
  (exists dr0, rl = Some (suggestion dr0)) \/
    in_force (j_id j) now active_overrides = None ->
  suggests (publisher_turn j now dr tv tm active_overrides rl).1 /\
  exists dr1, (publisher_turn j now dr tv tm active_overrides rl).2 = Some (suggestion dr1).
Proof.
  intros Hrl. unfold publisher_turn, suggests.
  destruct (in_force (j_id j) now active_overrides) as [o|]; simpl.
  - destruct Hrl as [[dr0 ->]|]; [|done]. split; by exists dr0.
  - split; by exists dr.
Qed.

Lemma publisher_turn_unbound `{Floats} (j : junction) (now : instant) (dr : draws)
    (tv tm : datetime) (active_overrides : list (pykey * active)) :
  let r := publisher_turn j now dr tv tm active_overrides None in
  (Dict.get "rl_suggestion" r.1 = Some JNull /\ r.2 = None) \/
  (suggests r.1 /\ exists dr1, r.2 = Some (suggestion dr1)).
Proof.
  unfold publisher_turn, suggests.
  destruct (in_force (j_id j) now active_overrides) as [o|]; simpl.
  - by left.
  - right. split; by exists dr.
Qed.

Lemma publisher_for_suggests `{Floats} (now : instant) (js : list junction) (i : nat)
    (rs : nat -> reading) (rl : option json) :
  (exists dr0, rl = Some (suggestion dr0)) ->
  Forall suggests (publisher_for now js i rs rl).1 /\
  exists dr1, (publisher_for now js i rs rl).2 = Some (suggestion dr1).
Proof.
  revert i rl. induction js as [|j js IH]; intros i rl Hrl; simpl; [by split|].
  destruct (publisher_turn_suggests j now (r_draws (rs i)) (r_violation (rs i))
              (r_message (rs i)) (r_overrides (rs i)) rl (or_introl Hrl)) as [Hs Hrl1].
  destruct (publisher_turn j now _ _ _ _ rl) as [msg rl1]. simpl in Hs, Hrl1.
  destruct (IH (S i) rl1 Hrl1) as [Hall Hrl2].
  destruct (publisher_for now js (S i) rs rl1) as [msgs rl2]. simpl in *.
  split; [by constructor|done].
Qed.

Lemma publisher_loop_suggests `{Floats} (rounds : list (instant * (nat -> reading)))
    (rl : option json) :
  (exists dr0, rl = Some (suggestion dr0)) ->
  Forall suggests (publisher_loop rounds rl).1.
Proof.
  revert rl. induction rounds as [|[now rs] rounds IH]; intros rl Hrl; simpl; [done|].
  destruct (publisher_for_suggests now sim_junctions 0 rs rl Hrl) as [Hall Hrl1].
  fold (publisher_pass now rs rl) in Hall, Hrl1.
  destruct (publisher_pass now rs rl) as [msgs rl1]. simpl in Hall, Hrl1.
  pose proof (IH rl1 Hrl1) as Hmore.
  destruct (publisher_loop rounds rl1) as [more rl2]. simpl in *.
  by apply Forall_app.
Qed.

Lemma publisher_for_unbound `{Floats} (now : instant) (js : list junction) (i : nat)
    (rs : nat -> reading) :
  let r := publisher_for now js i rs None in
  exists before after,
    r.1 = before ++ after /\
    Forall (fun d => Dict.get "rl_suggestion" d = Some JNull) before /\
    Forall suggests after /\
    ((after = [] /\ r.2 = None) \/ exists dr, r.2 = Some (suggestion dr)).
Proof.
  revert i. induction js as [|j js IH]; intros i; simpl.
  { exists [], []. do 3 (split; [done|]). by left. }
  destruct (publisher_turn_unbound j now (r_draws (rs i)) (r_violation (rs i))
              (r_message (rs i)) (r_overrides (rs i))) as [[Hn Hrl]|[Hs Hrl]];
    destruct (publisher_turn j now _ _ _ _ None) as [msg rl1]; simpl in *.
  - subst rl1. destruct (IH (S i)) as (before & after & E & Hb & Ha & Hend).
    destruct (publisher_for now js (S i) rs None) as [msgs rl2]. simpl in *.
    exists (msg :: before), after. rewrite E.
    split; [done|]. split; [by constructor|]. by split.
  - destruct (publisher_for_suggests now js (S i) rs rl1 Hrl) as [Hall Hrl2].
    destruct (publisher_for now js (S i) rs rl1) as [msgs rl2]. simpl in *.
    exists [], (msg :: msgs). split; [done|]. split; [constructor|].
    split; [by constructor|by right].
Qed.

(** X23. [rl_suggestion] is bound by the first pass made without an
    override and is never unbound again: the messages [publisher] sends are
    a run of messages whose [rl_suggestion] is null followed by messages
    that all carry a suggestion. *)
Theorem suggestion_stays_bound `{Floats} (rounds : list (instant * (nat -> reading))) :
  exists before after,
    publisher rounds = before ++ after /\
    Forall (fun d => Dict.get "rl_suggestion" d = Some JNull) before /\
    Forall suggests after.
Proof.
  unfold publisher.
  induction rounds as [|[now rs] rounds IH]; simpl.
  { by exists [], []. }
  destruct (publisher_for_unbound now sim_junctions 0 rs)
    as (before & after & E & Hb & Ha & Hend).
  fold (publisher_pass now rs None) in E, Hend.
  destruct (publisher_pass now rs None) as [msgs rl1]. simpl in E, Hend. subst msgs.
  destruct Hend as [[-> ->]|Hrl1].
  - destruct IH as (before' & after' & E' & Hb' & Ha').
    destruct (publisher_loop rounds None) as [more rl2]. simpl in *. subst more.
    exists (before ++ before'), after'. rewrite app_nil_r, app_assoc.
    split; [done|]. split; [by apply Forall_app|done].
  - pose proof (publisher_loop_suggests rounds rl1 Hrl1) as Hmore.
    destruct (publisher_loop rounds rl1) as [more rl2]. simpl in *.
    exists before, (after ++ more). rewrite app_assoc.
    split; [done|]. split; [done|]. by apply Forall_app.
Qed.

(** ** [broadcast] and the other tasks *)

Lemma sweep_lone_eq (others : list pause) (message : json) (h : Hub) :
  quiet others ->
  sweep others message (length (elements (dashboard_clients h)))
    (elements (dashboard_clients h)) [] h =
  (with_wire (fun w => w ++ calls message h) h, inr (failed h)).
Proof.
  intros Hq. rewrite sweep_quiet by done.
  replace (length (elements (dashboard_clients h))) with (size (dashboard_clients h))
    by reflexivity.
  by rewrite sweep_alone_eq.
Qed.

(** X24. One call of [broadcast] during whose waits no other task changes
    the registry does not raise.  Its first loop calls [send_text] exactly
    once for every client registered when it starts (whether or not
    earlier sends raised), leaves the registry alone and collects, without
    repetition, exactly the clients whose send raised; the healthy ones get
    the message.  Its second loop then removes each collected client, every
    [remove] finding its client still registered, so the registry ends up
    as the healthy part of what it was and nothing else in memory changes.
    A following [broadcast] of that kind makes no call to a removed client,
    and neither does any handler or route run afterwards.  With no client
    registered a call changes nothing, whatever the other tasks are
    scheduled to do. *)
Theorem undisturbed_broadcast_collects_then_removes
    (others : list pause) (message next : json) (h : Hub) :
  (quiet others ->
   exists (mid h' : Hub) (dead : list ws),
    sweep others message (length (elements (dashboard_clients h)))
      (elements (dashboard_clients h)) [] h = (mid, inr dead) /\
    reap dead mid = (h', inr tt) /\
    broadcast others message h = (h', inr tt) /\
    (* the sweep *)
    wire mid = wire h ++ calls message h /\
    map to (calls message h) = elements (dashboard_clients h) /\
    (forall s, s ∈ calls message h ->
       body s = message /\ delivered s = healthy h (to s)) /\
    dashboard_clients mid = dashboard_clients h /\
    NoDup dead /\
    (forall c, c ∈ dead <-> c ∈ dashboard_clients h /\ healthy h c = false) /\
    (* the removals *)
    (forall c, c ∈ dashboard_clients h' <->
               c ∈ dashboard_clients h /\ healthy h c = true) /\
    wire h' = wire mid /\
    junctions h' = junctions h /\
    publish_clients h' = publish_clients h /\
    (* the next broadcast *)
    (forall others', quiet others' ->
       exists h'', broadcast others' next h' = (h'', inr tt) /\
         wire h'' = wire h' ++ calls next h' /\
         forall c s, c ∈ dead -> s ∈ calls next h' -> to s <> c) /\
    (forall (B : Builtins) s evs c,
       hub s = h' -> c ∈ dead -> c ∈ accepted s ->
       (c ∉ dashboard_clients (hub (run (H := B) evs s))) /\
       sent_to c (wire (hub (run (H := B) evs s))) = sent_to c (wire h'))) /\
  (* nobody registered *)
  (dashboard_clients h = ∅ -> broadcast others message h = (h, inr tt)).
Proof.
  split.
  - intros Hq.
    exists (with_wire (fun w => w ++ calls message h) h),
           (with_dashboard (fun s => s ∖ list_to_set (failed h))
              (with_wire (fun w => w ++ calls message h) h)),
           (failed h).
    assert (Hleft : forall c,
               c ∈ dashboard_clients h ∖ list_to_set (failed h) <->
               c ∈ dashboard_clients h /\ healthy h c = true).
    { intros c. rewrite elem_of_difference, elem_of_list_to_set, elem_of_failed.
      destruct (healthy h c); intuition congruence. }
    split; [by apply sweep_lone_eq|].
    split. { rewrite reap_eq; [done|apply failed_NoDup|].
             intros c Hc. apply elem_of_failed in Hc. simpl; tauto. }
    split; [rewrite broadcast_quiet by done; apply broadcast_eq|].
    split; [done|].
    split; [apply calls_to|].
    split. { intros s Hs. unfold calls in Hs.
             apply list_elem_of_fmap in Hs as (c & -> & _). done. }
    split; [done|].
    split; [apply failed_NoDup|].
    split; [apply elem_of_failed|].
    split; [exact Hleft|].
    split; [done|]. split; [done|]. split; [done|].
    split.
    + intros others' Hq'. eexists.
      split; [rewrite broadcast_quiet by done; apply broadcast_eq|]. split; [done|].
      intros c s Hc Hs <-.
      assert (Hto : to s ∈ elements (dashboard_clients
                (with_dashboard (fun s => s ∖ list_to_set (failed h))
                   (with_wire (fun w => w ++ calls message h) h)))).
      { rewrite <- calls_to with (message := next). by apply list_elem_of_fmap_2. }
      apply elem_of_elements in Hto. simpl in Hto. apply Hleft in Hto.
      apply elem_of_failed in Hc. destruct Hto, Hc. congruence.
    + intros HB s evs c Hs Hc Hacc. rewrite <- Hs. apply run_out; [done|].
      rewrite Hs. intros Hin%Hleft. apply elem_of_failed in Hc.
      destruct Hin, Hc. congruence.
  - intros E. unfold broadcast, bind, gets. rewrite E, elements_empty.
    assert (Hs : sweep others message (length (@nil ws)) [] [] h = (h, inr [])).
    { destruct others as [|p later].
      - cbn [sweep]. rewrite sweep_alone_nil, decide_True; [done|].
        rewrite E. apply size_empty.
      - rewrite sweep_nil, decide_True; [done|]. rewrite E. apply size_empty. }
    by rewrite Hs.
Qed.

Lemma undisturbed_broadcast_collects_then_removes_witness :
  quiet [Pause [] []] /\
  exists h',
    broadcast [Pause [] []] JNull sample_hub = (h', inr tt) /\
    (forall c, c ∈ dashboard_clients h' <->
               c ∈ dashboard_clients sample_hub /\ healthy sample_hub c = true).
Proof.
  assert (Hq : quiet [Pause [] []]) by (by repeat constructor).
  split; [exact Hq|].
  destruct (proj1 (undisturbed_broadcast_collects_then_removes [Pause [] []] JNull JNull
                     sample_hub) Hq)
    as (mid & h' & dead & _ & _ & E & _ & _ & _ & _ & _ & _ & Hleft & _).
  exists h'. split; [exact E|exact Hleft].
Defined.

(** X25. A change of the registry's size during the first wait of
    [broadcast] stops it: with at least one client registered, the second
    step of the loop raises [RuntimeError] out of [broadcast] whatever is
    scheduled later.  One client has been tried and no other; [broadcast]
    has removed nobody, so the registry is what the other tasks made of
    it; the table is untouched. *)
Theorem broadcast_stops_on_size_change
    (p : pause) (later : list pause) (message : json) (h : Hub) :
  dashboard_clients h <> ∅ ->
  size (registry_after p (dashboard_clients h)) <> size (dashboard_clients h) ->
  let r := broadcast (p :: later) message h in
  r.2 = inl RuntimeError /\
  (exists c, c ∈ dashboard_clients h /\
     wire r.1 = wire h ++ [Send c message (healthy h c)]) /\
  dashboard_clients r.1 = registry_after p (dashboard_clients h) /\
  junctions r.1 = junctions h /\
  publish_clients r.1 = publish_clients h.
Proof.
  intros Hne Hsize r. subst r. unfold broadcast, bind, gets.
  destruct (elements (dashboard_clients h)) as [|c rest] eqn:El.
  { apply elements_empty_inv in El. by apply leibniz_equiv in El. }
  assert (Hused : size (dashboard_clients h) = length (c :: rest))
    by (unfold size, set_size; simpl; by rewrite El).
  rewrite sweep_cons, decide_True by done.
  set (h1 := with_dashboard (fun _ => registry_after p (dashboard_clients h))
               (called c message h)).
  assert (Hstop : forall pend dd,
            sweep later message (length (c :: rest)) pend dd h1 = (h1, inl RuntimeError)).
  { intros pend dd. rewrite <- Hused.
    destruct later as [|p' later']; [cbn [sweep]|];
      destruct pend as [|c' pend'];
      rewrite ?sweep_alone_nil, ?sweep_alone_cons, ?sweep_nil, ?sweep_cons;
      by rewrite decide_False. }
  rewrite Hstop. simpl.
  split; [done|]. split; [|done].
  exists c. split; [|done]. apply elem_of_elements. rewrite El. by left.
Qed.

Lemma broadcast_stops_on_size_change_witness :
  dashboard_clients sample_hub <> ∅ /\
  size (registry_after (Pause [Joins 4%positive] []) (dashboard_clients sample_hub))
    <> size (dashboard_clients sample_hub) /\
  (broadcast join_during_first_wait JNull sample_hub).2 = inl RuntimeError /\
  dashboard_clients (broadcast join_during_first_wait JNull sample_hub).1 =
    registry_after (Pause [Joins 4%positive] []) (dashboard_clients sample_hub).
Proof.
  assert (H1 : dashboard_clients sample_hub <> ∅).
  { intros E. assert (Hs : size (dashboard_clients sample_hub) = 0%nat)
      by (rewrite E; apply size_empty). vm_compute in Hs. discriminate. }
  assert (H2 : size (registry_after (Pause [Joins 4%positive] [])
                       (dashboard_clients sample_hub))
               <> size (dashboard_clients sample_hub)).
  { vm_compute. discriminate. }
  split; [exact H1|]. split; [exact H2|].
  destruct (broadcast_stops_on_size_change (Pause [Joins 4%positive] []) [] JNull
              sample_hub H1 H2) as (E & _ & Hd & _).
  split; [exact E|exact Hd].
Defined.
